(** * ESP-IDF OTA backend (esphome/components/ota/ota_backend_esp_idf.cpp)

    A shallow embedding of [IDFOTABackend] and of the part of the ESP-IDF
    platform it drives (PSRAM heap, partition table and flash contents, OTA
    transactions, boot selection), followed by the properties of the update
    session: [begin], [write], [end] and [abort], in direct mode
    (streaming to flash) and in PSRAM mode (buffer, then flash). *)

From Stdlib Require Import ZArith List Bool Ascii String Lia.
From Stdlib Require Import Strings.Byte.
From stdpp Require Import gmap strings list fin_maps.

Open Scope Z_scope.

(** ** Machine integers and bytes *)

(** [size_t] on the ESP32 family is 32 bits wide; arithmetic wraps. *)
Definition SIZE_MAX_P1 : Z := 2 ^ 32.
Definition wrap32 (x : Z) : Z := x mod SIZE_MAX_P1.

#[global] Instance byte_eq_decision : EqDecision byte := Byte.byte_eq_dec.

(** NOR flash can only clear bits: programming a cell stores the bitwise
    AND of its old contents and the new data. *)
Definition byte_and (a b : byte) : byte :=
  let '(a0, (a1, (a2, (a3, (a4, (a5, (a6, a7))))))) := Byte.to_bits a in
  let '(b0, (b1, (b2, (b3, (b4, (b5, (b6, b7))))))) := Byte.to_bits b in
  Byte.of_bits (a0 && b0, (a1 && b1, (a2 && b2, (a3 && b3,
               (a4 && b4, (a5 && b5, (a6 && b6, a7 && b7))))))).

Fixpoint program_cells (old new : list byte) : list byte :=
  match old, new with
  | o :: old', n :: new' => byte_and o n :: program_cells old' new'
  | _, _ => []
  end.

(** ** Result codes *)

(** [esp_err_t] values of ESP-IDF used by the backend (esp_err.h,
    esp_ota_ops.h, spi_flash.h). *)
Definition esp_err_t := Z.
Definition ESP_OK : esp_err_t := 0.
Definition ESP_ERR_NO_MEM : esp_err_t := 257.             (* 0x101 *)
Definition ESP_ERR_INVALID_ARG : esp_err_t := 258.        (* 0x102 *)
Definition ESP_ERR_INVALID_SIZE : esp_err_t := 260.       (* 0x104 *)
Definition ESP_ERR_NOT_FOUND : esp_err_t := 261.          (* 0x105 *)
Definition ESP_ERR_OTA_VALIDATE_FAILED : esp_err_t := 5379. (* 0x1503 *)
Definition ESP_ERR_FLASH_OP_FAIL : esp_err_t := 24577.    (* 0x6001 *)
Definition ESP_ERR_FLASH_OP_TIMEOUT : esp_err_t := 24578. (* 0x6002 *)

(** [OTAResponseTypes] (ota_backend.h), restricted to the codes this backend
    returns.  In the words of the specification: Ok, NoUpdatePartition,
    InsufficientSpace, FlashWriteError, UnknownError, MagicMismatch,
    ChecksumMismatch, UpdateEndError. *)
Inductive OTAResponseTypes :=
| OTA_RESPONSE_OK
| OTA_RESPONSE_ERROR_NO_UPDATE_PARTITION
| OTA_RESPONSE_ERROR_ESP32_NOT_ENOUGH_SPACE
| OTA_RESPONSE_ERROR_WRITING_FLASH
| OTA_RESPONSE_ERROR_UNKNOWN
| OTA_RESPONSE_ERROR_MAGIC
| OTA_RESPONSE_ERROR_MD5_MISMATCH
| OTA_RESPONSE_ERROR_UPDATE_END.

#[global] Instance OTAResponseTypes_eq_dec : EqDecision OTAResponseTypes.
Proof. solve_decision. Defined.

(** ** The platform: partition table, flash, heap, OTA transactions *)

Definition ESP_PARTITION_TYPE_APP : Z := 0.
Definition ESP_PARTITION_TYPE_DATA : Z := 1.
Definition ESP_PARTITION_SUBTYPE_APP_FACTORY : Z := 0.
Definition ESP_PARTITION_SUBTYPE_APP_OTA_0 : Z := 16.     (* 0x10 *)
Definition ESP_PARTITION_SUBTYPE_APP_OTA_MAX : Z := 32.   (* 0x10 + 16 *)
Definition ESP_PARTITION_SUBTYPE_ANY : Z := 255.          (* 0xff *)
Definition SPI_FLASH_SEC_SIZE : Z := 4096.

(** An entry of the partition table together with the flash cells it
    covers; [size] of [esp_partition_t] is the number of cells. *)
Record esp_partition_t := {
  p_type : Z;
  p_subtype : Z;
  p_label : string;
  p_data : list byte
}.

Definition p_size (p : esp_partition_t) : Z := Z.of_nat (length (p_data p)).

Definition with_data (d : list byte) (p : esp_partition_t) : esp_partition_t :=
  {| p_type := p_type p; p_subtype := p_subtype p; p_label := p_label p;
     p_data := d |}.

(** An open OTA transaction ([ota_ops_entry_t]): the partition written to
    and the number of bytes written so far. *)
Record ota_ops_entry_t := {
  oe_part : nat;
  oe_wrote_size : Z
}.

Record World := {
  w_psram_free : Z;                 (* free bytes in the MALLOC_CAP_SPIRAM pool *)
  w_heap : gmap Z (list byte);      (* live PSRAM blocks, by address *)
  w_heap_next : positive;           (* address the allocator hands out next *)
  w_heap_fault : bool;              (* a block that is not live was freed or written *)
  w_table : list esp_partition_t;   (* partition table and flash contents *)
  w_running : nat;                  (* index of the running partition *)
  w_boot : option nat;              (* partition selected for the next boot *)
  w_ota : gmap Z ota_ops_entry_t;   (* open OTA transactions, by handle *)
  w_ota_next : positive;            (* next OTA handle *)
  w_script : list esp_err_t;        (* results the platform reports for the
                                       next fallible calls; none left: success *)
  w_wdt_timeout_ms : Z              (* current task watchdog timeout *)
}.

Definition set_psram_free (v : Z) (w : World) : World :=
  {| w_psram_free := v; w_heap := w_heap w; w_heap_next := w_heap_next w;
     w_heap_fault := w_heap_fault w; w_table := w_table w;
     w_running := w_running w; w_boot := w_boot w; w_ota := w_ota w;
     w_ota_next := w_ota_next w; w_script := w_script w;
     w_wdt_timeout_ms := w_wdt_timeout_ms w |}.

Definition set_heap (v : gmap Z (list byte)) (w : World) : World :=
  {| w_psram_free := w_psram_free w; w_heap := v; w_heap_next := w_heap_next w;
     w_heap_fault := w_heap_fault w; w_table := w_table w;
     w_running := w_running w; w_boot := w_boot w; w_ota := w_ota w;
     w_ota_next := w_ota_next w; w_script := w_script w;
     w_wdt_timeout_ms := w_wdt_timeout_ms w |}.

Definition set_heap_next (v : positive) (w : World) : World :=
  {| w_psram_free := w_psram_free w; w_heap := w_heap w; w_heap_next := v;
     w_heap_fault := w_heap_fault w; w_table := w_table w;
     w_running := w_running w; w_boot := w_boot w; w_ota := w_ota w;
     w_ota_next := w_ota_next w; w_script := w_script w;
     w_wdt_timeout_ms := w_wdt_timeout_ms w |}.

Definition set_heap_fault (v : bool) (w : World) : World :=
  {| w_psram_free := w_psram_free w; w_heap := w_heap w;
     w_heap_next := w_heap_next w; w_heap_fault := v; w_table := w_table w;
     w_running := w_running w; w_boot := w_boot w; w_ota := w_ota w;
     w_ota_next := w_ota_next w; w_script := w_script w;
     w_wdt_timeout_ms := w_wdt_timeout_ms w |}.

Definition set_table (v : list esp_partition_t) (w : World) : World :=
  {| w_psram_free := w_psram_free w; w_heap := w_heap w;
     w_heap_next := w_heap_next w; w_heap_fault := w_heap_fault w;
     w_table := v; w_running := w_running w; w_boot := w_boot w;
     w_ota := w_ota w; w_ota_next := w_ota_next w; w_script := w_script w;
     w_wdt_timeout_ms := w_wdt_timeout_ms w |}.

Definition set_boot (v : option nat) (w : World) : World :=
  {| w_psram_free := w_psram_free w; w_heap := w_heap w;
     w_heap_next := w_heap_next w; w_heap_fault := w_heap_fault w;
     w_table := w_table w; w_running := w_running w; w_boot := v;
     w_ota := w_ota w; w_ota_next := w_ota_next w; w_script := w_script w;
     w_wdt_timeout_ms := w_wdt_timeout_ms w |}.

Definition set_ota (v : gmap Z ota_ops_entry_t) (w : World) : World :=
  {| w_psram_free := w_psram_free w; w_heap := w_heap w;
     w_heap_next := w_heap_next w; w_heap_fault := w_heap_fault w;
     w_table := w_table w; w_running := w_running w; w_boot := w_boot w;
     w_ota := v; w_ota_next := w_ota_next w; w_script := w_script w;
     w_wdt_timeout_ms := w_wdt_timeout_ms w |}.

Definition set_ota_next (v : positive) (w : World) : World :=
  {| w_psram_free := w_psram_free w; w_heap := w_heap w;
     w_heap_next := w_heap_next w; w_heap_fault := w_heap_fault w;
     w_table := w_table w; w_running := w_running w; w_boot := w_boot w;
     w_ota := w_ota w; w_ota_next := v; w_script := w_script w;
     w_wdt_timeout_ms := w_wdt_timeout_ms w |}.

Definition set_script (v : list esp_err_t) (w : World) : World :=
  {| w_psram_free := w_psram_free w; w_heap := w_heap w;
     w_heap_next := w_heap_next w; w_heap_fault := w_heap_fault w;
     w_table := w_table w; w_running := w_running w; w_boot := w_boot w;
     w_ota := w_ota w; w_ota_next := w_ota_next w; w_script := v;
     w_wdt_timeout_ms := w_wdt_timeout_ms w |}.

Definition set_wdt_timeout_ms (v : Z) (w : World) : World :=
  {| w_psram_free := w_psram_free w; w_heap := w_heap w;
     w_heap_next := w_heap_next w; w_heap_fault := w_heap_fault w;
     w_table := w_table w; w_running := w_running w; w_boot := w_boot w;
     w_ota := w_ota w; w_ota_next := w_ota_next w; w_script := w_script w;
     w_wdt_timeout_ms := v |}.

(** The result the platform reports for the next fallible call. *)
Definition next_result (w : World) : esp_err_t * World :=
  match w_script w with
  | [] => (ESP_OK, w)
  | r :: rest => (r, set_script rest w)
  end.

(** *** Partition lookup *)

Definition part_matches (ty sub : Z) (label : option string)
    (p : esp_partition_t) : bool :=
  (p_type p =? ty) &&
  ((sub =? ESP_PARTITION_SUBTYPE_ANY) || (p_subtype p =? sub)) &&
  match label with
  | None => true
  | Some l => String.eqb (p_label p) l
  end.

Fixpoint find_first_from (i : nat) (tbl : list esp_partition_t)
    (ty sub : Z) (label : option string) : option nat :=
  match tbl with
  | [] => None
  | p :: rest =>
      if part_matches ty sub label p then Some i
      else find_first_from (S i) rest ty sub label
  end.

(** [esp_partition_find_first(type, subtype, label)]; a null label is
    [None]. *)
Definition esp_partition_find_first (ty sub : Z) (label : option string)
    (w : World) : option nat :=
  find_first_from 0 (w_table w) ty sub label.

(** The scan of [esp_ota_get_next_update_partition]: OTA slots are visited
    from ota_0 upwards; the slot after the running one is chosen, or the
    first OTA slot when the running partition is the last slot or no OTA
    slot at all. *)
Fixpoint next_update_scan (subs : list Z) (w : World) (start : nat)
    (default_ota : option nat) (next_is_result : bool) : option nat :=
  match subs with
  | [] => default_ota
  | t :: rest =>
      match esp_partition_find_first ESP_PARTITION_TYPE_APP t None w with
      | None => next_update_scan rest w start default_ota next_is_result
      | Some p =>
          let d := match default_ota with None => Some p | Some _ => default_ota end in
          if Nat.eqb p start then next_update_scan rest w start d true
          else if next_is_result then Some p
          else next_update_scan rest w start d next_is_result
      end
  end.

Definition ota_subtypes : list Z :=
  map (fun k => ESP_PARTITION_SUBTYPE_APP_OTA_0 + Z.of_nat k) (seq 0 16).

(** [esp_ota_get_next_update_partition(NULL)]. *)
Definition esp_ota_get_next_update_partition (w : World) : option nat :=
  next_update_scan ota_subtypes w (w_running w) None false.

(** *** Flash cells *)

Definition erase_cells (off len : Z) (d : list byte) : list byte :=
  take (Z.to_nat off) d ++ replicate (Z.to_nat len) xff
    ++ drop (Z.to_nat (off + len)) d.

Definition program_at (off : Z) (new d : list byte) : list byte :=
  take (Z.to_nat off) d
    ++ program_cells (take (length new) (drop (Z.to_nat off) d)) new
    ++ drop (Z.to_nat off + length new) d.

Definition read_cells (off len : Z) (d : list byte) : list byte :=
  take (Z.to_nat len) (drop (Z.to_nat off) d).

Definition update_part (i : nat) (f : list byte -> list byte) (w : World) : World :=
  match w_table w !! i with
  | Some p => set_table (<[i := with_data (f (p_data p)) p]> (w_table w)) w
  | None => w
  end.

Definition part_size (i : nat) (w : World) : Z :=
  match w_table w !! i with
  | Some p => p_size p
  | None => 0
  end.

(** *** PSRAM heap *)

Definition heap_caps_get_free_size (w : World) : Z := w_psram_free w.

(** [heap_caps_malloc(n, MALLOC_CAP_SPIRAM)]; the null pointer is 0.  The
    allocator may refuse a request that the free-size report would allow
    (fragmentation): such refusals come from the script. *)
Definition heap_caps_malloc (n : Z) (w : World) : Z * World :=
  let '(r, w1) := next_result w in
  if (r =? ESP_OK) && (n <=? w_psram_free w1) then
    let p := Z.pos (w_heap_next w1) in
    (p, set_psram_free (w_psram_free w1 - n)
          (set_heap_next (w_heap_next w1 + Z.to_pos (n + 1))
             (set_heap (<[p := replicate (Z.to_nat n) x00]> (w_heap w1)) w1)))
  else (0, w1).

Definition heap_caps_free (p : Z) (w : World) : World :=
  match w_heap w !! p with
  | Some blk =>
      set_psram_free (w_psram_free w + Z.of_nat (length blk))
        (set_heap (delete p (w_heap w)) w)
  | None => set_heap_fault true w
  end.

(** [memcpy(p + off, data, len)] into a PSRAM block. *)
Definition memcpy_to_heap (p off : Z) (data : list byte) (w : World) : World :=
  match w_heap w !! p with
  | Some blk =>
      if Z.to_nat off + length data <=? length blk then
        set_heap (<[p := take (Z.to_nat off) blk ++ data
                          ++ drop (Z.to_nat off + length data) blk]> (w_heap w)) w
      else set_heap_fault true w
  | None => set_heap_fault true w
  end%nat.

(** The [len] bytes at [p + off]. *)
Definition heap_read (p off len : Z) (w : World) : list byte :=
  match w_heap w !! p with
  | Some blk => read_cells off len blk
  | None => []
  end.

(** *** OTA transactions and partition access *)

Definition OTA_SIZE_UNKNOWN : Z := 4294967295.

Definition round_up_sector (n : Z) : Z :=
  (n + SPI_FLASH_SEC_SIZE - 1) / SPI_FLASH_SEC_SIZE * SPI_FLASH_SEC_SIZE.

(** [esp_ota_begin(partition, image_size, &handle)]: erases the sectors the
    image will occupy (the whole partition for size 0 or unknown) and opens
    a transaction.  The handle is written only on success. *)
Definition esp_ota_begin (part : nat) (image_size : Z) (w : World)
    : esp_err_t * option Z * World :=
  let '(r, w1) := next_result w in
  if negb (r =? ESP_OK) then (r, None, w1)
  else match w_table w1 !! part with
       | None => (ESP_ERR_INVALID_ARG, None, w1)
       | Some p =>
           let whole := (image_size =? 0) || (image_size =? OTA_SIZE_UNKNOWN) in
           if negb whole && (p_size p <? image_size)
           then (ESP_ERR_INVALID_SIZE, None, w1)
           else
             let len := if whole then p_size p
                        else Z.min (p_size p) (round_up_sector image_size) in
             let h := Z.pos (w_ota_next w1) in
             (ESP_OK, Some h,
              set_ota_next (w_ota_next w1 + 1)
                (set_ota (<[h := {| oe_part := part; oe_wrote_size := 0 |}]> (w_ota w1))
                   (update_part part (erase_cells 0 len) w1)))
       end.

(** [esp_ota_write(handle, data, len)]: programs the chunk at the
    transaction's current offset. *)
Definition esp_ota_write (h : Z) (data : list byte) (w : World)
    : esp_err_t * World :=
  let '(r, w1) := next_result w in
  match w_ota w1 !! h with
  | None => (ESP_ERR_INVALID_ARG, w1)
  | Some e =>
      if negb (r =? ESP_OK) then (r, w1)
      else if part_size (oe_part e) w1 <? oe_wrote_size e + Z.of_nat (length data)
      then (ESP_ERR_INVALID_SIZE, w1)
      else
        (ESP_OK,
         set_ota (<[h := {| oe_part := oe_part e;
                            oe_wrote_size := oe_wrote_size e + Z.of_nat (length data) |}]>
                    (w_ota w1))
           (update_part (oe_part e) (program_at (oe_wrote_size e) data) w1))
  end.

(** [esp_ota_end(handle)]: the transaction is released on every path on
    which the handle was found. *)
Definition esp_ota_end (h : Z) (w : World) : esp_err_t * World :=
  let '(r, w1) := next_result w in
  match w_ota w1 !! h with
  | None => (ESP_ERR_NOT_FOUND, w1)
  | Some e =>
      let w2 := set_ota (delete h (w_ota w1)) w1 in
      if oe_wrote_size e =? 0 then (ESP_ERR_INVALID_ARG, w2) else (r, w2)
  end.

(** [esp_ota_abort(handle)]. *)
Definition esp_ota_abort (h : Z) (w : World) : esp_err_t * World :=
  match w_ota w !! h with
  | None => (ESP_ERR_NOT_FOUND, w)
  | Some _ => (ESP_OK, set_ota (delete h (w_ota w)) w)
  end.

(** [esp_ota_set_boot_partition(partition)]. *)
Definition esp_ota_set_boot_partition (part : option nat) (w : World)
    : esp_err_t * World :=
  let '(r, w1) := next_result w in
  if negb (r =? ESP_OK) then (r, w1)
  else match part with
       | None => (ESP_ERR_INVALID_ARG, w1)
       | Some i =>
           match w_table w1 !! i with
           | None => (ESP_ERR_INVALID_ARG, w1)
           | Some p =>
               if p_type p =? ESP_PARTITION_TYPE_APP
               then (ESP_OK, set_boot (Some i) w1)
               else (ESP_ERR_INVALID_ARG, w1)
           end
       end.

Definition range_check (part : nat) (off len : Z) (w : World) : esp_err_t :=
  if part_size part w <? off then ESP_ERR_INVALID_ARG
  else if part_size part w <? off + len then ESP_ERR_INVALID_SIZE
  else ESP_OK.

(** [esp_partition_erase_range(partition, offset, size)]. *)
Definition esp_partition_erase_range (part : nat) (off len : Z) (w : World)
    : esp_err_t * World :=
  let '(r, w1) := next_result w in
  if negb (r =? ESP_OK) then (r, w1)
  else if negb (range_check part off len w1 =? ESP_OK)
  then (range_check part off len w1, w1)
  else (ESP_OK, update_part part (erase_cells off len) w1).

(** [esp_partition_write(partition, dst_offset, src, size)]. *)
Definition esp_partition_write (part : nat) (off : Z) (data : list byte)
    (w : World) : esp_err_t * World :=
  let '(r, w1) := next_result w in
  if negb (r =? ESP_OK) then (r, w1)
  else if negb (range_check part off (Z.of_nat (length data)) w1 =? ESP_OK)
  then (range_check part off (Z.of_nat (length data)) w1, w1)
  else (ESP_OK, update_part part (program_at off data) w1).

(** [esp_partition_read(partition, src_offset, dst, size)]; the bytes read
    are returned with the result. *)
Definition esp_partition_read (part : nat) (off len : Z) (w : World)
    : esp_err_t * list byte * World :=
  let '(r, w1) := next_result w in
  if negb (r =? ESP_OK) then (r, [], w1)
  else if negb (range_check part off len w1 =? ESP_OK)
  then (range_check part off len w1, [], w1)
  else match w_table w1 !! part with
       | Some p => (ESP_OK, read_cells off len (p_data p), w1)
       | None => (ESP_ERR_INVALID_ARG, [], w1)
       end.

(** ** Calls observed on the platform *)

Inductive Event :=
| EvBackendAbort                                   (* IDFOTABackend::abort entered *)
| EvMalloc (n p : Z)
| EvFree (p : Z)
| EvOtaBegin (part : nat) (image_size : Z) (r : esp_err_t)
| EvOtaWrite (h : Z) (data : list byte) (r : esp_err_t)
| EvOtaEnd (h : Z) (r : esp_err_t)
| EvOtaAbort (h : Z)
| EvSetBoot (part : option nat) (r : esp_err_t)
| EvErase (part : nat) (off len : Z) (r : esp_err_t)
| EvPartWrite (part : nat) (off : Z) (data : list byte) (r : esp_err_t)
| EvPartRead (part : nat) (off len : Z) (r : esp_err_t)
| EvWdtReconfigure (timeout_ms : Z)
| EvWdtReset.

(** Calls that change flash cells or the boot selection. *)
Definition touches_flash (e : Event) : bool :=
  match e with
  | EvOtaBegin _ _ _ | EvOtaWrite _ _ _ | EvSetBoot _ _
  | EvErase _ _ _ _ | EvPartWrite _ _ _ _ => true
  | _ => false
  end.

(** ** The digest accumulator (esphome/components/md5) *)

(** The accumulator is modelled by the bytes fed since [init] and the
    digest bytes produced by [calculate]. *)
Record MD5Digest := {
  md5_ctx : list byte;
  md5_digest : list byte
}.

Definition md5_init (d : MD5Digest) : MD5Digest :=
  {| md5_ctx := []; md5_digest := replicate 16 x00 |}.

Definition md5_add (data : list byte) (d : MD5Digest) : MD5Digest :=
  {| md5_ctx := md5_ctx d ++ data; md5_digest := md5_digest d |}.

Definition hex_digit (n : N) : ascii :=
  nth (N.to_nat n) (list_ascii_of_string "0123456789abcdef") "0"%char.

Definition hex_of_byte (b : byte) : list ascii :=
  [hex_digit (Byte.to_N b / 16); hex_digit (Byte.to_N b mod 16)].

Definition to_lower (c : ascii) : ascii :=
  let n := N_of_ascii c in
  if ((65 <=? n) && (n <=? 90))%N then ascii_of_N (n + 32) else c.

(** Modelled from the spec: [MD5Digest::equals_hex] lives in the md5
    component, outside this repository's sources.  The digest is compared
    case-insensitively, as a fixed-length (32 characters) hexadecimal
    string, with the expected value. *)
Definition equals_hex (d : MD5Digest) (expected : list ascii) : bool :=
  bool_decide (map to_lower (take 32 expected)
               = flat_map hex_of_byte (md5_digest d)).

(** ** The backend object *)

(** The fields of [IDFOTABackend] (ota_backend_esp_idf.h).  Pointers into
    the PSRAM heap are addresses, the null pointer is 0; [partition_] is an
    index into the partition table, [None] for null. *)
Record IDFOTABackend := {
  update_handle_ : Z;
  partition_ : option nat;
  md5_ : MD5Digest;
  expected_bin_md5_ : list ascii;
  md5_set_ : bool;
  use_psram_ : bool;
  psram_buffer_ : Z;
  buffer_size_ : Z;
  bytes_received_ : Z;
  target_partition_label_ : string
}.

Definition set_update_handle (v : Z) (b : IDFOTABackend) : IDFOTABackend :=
  {| update_handle_ := v; partition_ := partition_ b; md5_ := md5_ b;
     expected_bin_md5_ := expected_bin_md5_ b; md5_set_ := md5_set_ b;
     use_psram_ := use_psram_ b; psram_buffer_ := psram_buffer_ b;
     buffer_size_ := buffer_size_ b; bytes_received_ := bytes_received_ b;
     target_partition_label_ := target_partition_label_ b |}.

Definition set_partition (v : option nat) (b : IDFOTABackend) : IDFOTABackend :=
  {| update_handle_ := update_handle_ b; partition_ := v; md5_ := md5_ b;
     expected_bin_md5_ := expected_bin_md5_ b; md5_set_ := md5_set_ b;
     use_psram_ := use_psram_ b; psram_buffer_ := psram_buffer_ b;
     buffer_size_ := buffer_size_ b; bytes_received_ := bytes_received_ b;
     target_partition_label_ := target_partition_label_ b |}.

Definition set_md5 (v : MD5Digest) (b : IDFOTABackend) : IDFOTABackend :=
  {| update_handle_ := update_handle_ b; partition_ := partition_ b; md5_ := v;
     expected_bin_md5_ := expected_bin_md5_ b; md5_set_ := md5_set_ b;
     use_psram_ := use_psram_ b; psram_buffer_ := psram_buffer_ b;
     buffer_size_ := buffer_size_ b; bytes_received_ := bytes_received_ b;
     target_partition_label_ := target_partition_label_ b |}.

Definition set_expected_md5 (v : list ascii) (b : IDFOTABackend) : IDFOTABackend :=
  {| update_handle_ := update_handle_ b; partition_ := partition_ b;
     md5_ := md5_ b; expected_bin_md5_ := v; md5_set_ := true;
     use_psram_ := use_psram_ b; psram_buffer_ := psram_buffer_ b;
     buffer_size_ := buffer_size_ b; bytes_received_ := bytes_received_ b;
     target_partition_label_ := target_partition_label_ b |}.

Definition set_use_psram (v : bool) (b : IDFOTABackend) : IDFOTABackend :=
  {| update_handle_ := update_handle_ b; partition_ := partition_ b;
     md5_ := md5_ b; expected_bin_md5_ := expected_bin_md5_ b;
     md5_set_ := md5_set_ b; use_psram_ := v;
     psram_buffer_ := psram_buffer_ b; buffer_size_ := buffer_size_ b;
     bytes_received_ := bytes_received_ b;
     target_partition_label_ := target_partition_label_ b |}.

Definition set_psram_buffer (v : Z) (b : IDFOTABackend) : IDFOTABackend :=
  {| update_handle_ := update_handle_ b; partition_ := partition_ b;
     md5_ := md5_ b; expected_bin_md5_ := expected_bin_md5_ b;
     md5_set_ := md5_set_ b; use_psram_ := use_psram_ b; psram_buffer_ := v;
     buffer_size_ := buffer_size_ b; bytes_received_ := bytes_received_ b;
     target_partition_label_ := target_partition_label_ b |}.

Definition set_buffer_size (v : Z) (b : IDFOTABackend) : IDFOTABackend :=
  {| update_handle_ := update_handle_ b; partition_ := partition_ b;
     md5_ := md5_ b; expected_bin_md5_ := expected_bin_md5_ b;
     md5_set_ := md5_set_ b; use_psram_ := use_psram_ b;
     psram_buffer_ := psram_buffer_ b; buffer_size_ := v;
     bytes_received_ := bytes_received_ b;
     target_partition_label_ := target_partition_label_ b |}.

Definition set_bytes_received (v : Z) (b : IDFOTABackend) : IDFOTABackend :=
  {| update_handle_ := update_handle_ b; partition_ := partition_ b;
     md5_ := md5_ b; expected_bin_md5_ := expected_bin_md5_ b;
     md5_set_ := md5_set_ b; use_psram_ := use_psram_ b;
     psram_buffer_ := psram_buffer_ b; buffer_size_ := buffer_size_ b;
     bytes_received_ := v;
     target_partition_label_ := target_partition_label_ b |}.

Definition set_target_label (v : string) (b : IDFOTABackend) : IDFOTABackend :=
  {| update_handle_ := update_handle_ b; partition_ := partition_ b;
     md5_ := md5_ b; expected_bin_md5_ := expected_bin_md5_ b;
     md5_set_ := md5_set_ b; use_psram_ := use_psram_ b;
     psram_buffer_ := psram_buffer_ b; buffer_size_ := buffer_size_ b;
     bytes_received_ := bytes_received_ b; target_partition_label_ := v |}.

(** The object as its member initialisers leave it. *)
Definition fresh_backend : IDFOTABackend :=
  {| update_handle_ := 0; partition_ := None;
     md5_ := {| md5_ctx := []; md5_digest := [] |};
     expected_bin_md5_ := []; md5_set_ := false; use_psram_ := false;
     psram_buffer_ := 0; buffer_size_ := 0; bytes_received_ := 0;
     target_partition_label_ := EmptyString |}.

(** ** Methods as state transformers with early return *)

(** The backend object, the platform, and the calls made so far. *)
Record St := {
  be : IDFOTABackend;
  world : World;
  log : list Event
}.

Inductive Outcome (A : Type) :=
| Next (a : A) (st : St)                  (* control goes on *)
| Return (r : OTAResponseTypes) (st : St) (* a [return] statement was executed *)
| Diverge.                                (* a loop ran out of its step budget *)
Arguments Next {A} a st.
Arguments Return {A} r st.
Arguments Diverge {A}.

Definition M (A : Type) : Type := St -> Outcome A.

Definition ret {A} (a : A) : M A := fun st => Next a st.

Definition bind {A B} (m : M A) (k : A -> M B) : M B :=
  fun st =>
    match m st with
    | Next a st' => k a st'
    | Return r st' => Return r st'
    | Diverge => Diverge
    end.

Declare Scope method_scope.
Delimit Scope method_scope with method.
Bind Scope method_scope with M.
Notation "x <- c ;; k" := (bind c (fun x => k))
  (at level 100, c at next level, k at level 200, right associativity)
  : method_scope.
Notation "c ;; k" := (bind c (fun _ => k))
  (at level 100, k at level 200, right associativity) : method_scope.
Open Scope method_scope.

Definition return_ {A} (r : OTAResponseTypes) : M A := fun st => Return r st.

Definition this : M IDFOTABackend := fun st => Next (be st) st.

Definition assign (f : IDFOTABackend -> IDFOTABackend) : M unit :=
  fun st => Next tt {| be := f (be st); world := world st; log := log st |}.

Definition emit (e : Event) : M unit :=
  fun st => Next tt {| be := be st; world := world st; log := log st ++ [e] |}.

Definition query {A} (f : World -> A) : M A := fun st => Next (f (world st)) st.

Definition platform {A} (op : World -> A * World) : M A :=
  fun st =>
    let '(a, w') := op (world st) in
    Next a {| be := be st; world := w'; log := log st |}.

Definition when_ (c : bool) (m : M unit) : M unit := if c then m else ret tt.

(** [set_psram_mode], [set_target_partition] and [set_update_md5]. *)
Definition set_psram_mode (enable : bool) : M unit := assign (set_use_psram enable).

Definition set_target_partition (label : option string) : M unit :=
  match label with
  | Some l =>
      when_ (0 <? Z.of_nat (String.length l))
        (assign (set_target_label (substring 0 16 l)))
  | None => ret tt
  end.

Definition set_update_md5 (expected_md5 : list ascii) : M unit :=
  assign (set_expected_md5 (take 32 expected_md5)).

(** [make_ota_backend]: the object as constructed, in PSRAM mode when the
    build defines USE_OTA_PSRAM_MODE. *)
Definition make_ota_backend (USE_OTA_PSRAM_MODE : bool) : IDFOTABackend :=
  if USE_OTA_PSRAM_MODE then set_use_psram true fresh_backend else fresh_backend.

(** A toy digest for concrete runs: sixteen copies of the last byte fed. *)
Definition last_byte_digest (bs : list byte) : list byte :=
  replicate 16 (List.last bs x00).

Section Backend.

(** The digest function of the md5 component and the watchdog timeout of
    the build configuration (sdkconfig). *)
Variable md5_hash : list byte -> list byte.
Variable CONFIG_ESP_TASK_WDT_TIMEOUT_S : Z.

Definition md5_calculate (d : MD5Digest) : MD5Digest :=
  {| md5_ctx := md5_ctx d; md5_digest := md5_hash (md5_ctx d) |}.

Definition esp_task_wdt_reconfigure (timeout_ms : Z) : M unit :=
  platform (fun w => (tt, set_wdt_timeout_ms timeout_ms w)) ;;
  emit (EvWdtReconfigure timeout_ms).

Definition esp_task_wdt_reset : M unit := emit EvWdtReset.

(** *** [IDFOTABackend::abort] *)
Definition abort : M unit :=
  emit EvBackendAbort ;;
  s <- this ;;
  when_ (negb (psram_buffer_ s =? 0))
    (platform (fun w => (tt, heap_caps_free (psram_buffer_ s) w)) ;;
     emit (EvFree (psram_buffer_ s)) ;;
     assign (set_psram_buffer 0)) ;;
  s <- this ;;
  when_ (negb (update_handle_ s =? 0))
    (platform (esp_ota_abort (update_handle_ s)) ;;
     emit (EvOtaAbort (update_handle_ s)) ;;
     assign (set_update_handle 0)) ;;
  assign (set_buffer_size 0) ;;
  assign (set_bytes_received 0).

(** *** [IDFOTABackend::begin] *)
Definition begin (image_size : Z) : M unit :=
  s <- this ;;
  (* PSRAM mode: buffer entire firmware in PSRAM *)
  when_ (use_psram_ s)
    (free <- query heap_caps_get_free_size ;;
     when_ (free =? 0) (return_ OTA_RESPONSE_ERROR_NO_UPDATE_PARTITION) ;;
     free_psram <- query heap_caps_get_free_size ;;
     when_ (free_psram <? image_size)
       (return_ OTA_RESPONSE_ERROR_ESP32_NOT_ENOUGH_SPACE) ;;
     p <- platform (heap_caps_malloc image_size) ;;
     emit (EvMalloc image_size p) ;;
     assign (set_psram_buffer p) ;;
     when_ (p =? 0) (return_ OTA_RESPONSE_ERROR_ESP32_NOT_ENOUGH_SPACE) ;;
     assign (set_buffer_size image_size) ;;
     assign (set_bytes_received 0) ;;
     assign (fun b => set_md5 (md5_init (md5_ b)) b) ;;
     return_ OTA_RESPONSE_OK) ;;
  (* Standard mode: write directly to flash *)
  part <- query esp_ota_get_next_update_partition ;;
  assign (set_partition part) ;;
  match part with
  | None => return_ OTA_RESPONSE_ERROR_NO_UPDATE_PARTITION
  | Some i =>
      when_ (CONFIG_ESP_TASK_WDT_TIMEOUT_S <? 15)
        (esp_task_wdt_reconfigure 15000) ;;
      res <- platform (fun w => let '(err, h, w') := esp_ota_begin i image_size w
                                in ((err, h), w')) ;;
      emit (EvOtaBegin i image_size (fst res)) ;;
      match snd res with
      | Some h => assign (set_update_handle h)
      | None => ret tt
      end ;;
      when_ (CONFIG_ESP_TASK_WDT_TIMEOUT_S <? 15)
        (esp_task_wdt_reconfigure (CONFIG_ESP_TASK_WDT_TIMEOUT_S * 1000)) ;;
      let err := fst res in
      when_ (negb (err =? ESP_OK))
        (s <- this ;;
         platform (esp_ota_abort (update_handle_ s)) ;;
         emit (EvOtaAbort (update_handle_ s)) ;;
         assign (set_update_handle 0) ;;
         if err =? ESP_ERR_INVALID_SIZE
         then return_ OTA_RESPONSE_ERROR_ESP32_NOT_ENOUGH_SPACE
         else if (err =? ESP_ERR_FLASH_OP_TIMEOUT) || (err =? ESP_ERR_FLASH_OP_FAIL)
         then return_ OTA_RESPONSE_ERROR_WRITING_FLASH
         else return_ OTA_RESPONSE_ERROR_UNKNOWN) ;;
      assign (fun b => set_md5 (md5_init (md5_ b)) b) ;;
      return_ OTA_RESPONSE_OK
  end.

(** *** [IDFOTABackend::write]; [len] is the length of [data]. *)
Definition write (data : list byte) : M unit :=
  let len := Z.of_nat (length data) in
  s <- this ;;
  (* PSRAM mode: copy to buffer *)
  when_ (use_psram_ s)
    (when_ (buffer_size_ s <? wrap32 (bytes_received_ s + len))
       (return_ OTA_RESPONSE_ERROR_UNKNOWN) ;;
     platform (fun w => (tt, memcpy_to_heap (psram_buffer_ s) (bytes_received_ s) data w)) ;;
     assign (set_bytes_received (wrap32 (bytes_received_ s + len))) ;;
     assign (fun b => set_md5 (md5_add data (md5_ b)) b) ;;
     return_ OTA_RESPONSE_OK) ;;
  (* Standard mode: write to flash *)
  err <- platform (esp_ota_write (update_handle_ s) data) ;;
  emit (EvOtaWrite (update_handle_ s) data err) ;;
  assign (fun b => set_md5 (md5_add data (md5_ b)) b) ;;
  when_ (negb (err =? ESP_OK))
    (if err =? ESP_ERR_OTA_VALIDATE_FAILED
     then return_ OTA_RESPONSE_ERROR_MAGIC
     else if (err =? ESP_ERR_FLASH_OP_TIMEOUT) || (err =? ESP_ERR_FLASH_OP_FAIL)
     then return_ OTA_RESPONSE_ERROR_WRITING_FLASH
     else return_ OTA_RESPONSE_ERROR_UNKNOWN) ;;
  return_ OTA_RESPONSE_OK.

(** *** [IDFOTABackend::end] *)

Definition CHUNK_SIZE : Z := 4096.

(** The loop [for (offset = 0; offset < buffer_size_; offset += CHUNK_SIZE)]
    that programs the buffer into partition [i]; [fuel] bounds the number
    of times the loop condition is evaluated. *)
Fixpoint flash_from_psram (fuel : nat) (i : nat) (offset : Z) : M unit :=
  match fuel with
  | O => fun _ => Diverge
  | S fuel' =>
      s <- this ;;
      if offset <? buffer_size_ s then
        let chunk_len := Z.min CHUNK_SIZE (buffer_size_ s - offset) in
        src <- query (heap_read (psram_buffer_ s) offset chunk_len) ;;
        err <- platform (esp_partition_write i offset src) ;;
        emit (EvPartWrite i offset src err) ;;
        when_ (negb (err =? ESP_OK))
          (abort ;; return_ OTA_RESPONSE_ERROR_WRITING_FLASH) ;;
        esp_task_wdt_reset ;;
        flash_from_psram fuel' i (wrap32 (offset + CHUNK_SIZE))
      else ret tt
  end.

(** The read-back loop; [verify_buf] is the local buffer the chunk is read
    into. *)
Fixpoint verify_flash (fuel : nat) (i : nat) (offset : Z) : M unit :=
  match fuel with
  | O => fun _ => Diverge
  | S fuel' =>
      s <- this ;;
      if offset <? buffer_size_ s then
        let chunk_len := Z.min CHUNK_SIZE (buffer_size_ s - offset) in
        res <- platform (fun w => let '(err, buf, w') := esp_partition_read i offset chunk_len w
                                  in ((err, buf), w')) ;;
        emit (EvPartRead i offset chunk_len (fst res)) ;;
        src <- query (heap_read (psram_buffer_ s) offset chunk_len) ;;
        let verify_buf := snd res in
        when_ (negb (fst res =? ESP_OK) || negb (bool_decide (verify_buf = src)))
          (abort ;; return_ OTA_RESPONSE_ERROR_WRITING_FLASH) ;;
        esp_task_wdt_reset ;;
        verify_flash fuel' i (wrap32 (offset + CHUNK_SIZE))
      else ret tt
  end.

(** The part of [end] that follows a successful lookup of partition [i] in
    PSRAM mode: erase, program, read back, select for boot, release. *)
Definition end_commit (fuel : nat) (i : nat) : M unit :=
  (* Erase partition *)
  psize <- query (part_size i) ;;
  err <- platform (esp_partition_erase_range i 0 psize) ;;
  emit (EvErase i 0 psize err) ;;
  when_ (negb (err =? ESP_OK))
    (abort ;; return_ OTA_RESPONSE_ERROR_WRITING_FLASH) ;;
  (* Flash from PSRAM *)
  flash_from_psram fuel i 0 ;;
  (* Verify flash write *)
  verify_flash fuel i 0 ;;
  (* Set boot partition *)
  err <- platform (esp_ota_set_boot_partition (Some i)) ;;
  emit (EvSetBoot (Some i) err) ;;
  when_ (negb (err =? ESP_OK))
    (abort ;; return_ OTA_RESPONSE_ERROR_UPDATE_END) ;;
  abort ;;  (* Free PSRAM *)
  return_ OTA_RESPONSE_OK.

Definition end_ (fuel : nat) : M unit :=
  (* Verify MD5 *)
  s <- this ;;
  when_ (md5_set_ s)
    (assign (fun b => set_md5 (md5_calculate (md5_ b)) b) ;;
     s <- this ;;
     when_ (negb (equals_hex (md5_ s) (expected_bin_md5_ s)))
       (abort ;; return_ OTA_RESPONSE_ERROR_MD5_MISMATCH)) ;;
  (* PSRAM mode: flash from buffer *)
  s <- this ;;
  when_ (use_psram_ s)
    (* Find target partition *)
    (found <- (if negb (String.eqb (target_partition_label_ s) EmptyString)
               then query (esp_partition_find_first ESP_PARTITION_TYPE_APP
                             ESP_PARTITION_SUBTYPE_ANY
                             (Some (target_partition_label_ s)))
               else (* Default: find ota_0 partition *)
                    query (esp_partition_find_first ESP_PARTITION_TYPE_APP
                             ESP_PARTITION_SUBTYPE_APP_OTA_0 None)) ;;
     assign (set_partition found) ;;
     match found with
     | None => abort ;; return_ OTA_RESPONSE_ERROR_NO_UPDATE_PARTITION
     | Some i => end_commit fuel i
     end) ;;
  (* Standard mode *)
  s <- this ;;
  err <- platform (esp_ota_end (update_handle_ s)) ;;
  emit (EvOtaEnd (update_handle_ s) err) ;;
  assign (set_update_handle 0) ;;
  err <- (if err =? ESP_OK
          then e <- platform (esp_ota_set_boot_partition (partition_ s)) ;;
               emit (EvSetBoot (partition_ s) e) ;;
               when_ (e =? ESP_OK) (return_ OTA_RESPONSE_OK) ;;
               ret e
          else ret err) ;;
  when_ (err =? ESP_ERR_OTA_VALIDATE_FAILED)
    (return_ OTA_RESPONSE_ERROR_UPDATE_END) ;;
  when_ ((err =? ESP_ERR_FLASH_OP_TIMEOUT) || (err =? ESP_ERR_FLASH_OP_FAIL))
    (return_ OTA_RESPONSE_ERROR_WRITING_FLASH) ;;
  return_ OTA_RESPONSE_ERROR_UNKNOWN.

(** ** Session states *)

(** The session holds no resource: what [abort] leaves behind. *)
Definition closed (b : IDFOTABackend) : Prop :=
  psram_buffer_ b = 0 /\ update_handle_ b = 0 /\
  buffer_size_ b = 0 /\ bytes_received_ b = 0.

(** An open PSRAM-mode session: [begin] succeeded, the buffer is a live
    block of [buffer_size_] bytes and no more than that was received. *)
Definition open_buffered (st : St) : Prop :=
  use_psram_ (be st) = true /\
  psram_buffer_ (be st) <> 0 /\
  update_handle_ (be st) = 0 /\
  (exists blk, w_heap (world st) !! psram_buffer_ (be st) = Some blk /\
               Z.of_nat (length blk) = buffer_size_ (be st)) /\
  0 <= bytes_received_ (be st) <= buffer_size_ (be st) /\
  buffer_size_ (be st) < SIZE_MAX_P1.

(** An open direct-mode session: [begin] succeeded, the transaction is
    open on the platform, and the PSRAM fields are as initialised. *)
Definition open_direct (st : St) : Prop :=
  use_psram_ (be st) = false /\
  update_handle_ (be st) <> 0 /\
  is_Some (w_ota (world st) !! update_handle_ (be st)) /\
  psram_buffer_ (be st) = 0 /\
  buffer_size_ (be st) = 0 /\
  bytes_received_ (be st) = 0.

(** [n] calls of [abort] in sequence. *)
Fixpoint abort_times (n : nat) : M unit :=
  match n with
  | O => ret tt
  | S n' => abort ;; abort_times n'
  end.

Definition is_free_of (p : Z) (e : Event) : bool :=
  match e with EvFree q => q =? p | _ => false end.

Definition is_ota_abort_of (h : Z) (e : Event) : bool :=
  match e with EvOtaAbort k => k =? h | _ => false end.

Fixpoint count_events (f : Event -> bool) (l : list Event) : nat :=
  match l with
  | [] => 0%nat
  | e :: l' => ((if f e then 1 else 0) + count_events f l')%nat
  end.

(** What [abort] does to the object, to the platform and to the log, in
    closed form. *)
Definition abort_be (s : IDFOTABackend) : IDFOTABackend :=
  set_bytes_received 0
    (set_buffer_size 0 (set_update_handle 0 (set_psram_buffer 0 s))).

Definition abort_world (s : IDFOTABackend) (w : World) : World :=
  let w1 := if psram_buffer_ s =? 0 then w
            else heap_caps_free (psram_buffer_ s) w in
  if update_handle_ s =? 0 then w1
  else snd (esp_ota_abort (update_handle_ s) w1).

Definition abort_events (s : IDFOTABackend) : list Event :=
  [EvBackendAbort]
    ++ (if psram_buffer_ s =? 0 then [] else [EvFree (psram_buffer_ s)])
    ++ (if update_handle_ s =? 0 then [] else [EvOtaAbort (update_handle_ s)]).

(** The buffer pointer is set but the block it names is not live. *)
Definition stale_buffer (st : St) : bool :=
  negb (psram_buffer_ (be st) =? 0)
  && bool_decide (w_heap (world st) !! psram_buffer_ (be st) = None).

(** ** Concrete platforms and sessions used in the examples *)

Definition example_partition (ty sub : Z) (label : string) (n : nat)
    : esp_partition_t :=
  {| p_type := ty; p_subtype := sub; p_label := label;
     p_data := replicate n x00 |}.

(** factory, nvs, ota_0 and ota_1. *)
Definition example_table : list esp_partition_t :=
  [ example_partition 0 0 "factory" 8;
    example_partition 1 2 "nvs" 4;
    example_partition 0 16 "ota_0" 16;
    example_partition 0 17 "ota_1" 16 ].

(** A device running from ota_0 (index 2) with 64 bytes of free PSRAM. *)
Definition example_world : World :=
  {| w_psram_free := 64; w_heap := ∅; w_heap_next := 1000;
     w_heap_fault := false; w_table := example_table; w_running := 2%nat;
     w_boot := Some 2%nat; w_ota := ∅; w_ota_next := 1; w_script := [];
     w_wdt_timeout_ms := 5000 |}.

Definition example_st (psram : bool) (w : World) : St :=
  {| be := make_ota_backend psram; world := w; log := [] |}.

(** The state a method leaves behind, whatever way it ended. *)
Definition final_st {A} (o : Outcome A) (dflt : St) : St :=
  match o with
  | Next _ st => st
  | Return _ st => st
  | Diverge => dflt
  end.

Definition response {A} (o : Outcome A) : option OTAResponseTypes :=
  match o with
  | Return r _ => Some r
  | _ => None
  end.

(** Run one method after another, on the state the first one left. *)
Definition then_ {A B} (m1 : M A) (m2 : M B) : M B :=
  fun st =>
    match m1 st with
    | Next _ st' => m2 st'
    | Return _ st' => m2 st'
    | Diverge => Diverge
    end.

(** The chunk and the PSRAM buffer are distinct objects of one 32-bit
    address space: their sizes add up to less than 2^32. *)
Definition fits_with_buffer (st : St) (data : list byte) : Prop :=
  buffer_size_ (be st) + Z.of_nat (length data) < SIZE_MAX_P1.

(** [write] called on each chunk in turn, whatever each call returns. *)
Fixpoint write_all (chunks : list (list byte)) (st : St) : St :=
  match chunks with
  | [] => st
  | c :: rest => write_all rest (final_st (write c st) st)
  end.

(** The responses of the successive [write] calls. *)
Fixpoint write_responses (chunks : list (list byte)) (st : St)
    : list (option OTAResponseTypes) :=
  match chunks with
  | [] => []
  | c :: rest =>
      response (write c st) :: write_responses rest (final_st (write c st) st)
  end.

(** The response [write] gives for a result of [esp_ota_write]. *)
Definition write_response (err : esp_err_t) : OTAResponseTypes :=
  if err =? ESP_OK then OTA_RESPONSE_OK
  else if err =? ESP_ERR_OTA_VALIDATE_FAILED then OTA_RESPONSE_ERROR_MAGIC
  else if (err =? ESP_ERR_FLASH_OP_TIMEOUT) || (err =? ESP_ERR_FLASH_OP_FAIL)
  then OTA_RESPONSE_ERROR_WRITING_FLASH
  else OTA_RESPONSE_ERROR_UNKNOWN.

(** The digest check of [end] lets the session through. *)
Definition digest_passes (b : IDFOTABackend) : bool :=
  negb (md5_set_ b)
  || equals_hex (md5_calculate (md5_ b)) (expected_bin_md5_ b).

(** The object after the digest check. *)
Definition after_digest (b : IDFOTABackend) : IDFOTABackend :=
  if md5_set_ b then set_md5 (md5_calculate (md5_ b)) b else b.

(** The tail of [end] in direct mode: the response for the error code left
    in [err] when the function did not return Ok. *)
Definition end_error_response (err : esp_err_t) : OTAResponseTypes :=
  if err =? ESP_ERR_OTA_VALIDATE_FAILED then OTA_RESPONSE_ERROR_UPDATE_END
  else if (err =? ESP_ERR_FLASH_OP_TIMEOUT) || (err =? ESP_ERR_FLASH_OP_FAIL)
  then OTA_RESPONSE_ERROR_WRITING_FLASH
  else OTA_RESPONSE_ERROR_UNKNOWN.

(** The watchdog bracket around [esp_ota_begin]. *)
Definition wdt_extend (w : World) : World :=
  if CONFIG_ESP_TASK_WDT_TIMEOUT_S <? 15 then set_wdt_timeout_ms 15000 w else w.

Definition wdt_restore (w : World) : World :=
  if CONFIG_ESP_TASK_WDT_TIMEOUT_S <? 15
  then set_wdt_timeout_ms (CONFIG_ESP_TASK_WDT_TIMEOUT_S * 1000) w else w.

Definition wdt_extend_events : list Event :=
  if CONFIG_ESP_TASK_WDT_TIMEOUT_S <? 15 then [EvWdtReconfigure 15000] else [].

Definition wdt_restore_events : list Event :=
  if CONFIG_ESP_TASK_WDT_TIMEOUT_S <? 15
  then [EvWdtReconfigure (CONFIG_ESP_TASK_WDT_TIMEOUT_S * 1000)] else [].

(** The response of [begin] in direct mode for a failed [esp_ota_begin]. *)
Definition begin_error_response (err : esp_err_t) : OTAResponseTypes :=
  if err =? ESP_ERR_INVALID_SIZE then OTA_RESPONSE_ERROR_ESP32_NOT_ENOUGH_SPACE
  else if (err =? ESP_ERR_FLASH_OP_TIMEOUT) || (err =? ESP_ERR_FLASH_OP_FAIL)
  then OTA_RESPONSE_ERROR_WRITING_FLASH
  else OTA_RESPONSE_ERROR_UNKNOWN.

(** The partition [end] looks up in PSRAM mode. *)
Definition resolve_target (b : IDFOTABackend) (w : World) : option nat :=
  if negb (String.eqb (target_partition_label_ b) EmptyString)
  then esp_partition_find_first ESP_PARTITION_TYPE_APP
         ESP_PARTITION_SUBTYPE_ANY (Some (target_partition_label_ b)) w
  else esp_partition_find_first ESP_PARTITION_TYPE_APP
         ESP_PARTITION_SUBTYPE_APP_OTA_0 None w.

(** The partition a platform call operates on. *)
Definition event_partition (e : Event) : option nat :=
  match e with
  | EvOtaBegin i _ _ | EvErase i _ _ _ | EvPartWrite i _ _ _
  | EvPartRead i _ _ _ => Some i
  | EvSetBoot p _ => p
  | _ => None
  end.

(** Every call in [evs] that changes flash cells or the boot selection
    operates on partition [i]. *)
Definition flash_events_on (i : nat) (evs : list Event) : Prop :=
  Forall (fun e => touches_flash e = true -> event_partition e = Some i) evs.

(** [st'] continues the session of [st]: same object, same heap, same open
    transactions, and a log extended by calls that touch no partition but
    [i]. *)
Definition same_session (i : nat) (st st' : St) : Prop :=
  be st' = be st /\
  w_heap (world st') = w_heap (world st) /\
  w_heap_fault (world st') = w_heap_fault (world st) /\
  w_ota (world st') = w_ota (world st) /\
  exists evs, log st' = log st ++ evs /\ flash_events_on i evs.

(** [st'] is what [abort] made of some continuation of [st]. *)
Definition aborted (i : nat) (st st' : St) : Prop :=
  exists st1, same_session i st st1 /\ abort st1 = Next tt st'.

(** Partial-correctness triples: what holds of the state when the
    computation goes on, and when it returns. *)
Definition post {A} (m : M A) (st : St)
    (Pn : A -> St -> Prop) (Pr : OTAResponseTypes -> St -> Prop) : Prop :=
  match m st with
  | Next a st' => Pn a st'
  | Return r st' => Pr r st'
  | Diverge => True
  end.

(** A computation that always leaves by a [return] statement (or diverges). *)
Definition never_next {A} (m : M A) : Prop :=
  forall st a st', m st <> Next a st'.

(** A direct-mode session in the middle of its writes, on a platform that
    reports no failure: the transaction on partition [i] has stored
    [written], and [n] erased cells follow. *)
Definition direct_writing (i : nat) (h : Z) (written : list byte) (n : nat)
    (st : St) : Prop :=
  use_psram_ (be st) = false /\
  md5_set_ (be st) = false /\
  partition_ (be st) = Some i /\
  update_handle_ (be st) = h /\
  w_script (world st) = [] /\
  w_ota (world st) !! h
  = Some {| oe_part := i; oe_wrote_size := Z.of_nat (length written) |} /\
  exists q tail,
    w_table (world st) !! i = Some q /\
    p_type q = ESP_PARTITION_TYPE_APP /\
    p_data q = written ++ replicate n xff ++ tail.

(** A PSRAM-mode session in the middle of its writes, on a platform that
    reports no failure: the buffer of [size] bytes starts with [written],
    and [end] will find partition [i]. *)
Definition buffered_writing (i : nat) (size : Z) (written : list byte)
    (st : St) : Prop :=
  use_psram_ (be st) = true /\
  md5_set_ (be st) = false /\
  buffer_size_ (be st) = size /\
  bytes_received_ (be st) = Z.of_nat (length written) /\
  psram_buffer_ (be st) <> 0 /\
  w_script (world st) = [] /\
  resolve_target (be st) (world st) = Some i /\
  exists rest,
    w_heap (world st) !! psram_buffer_ (be st) = Some (written ++ rest) /\
    Z.of_nat (length (written ++ rest)) = size.

(** The platform is ready to take an image of [size] bytes without
    reporting a failure: nothing scripted, and room for the image in the
    PSRAM pool (PSRAM mode) and in the target partition. *)
Definition storage_ready (size : Z) (st : St) : Prop :=
  w_script (world st) = [] /\
  if use_psram_ (be st) then
    size <= w_psram_free (world st) /\
    size + CHUNK_SIZE <= SIZE_MAX_P1 /\
    exists i p, resolve_target (be st) (world st) = Some i /\
                w_table (world st) !! i = Some p /\ size <= p_size p
  else
    exists i p, esp_ota_get_next_update_partition (world st) = Some i /\
                w_table (world st) !! i = Some p /\ size <= p_size p.

(** The partition a session started in [st] commits to. *)
Definition session_target (st : St) : option nat :=
  if use_psram_ (be st) then resolve_target (be st) (world st)
  else esp_ota_get_next_update_partition (world st).

(** A whole session: [begin], a [write] per chunk, [end]; the responses in
    order, and the final state. *)
Definition run_session (fuel : nat) (size : Z) (chunks : list (list byte))
    (st : St) : list (option OTAResponseTypes) * St :=
  let st1 := final_st (begin size st) st in
  let st2 := write_all chunks st1 in
  (response (begin size st) :: write_responses chunks st1
     ++ [response (end_ fuel st2)],
   final_st (end_ fuel st2) st2).

(** ota_1 after a direct-mode [begin] erased it and four bytes were
    written. *)
Definition example_ota_1_written : esp_partition_t :=
  {| p_type := 0; p_subtype := 17; p_label := "ota_1";
     p_data := [x01; x02; x03; x04] ++ replicate 12 xff |}.

(** An open direct-mode session on [example_world]: [begin 8] and a
    [write] of four bytes have succeeded. *)
Definition example_direct_open : St :=
  {| be := {| update_handle_ := 1; partition_ := Some 3%nat;
              md5_ := {| md5_ctx := [x01; x02; x03; x04];
                         md5_digest := replicate 16 x00 |};
              expected_bin_md5_ := []; md5_set_ := false; use_psram_ := false;
              psram_buffer_ := 0; buffer_size_ := 0; bytes_received_ := 0;
              target_partition_label_ := EmptyString |};
     world := set_ota_next 2
                (set_ota (<[1 := {| oe_part := 3%nat; oe_wrote_size := 4 |}]> ∅)
                   (set_table
                      [ example_partition 0 0 "factory" 8;
                        example_partition 1 2 "nvs" 4;
                        example_partition 0 16 "ota_0" 16;
                        example_ota_1_written ]
                      example_world));
     log := [ EvWdtReconfigure 15000; EvOtaBegin 3 8 0; EvWdtReconfigure 5000;
              EvOtaWrite 1 [x01; x02; x03; x04] 0 ] |}.

(** An open PSRAM-mode session on [example_world]: [begin 8] and a [write]
    of three bytes have succeeded. *)
Definition example_buffered_open : St :=
  {| be := {| update_handle_ := 0; partition_ := None;
              md5_ := {| md5_ctx := [x01; x02; x03];
                         md5_digest := replicate 16 x00 |};
              expected_bin_md5_ := []; md5_set_ := false; use_psram_ := true;
              psram_buffer_ := 1000; buffer_size_ := 8; bytes_received_ := 3;
              target_partition_label_ := EmptyString |};
     world := set_psram_free 56
                (set_heap_next 1009
                   (set_heap (<[1000 := [x01; x02; x03] ++ replicate 5 x00]> ∅)
                      example_world));
     log := [ EvMalloc 8 1000 ] |}.

(** The same sessions with an expected digest that the bytes written do
    not have. *)
Definition wrong_md5 : list ascii :=
  list_ascii_of_string "ffffffffffffffffffffffffffffffff".

Definition with_expected_md5 (expected : list ascii) (st : St) : St :=
  {| be := set_expected_md5 expected (be st); world := world st; log := log st |}.

Definition with_script (script : list esp_err_t) (st : St) : St :=
  {| be := be st; world := set_script script (world st); log := log st |}.

Definition with_target_label (label : string) (st : St) : St :=
  {| be := set_target_label label (be st); world := world st; log := log st |}.

(** The computation leaves [f] of the state as it found it, on every exit. *)
Definition keeps {A T} (f : St -> T) (m : M A) : Prop :=
  forall st, post m st (fun _ st' => f st' = f st) (fun _ st' => f st' = f st).

(** What the caller configures before a session: the expected digest and
    whether it is checked, the mode, and the target label. *)
Definition session_config (b : IDFOTABackend)
    : bool * list ascii * bool * string :=
  (md5_set_ b, expected_bin_md5_ b, use_psram_ b, target_partition_label_ b).

(** In PSRAM mode the digest accumulator holds exactly the bytes received
    into the buffer so far. *)
Definition digest_tracks_buffer (st : St) : Prop :=
  exists blk,
    w_heap (world st) !! psram_buffer_ (be st) = Some blk /\
    md5_ctx (md5_ (be st)) = take (Z.to_nat (bytes_received_ (be st))) blk.

(** The digest of [bytes], finalized, equals the expected value: the test
    [end] applies when the accumulator has been fed [bytes] since [init]. *)
Definition digest_matches (bytes : list byte) (expected : list ascii) : bool :=
  equals_hex (md5_calculate {| md5_ctx := bytes; md5_digest := replicate 16 x00 |})
    expected.

(** The platform resources a session can hold or change, leaving out the
    contents of the PSRAM block at [p]. *)
Definition world_but_block (p : Z) (w : World)
    : gmap Z (list byte) * Z * bool * list esp_partition_t * option nat
      * gmap Z ota_ops_entry_t :=
  (delete p (w_heap w), w_psram_free w, w_heap_fault w, w_table w, w_boot w,
   w_ota w).

(** ** The partition-switch action (automation.h) *)

(** [std::string::c_str] read as a C string: the characters before the
    first NUL. *)
Fixpoint c_str (s : string) : string :=
  match s with
  | EmptyString => EmptyString
  | String c s' =>
      if Ascii.eqb c Ascii.zero then EmptyString else String c (c_str s')
  end.

(** What [play] does besides changing the platform state: log lines (by
    their format string), platform calls and the restart, which does not
    return. *)
Inductive PlayStep :=
  | PlayLogE (format : string)
  | PlayLogI (format : string)
  | PlaySetBoot (partition : nat) (err : esp_err_t)
  | PlayDelay (ms : Z)
  | PlayRestart.

(** *** [SwitchPartitionAndRebootAction::play]; [USE_ESP32] is the build
    flag, [label] the value of the templatable [partition_label]. *)
Definition play (USE_ESP32 : bool) (label : string) (w : World)
    : list PlayStep * World :=
  if USE_ESP32 then
    if String.eqb label EmptyString then
      ([PlayLogE "Partition label is empty"], w)
    else
      match esp_partition_find_first ESP_PARTITION_TYPE_APP
              ESP_PARTITION_SUBTYPE_ANY (Some (c_str label)) w with
      | None => ([PlayLogE "Partition '%s' not found"], w)
      | Some partition =>
          let '(err, w1) := esp_ota_set_boot_partition (Some partition) w in
          if negb (err =? ESP_OK) then
            ([PlaySetBoot partition err;
              PlayLogE "Failed to set boot partition '%s': %d"], w1)
          else
            ([PlaySetBoot partition err;
              PlayLogI "Rebooting to partition: %s";
              PlayDelay 100;  (* Give log time to flush *)
              PlayRestart], w1)
      end
  else ([PlayLogE "Partition switching only supported on ESP32"], w).

(** The device restarts at the end of the steps. *)
Definition restarts (steps : list PlayStep) : bool :=
  match last steps with
  | Some PlayRestart => true
  | _ => false
  end.

(** The layout of the partition table: type, subtype and label of each
    entry, without the flash contents. *)
Definition part_entry (p : esp_partition_t) : Z * Z * string :=
  (p_type p, p_subtype p, p_label p).

Definition layout (w : World) : list (Z * Z * string) :=
  map part_entry (w_table w).

(** An [esp_partition_write] among the platform calls. *)
Definition is_part_write (e : Event) : bool :=
  match e with EvPartWrite _ _ _ _ => true | _ => false end.

(** ** Properties of [abort] *)

Ltac run :=
  unfold bind, when_, ret, return_, this, assign, emit, query, platform; cbn.

Lemma abort_eq st :
  abort st = Next tt {| be := abort_be (be st);
                        world := abort_world (be st) (world st);
                        log := log st ++ abort_events (be st) |}.
Proof.
  destruct st as [s w l]. unfold abort, abort_world, abort_events, abort_be. run.
  destruct (psram_buffer_ s =? 0) eqn:Hp; destruct (update_handle_ s =? 0) eqn:Hh; cbn.
  all: rewrite ?Hh; cbn.
  all: try destruct (esp_ota_abort _ _) eqn:Ho; cbn.
  all: rewrite <- ?app_assoc; cbn.
  all: try apply Z.eqb_eq in Hp; try apply Z.eqb_eq in Hh.
  all: destruct s; cbn in *; subst; reflexivity.
Qed.

Lemma abort_be_closed s : closed (abort_be s).
Proof. repeat split. Qed.

Lemma abort_closed st :
  closed (be st) ->
  abort st = Next tt {| be := be st; world := world st;
                        log := log st ++ [EvBackendAbort] |}.
Proof.
  intros (Hp & Hh & Hb & Hr). rewrite abort_eq.
  unfold abort_world, abort_events, abort_be. rewrite Hp, Hh. cbn.
  destruct st as [s w l]; destruct s; cbn in *; subst; reflexivity.
Qed.

Lemma abort_times_closed n : forall st,
  closed (be st) ->
  abort_times n st = Next tt {| be := be st; world := world st;
                                log := log st ++ replicate n EvBackendAbort |}.
Proof.
  induction n as [|n IH]; intros st Hc; cbn.
  - unfold ret. rewrite app_nil_r. destruct st; reflexivity.
  - unfold bind. rewrite (abort_closed _ Hc). rewrite IH by exact Hc. cbn.
    rewrite <- app_assoc. reflexivity.
Qed.

Lemma count_events_app f l1 l2 :
  count_events f (l1 ++ l2) = (count_events f l1 + count_events f l2)%nat.
Proof. induction l1 as [|e l1 IH]; cbn; [reflexivity|rewrite IH; lia]. Qed.

Lemma count_events_replicate_abort f n :
  f EvBackendAbort = false ->
  count_events f (replicate n EvBackendAbort) = 0%nat.
Proof.
  intros Hf. induction n as [|n IH]; cbn; [reflexivity|].
  rewrite Hf, IH. reflexivity.
Qed.

Lemma count_free_abort_events p s :
  (count_events (is_free_of p) (abort_events s) <= 1)%nat.
Proof.
  unfold abort_events.
  destruct (psram_buffer_ s =? 0), (update_handle_ s =? 0); cbn;
    try destruct (_ =? p); cbn; lia.
Qed.

Lemma count_ota_abort_abort_events h s :
  (count_events (is_ota_abort_of h) (abort_events s) <= 1)%nat.
Proof.
  unfold abort_events.
  destruct (psram_buffer_ s =? 0), (update_handle_ s =? 0); cbn;
    try destruct (_ =? h); cbn; lia.
Qed.

Lemma heap_caps_free_fault p w :
  w_heap_fault (heap_caps_free p w)
  = w_heap_fault w || bool_decide (w_heap w !! p = None).
Proof.
  unfold heap_caps_free. destruct (w_heap w !! p) eqn:Hl.
  - rewrite bool_decide_eq_false_2 by congruence. rewrite orb_false_r. reflexivity.
  - rewrite bool_decide_eq_true_2 by reflexivity. rewrite orb_true_r. reflexivity.
Qed.

Lemma heap_caps_free_released p w : w_heap (heap_caps_free p w) !! p = None.
Proof.
  unfold heap_caps_free. destruct (w_heap w !! p) eqn:Hl; cbn.
  - apply lookup_delete_eq.
  - exact Hl.
Qed.

Lemma esp_ota_abort_released h w : w_ota (snd (esp_ota_abort h w)) !! h = None.
Proof.
  unfold esp_ota_abort. destruct (w_ota w !! h) eqn:Hl; cbn.
  - apply lookup_delete_eq.
  - exact Hl.
Qed.

Lemma abort_world_heap_fault st :
  w_heap_fault (abort_world (be st) (world st))
  = w_heap_fault (world st) || stale_buffer st.
Proof.
  destruct st as [s w l]; unfold abort_world, stale_buffer; cbn.
  destruct (psram_buffer_ s =? 0) eqn:Hp; cbn.
  - rewrite orb_false_r. destruct (update_handle_ s =? 0); [reflexivity|].
    unfold esp_ota_abort. destruct (w_ota w !! _); reflexivity.
  - destruct (update_handle_ s =? 0); [apply heap_caps_free_fault|].
    unfold esp_ota_abort. destruct (w_ota _ !! _); cbn; apply heap_caps_free_fault.
Qed.

(** [abort] leaves flash cells and the boot selection alone. *)
Lemma abort_world_flash s w :
  w_table (abort_world s w) = w_table w /\ w_boot (abort_world s w) = w_boot w.
Proof.
  unfold abort_world, heap_caps_free, esp_ota_abort.
  destruct (psram_buffer_ s =? 0), (update_handle_ s =? 0); cbn;
    repeat (match goal with |- context [match ?x with _ => _ end] => destruct x end; cbn);
    split; reflexivity.
Qed.

(** After [abort] the buffer block is not live and the transaction is not
    open. *)
Lemma abort_world_released s w :
  (psram_buffer_ s = 0 \/ w_heap (abort_world s w) !! psram_buffer_ s = None) /\
  (update_handle_ s = 0 \/ w_ota (abort_world s w) !! update_handle_ s = None).
Proof.
  unfold abort_world.
  destruct (psram_buffer_ s =? 0) eqn:Hp; destruct (update_handle_ s =? 0) eqn:Hh;
    try apply Z.eqb_eq in Hp; try apply Z.eqb_eq in Hh; split; auto; right.
  - apply esp_ota_abort_released.
  - apply heap_caps_free_released.
  - unfold esp_ota_abort. destruct (w_ota _ !! update_handle_ s); cbn;
      apply heap_caps_free_released.
  - apply esp_ota_abort_released.
Qed.

(** C8. [abort] is total and idempotent.  For every state, [n + 1] calls in
    sequence all return; the object and the platform are then exactly as
    after a single call: buffer pointer null, handle cleared, bytes-received
    and buffer-size zero; over all the calls no PSRAM block is freed twice
    and no transaction discarded twice (the heap is faulted only if the
    pointer was already stale before the first call); one more call changes
    nothing; and on an object that never began it changes nothing at all. *)
Theorem abort_idempotent_total (n : nat) (st : St) :
  exists st',
    abort_times (S n) st = Next tt st' /\
    be st' = abort_be (be st) /\
    world st' = abort_world (be st) (world st) /\
    closed (be st') /\
    (exists evs, log st' = log st ++ evs /\
       (forall p, count_events (is_free_of p) evs <= 1)%nat /\
       (forall h, count_events (is_ota_abort_of h) evs <= 1)%nat) /\
    w_heap_fault (world st') = w_heap_fault (world st) || stale_buffer st /\
    abort st' = Next tt {| be := be st'; world := world st';
                           log := log st' ++ [EvBackendAbort] |} /\
    abort {| be := fresh_backend; world := world st; log := log st |}
    = Next tt {| be := fresh_backend; world := world st;
                 log := log st ++ [EvBackendAbort] |}.
Proof.
  exists {| be := abort_be (be st); world := abort_world (be st) (world st);
            log := log st ++ abort_events (be st) ++ replicate n EvBackendAbort |}.
  split.
  { change (abort_times (S n)) with (abort ;; abort_times n).
    unfold bind. rewrite abort_eq.
    rewrite abort_times_closed by apply abort_be_closed.
    unfold be, world, log. rewrite <- app_assoc. reflexivity. }
  unfold be at 1 2 5, world at 1 3, log at 1.
  split; [reflexivity|]. split; [reflexivity|].
  split; [apply abort_be_closed|]. split; [|split; [|split]].
  - exists (abort_events (be st) ++ replicate n EvBackendAbort).
    split; [reflexivity|].
    split; intros x; rewrite count_events_app,
      count_events_replicate_abort by reflexivity.
    + pose proof (count_free_abort_events x (be st)). lia.
    + pose proof (count_ota_abort_abort_events x (be st)). lia.
  - apply abort_world_heap_fault.
  - rewrite abort_closed by apply abort_be_closed. reflexivity.
  - rewrite abort_closed by (repeat split). reflexivity.
Qed.

(** ** Digest mismatch in [end] *)

Arguments abort : simpl never.
Arguments end_commit : simpl never.
Arguments heap_caps_malloc : simpl never.
Arguments heap_caps_free : simpl never.
Arguments memcpy_to_heap : simpl never.
Arguments esp_ota_begin : simpl never.
Arguments esp_ota_write : simpl never.
Arguments esp_ota_end : simpl never.
Arguments esp_ota_abort : simpl never.
Arguments esp_ota_set_boot_partition : simpl never.
Arguments esp_partition_erase_range : simpl never.
Arguments esp_partition_write : simpl never.
Arguments esp_partition_read : simpl never.
Arguments esp_partition_find_first : simpl never.
Arguments esp_ota_get_next_update_partition : simpl never.


Lemma abort_events_no_flash s :
  forallb (fun e => negb (touches_flash e)) (abort_events s) = true.
Proof.
  unfold abort_events.
  destruct (psram_buffer_ s =? 0), (update_handle_ s =? 0); reflexivity.
Qed.

(** The exit of [end] on a digest mismatch, in closed form. *)
Lemma end_md5_mismatch_eq (fuel : nat) (st : St) :
  md5_set_ (be st) = true ->
  equals_hex (md5_calculate (md5_ (be st))) (expected_bin_md5_ (be st)) = false ->
  let s1 := set_md5 (md5_calculate (md5_ (be st))) (be st) in
  end_ fuel st
  = Return OTA_RESPONSE_ERROR_MD5_MISMATCH
      {| be := abort_be s1; world := abort_world s1 (world st);
         log := log st ++ abort_events s1 |}.
Proof.
  intros Hset Hmis s1.
  unfold end_. run. rewrite Hset. cbn. rewrite Hmis. cbn.
  rewrite abort_eq. reflexivity.
Qed.

(** C1. In either mode, when an expected digest is set and the finalized
    digest of the accumulator differs from it (as 32 hexadecimal characters,
    letter case ignored), [end] returns the checksum-mismatch code after
    calling [abort] on the object with the digest finalized: the buffer and
    the transaction are released, the only platform calls made are those of
    [abort] (no erase, no write, no boot selection), and the flash cells and
    the boot target are as before the call. *)
Theorem end_md5_mismatch (fuel : nat) (st : St) :
  md5_set_ (be st) = true ->
  equals_hex (md5_calculate (md5_ (be st))) (expected_bin_md5_ (be st)) = false ->
  let s1 := set_md5 (md5_calculate (md5_ (be st))) (be st) in
  end_ fuel st
  = Return OTA_RESPONSE_ERROR_MD5_MISMATCH
      {| be := abort_be s1; world := abort_world s1 (world st);
         log := log st ++ abort_events s1 |} /\
  closed (abort_be s1) /\
  In EvBackendAbort (abort_events s1) /\
  forallb (fun e => negb (touches_flash e)) (abort_events s1) = true /\
  w_table (abort_world s1 (world st)) = w_table (world st) /\
  w_boot (abort_world s1 (world st)) = w_boot (world st) /\
  (psram_buffer_ (be st) = 0 \/
   w_heap (abort_world s1 (world st)) !! psram_buffer_ (be st) = None) /\
  (update_handle_ (be st) = 0 \/
   w_ota (abort_world s1 (world st)) !! update_handle_ (be st) = None).
Proof.
  intros Hset Hmis s1.
  split; [exact (end_md5_mismatch_eq fuel st Hset Hmis)|].
  split; [apply abort_be_closed|].
  split; [left; reflexivity|].
  split; [apply abort_events_no_flash|].
  split; [apply abort_world_flash|].
  split; [apply abort_world_flash|].
  apply (abort_world_released s1).
Qed.

(** ** [begin] in PSRAM mode *)

Lemma heap_caps_malloc_flash n w :
  w_table (snd (heap_caps_malloc n w)) = w_table w /\
  w_boot (snd (heap_caps_malloc n w)) = w_boot w /\
  w_ota (snd (heap_caps_malloc n w)) = w_ota w.
Proof.
  unfold heap_caps_malloc, next_result.
  destruct (w_script w) as [|r rest]; cbn;
    repeat (match goal with |- context [if ?c then _ else _] => destruct c end; cbn);
    repeat split.
Qed.

(** The exits of [begin] in PSRAM mode, in closed form. *)
Lemma begin_buffered_cases (image_size : Z) (st : St) :
  use_psram_ (be st) = true ->
  let free := w_psram_free (world st) in
  let p := fst (heap_caps_malloc image_size (world st)) in
  let w1 := snd (heap_caps_malloc image_size (world st)) in
  (free = 0 ->
   begin image_size st = Return OTA_RESPONSE_ERROR_NO_UPDATE_PARTITION st) /\
  (free <> 0 -> free < image_size ->
   begin image_size st = Return OTA_RESPONSE_ERROR_ESP32_NOT_ENOUGH_SPACE st) /\
  (free <> 0 -> image_size <= free -> p = 0 ->
   begin image_size st
   = Return OTA_RESPONSE_ERROR_ESP32_NOT_ENOUGH_SPACE
       {| be := set_psram_buffer 0 (be st); world := w1;
          log := log st ++ [EvMalloc image_size 0] |}) /\
  (free <> 0 -> image_size <= free -> p <> 0 ->
   begin image_size st
   = Return OTA_RESPONSE_OK
       {| be := set_md5 (md5_init (md5_ (be st)))
                  (set_bytes_received 0
                     (set_buffer_size image_size (set_psram_buffer p (be st))));
          world := w1;
          log := log st ++ [EvMalloc image_size p] |}).
Proof.
  intros Hmode free p w1. subst free p w1.
  repeat match goal with |- _ /\ _ => split end.
  - intros H0. unfold begin. run. rewrite Hmode. cbn.
    unfold heap_caps_get_free_size. rewrite H0. cbn.
    destruct st; reflexivity.
  - intros H0 Hlt. unfold begin. run. rewrite Hmode. cbn.
    unfold heap_caps_get_free_size.
    rewrite (proj2 (Z.eqb_neq _ _) H0). cbn.
    rewrite (proj2 (Z.ltb_lt _ _) Hlt). cbn.
    destruct st; reflexivity.
  - intros H0 Hle Hp. unfold begin. run. rewrite Hmode. cbn.
    unfold heap_caps_get_free_size.
    rewrite (proj2 (Z.eqb_neq _ _) H0). cbn.
    rewrite (proj2 (Z.ltb_ge _ _) Hle). cbn.
    destruct (heap_caps_malloc image_size (world st)) as [q w'].
    cbn in *. subst q. cbn. reflexivity.
  - intros H0 Hle Hp. unfold begin. run. rewrite Hmode. cbn.
    unfold heap_caps_get_free_size.
    rewrite (proj2 (Z.eqb_neq _ _) H0). cbn.
    rewrite (proj2 (Z.ltb_ge _ _) Hle). cbn.
    destruct (heap_caps_malloc image_size (world st)) as [q w'].
    cbn in *. rewrite (proj2 (Z.eqb_neq _ _) Hp). cbn.
    reflexivity.
Qed.

(** C5, as the code has it.  In PSRAM mode: a pool that reports zero free
    bytes makes [begin] return the no-update-partition code; a pool that
    reports some, but fewer than the image size, makes it return the
    not-enough-space code, the object and the platform untouched in both
    cases; a failed allocation returns the not-enough-space code; and on
    success the buffer pointer and size are recorded, bytes-received is 0,
    the digest accumulator is initialised, and the only platform call is the
    allocation: partition table, flash cells, boot target and OTA
    transactions are as before. *)
Theorem begin_buffered (image_size : Z) (st : St) :
  use_psram_ (be st) = true ->
  let free := w_psram_free (world st) in
  let p := fst (heap_caps_malloc image_size (world st)) in
  let w1 := snd (heap_caps_malloc image_size (world st)) in
  (free = 0 ->
   begin image_size st = Return OTA_RESPONSE_ERROR_NO_UPDATE_PARTITION st) /\
  (free <> 0 -> free < image_size ->
   begin image_size st = Return OTA_RESPONSE_ERROR_ESP32_NOT_ENOUGH_SPACE st) /\
  (free <> 0 -> image_size <= free -> p = 0 ->
   begin image_size st
   = Return OTA_RESPONSE_ERROR_ESP32_NOT_ENOUGH_SPACE
       {| be := set_psram_buffer 0 (be st); world := w1;
          log := log st ++ [EvMalloc image_size 0] |}) /\
  (free <> 0 -> image_size <= free -> p <> 0 ->
   begin image_size st
   = Return OTA_RESPONSE_OK
       {| be := set_md5 (md5_init (md5_ (be st)))
                  (set_bytes_received 0
                     (set_buffer_size image_size (set_psram_buffer p (be st))));
          world := w1;
          log := log st ++ [EvMalloc image_size p] |}) /\
  w_table w1 = w_table (world st) /\
  w_boot w1 = w_boot (world st) /\
  w_ota w1 = w_ota (world st).
Proof.
  intros Hmode free p w1.
  destruct (begin_buffered_cases image_size st Hmode) as (H0 & Hlt & Hnull & Hok).
  split; [exact H0|]. split; [exact Hlt|]. split; [exact Hnull|].
  split; [exact Hok|].
  apply heap_caps_malloc_flash.
Qed.

(** ** [write] in PSRAM mode *)

Lemma wrap32_small x : 0 <= x < SIZE_MAX_P1 -> wrap32 x = x.
Proof. intros H. unfold wrap32. apply Z.mod_small. exact H. Qed.

Lemma write_buffered_overflow data st :
  use_psram_ (be st) = true ->
  buffer_size_ (be st) < wrap32 (bytes_received_ (be st) + Z.of_nat (length data)) ->
  write data st = Return OTA_RESPONSE_ERROR_UNKNOWN st.
Proof.
  intros Hmode Hov. unfold write. run. rewrite Hmode. cbn.
  rewrite (proj2 (Z.ltb_lt _ _) Hov). cbn. destruct st; reflexivity.
Qed.

Lemma write_buffered_ok data st :
  use_psram_ (be st) = true ->
  wrap32 (bytes_received_ (be st) + Z.of_nat (length data)) <= buffer_size_ (be st) ->
  write data st
  = Return OTA_RESPONSE_OK
      {| be := set_md5 (md5_add data (md5_ (be st)))
                 (set_bytes_received
                    (wrap32 (bytes_received_ (be st) + Z.of_nat (length data)))
                    (be st));
         world := memcpy_to_heap (psram_buffer_ (be st))
                    (bytes_received_ (be st)) data (world st);
         log := log st |}.
Proof.
  intros Hmode Hok. unfold write. run. rewrite Hmode. cbn.
  rewrite (proj2 (Z.ltb_ge _ _) Hok). cbn. reflexivity.
Qed.

Lemma memcpy_to_heap_live p off data blk w :
  w_heap w !! p = Some blk ->
  0 <= off ->
  off + Z.of_nat (length data) <= Z.of_nat (length blk) ->
  memcpy_to_heap p off data w
  = set_heap (<[p := take (Z.to_nat off) blk ++ data
                      ++ drop (Z.to_nat off + length data) blk]> (w_heap w)) w.
Proof.
  intros Hl H0 Hle. unfold memcpy_to_heap. rewrite Hl.
  destruct (Nat.leb_spec (Z.to_nat off + length data) (length blk)) as [_|Hgt];
    [reflexivity|lia].
Qed.

Lemma splice_length (off : nat) (data blk : list byte) :
  (off + length data <= length blk)%nat ->
  length (take off blk ++ data ++ drop (off + length data) blk) = length blk.
Proof.
  intros H. rewrite !length_app, length_take, length_drop. lia.
Qed.

Lemma write_buffered_overflow_open data st :
  open_buffered st -> fits_with_buffer st data ->
  buffer_size_ (be st) < bytes_received_ (be st) + Z.of_nat (length data) ->
  write data st = Return OTA_RESPONSE_ERROR_UNKNOWN st.
Proof.
  intros (Hmode & _ & _ & _ & Hr & _) Hfit Hov. unfold fits_with_buffer in Hfit.
  apply write_buffered_overflow; [exact Hmode|].
  rewrite wrap32_small by lia. exact Hov.
Qed.

Lemma write_buffered_ok_open data st :
  open_buffered st -> fits_with_buffer st data ->
  bytes_received_ (be st) + Z.of_nat (length data) <= buffer_size_ (be st) ->
  exists blk,
    w_heap (world st) !! psram_buffer_ (be st) = Some blk /\
    Z.of_nat (length blk) = buffer_size_ (be st) /\
    write data st
    = Return OTA_RESPONSE_OK
        {| be := set_md5 (md5_add data (md5_ (be st)))
                   (set_bytes_received
                      (bytes_received_ (be st) + Z.of_nat (length data)) (be st));
           world := set_heap
                      (<[psram_buffer_ (be st) :=
                           take (Z.to_nat (bytes_received_ (be st))) blk ++ data
                             ++ drop (Z.to_nat (bytes_received_ (be st)) + length data) blk]>
                         (w_heap (world st))) (world st);
           log := log st |}.
Proof.
  intros (Hmode & _ & _ & (blk & Hblk & Hlen) & Hr & _) Hfit Hok.
  unfold fits_with_buffer in Hfit.
  exists blk. split; [exact Hblk|]. split; [exact Hlen|].
  rewrite write_buffered_ok; [|exact Hmode|rewrite wrap32_small; lia].
  rewrite wrap32_small by lia.
  rewrite (memcpy_to_heap_live _ _ _ blk) by (try assumption; lia).
  reflexivity.
Qed.

(** A [write] in PSRAM mode keeps the session open and the buffer size
    fixed. *)
Lemma write_buffered_preserves data st :
  open_buffered st -> fits_with_buffer st data ->
  open_buffered (final_st (write data st) st) /\
  buffer_size_ (be (final_st (write data st) st)) = buffer_size_ (be st).
Proof.
  intros Hopen Hfit.
  destruct (Z.lt_ge_cases (buffer_size_ (be st))
              (bytes_received_ (be st) + Z.of_nat (length data))) as [Hov|Hok].
  - rewrite write_buffered_overflow_open by assumption. cbn. auto.
  - destruct (write_buffered_ok_open data st Hopen Hfit Hok) as (blk & Hblk & Hlen & ->).
    destruct Hopen as (Hmode & Hp & Hh & _ & Hr & Hsz).
    cbn. split; [|reflexivity].
    unfold open_buffered; cbn. repeat split; try assumption; try lia.
    eexists. split; [apply lookup_insert_eq|].
    rewrite splice_length by lia. exact Hlen.
Qed.

Lemma write_all_buffered_preserves chunks : forall st,
  open_buffered st ->
  Forall (fits_with_buffer st) chunks ->
  open_buffered (write_all chunks st) /\
  buffer_size_ (be (write_all chunks st)) = buffer_size_ (be st).
Proof.
  induction chunks as [|c rest IH]; intros st Hopen Hfit; [cbn; auto|].
  change (write_all (c :: rest) st)
    with (write_all rest (final_st (write c st) st)).
  inversion Hfit as [|? ? Hc Hrest]; subst.
  destruct (write_buffered_preserves c st Hopen Hc) as [Hopen' Hsz].
  destruct (IH (final_st (write c st) st) Hopen') as [Ho Hs].
  - eapply Forall_impl; [exact Hrest|]. unfold fits_with_buffer.
    intros x Hx. rewrite Hsz. exact Hx.
  - split; [exact Ho|]. rewrite Hs. exact Hsz.
Qed.

(** C6. In an open PSRAM-mode session, for a chunk that lives in memory
    next to the buffer: if bytes-received plus the chunk length exceeds the
    buffer size, [write] returns the unknown-error code and the object, the
    platform and the log are unchanged; otherwise it returns Ok, the chunk
    is copied into the buffer at offset bytes-received, bytes-received grows
    by the chunk length and the chunk is fed to the digest accumulator.
    Hence, over any sequence of writes, bytes-received never exceeds the
    buffer size, which stays the size declared to [begin]. *)
Theorem write_buffered_guard (data : list byte) (st : St) :
  open_buffered st ->
  fits_with_buffer st data ->
  let len := Z.of_nat (length data) in
  let off := bytes_received_ (be st) in
  (buffer_size_ (be st) < off + len ->
   write data st = Return OTA_RESPONSE_ERROR_UNKNOWN st) /\
  (off + len <= buffer_size_ (be st) ->
   exists blk,
     w_heap (world st) !! psram_buffer_ (be st) = Some blk /\
     Z.of_nat (length blk) = buffer_size_ (be st) /\
     write data st
     = Return OTA_RESPONSE_OK
         {| be := set_md5 (md5_add data (md5_ (be st)))
                    (set_bytes_received (off + len) (be st));
            world := set_heap
                       (<[psram_buffer_ (be st) :=
                            take (Z.to_nat off) blk ++ data
                              ++ drop (Z.to_nat off + length data) blk]>
                          (w_heap (world st))) (world st);
            log := log st |}) /\
  (forall chunks,
     Forall (fits_with_buffer st) chunks ->
     open_buffered (write_all chunks st) /\
     buffer_size_ (be (write_all chunks st)) = buffer_size_ (be st) /\
     0 <= bytes_received_ (be (write_all chunks st)) <= buffer_size_ (be st)).
Proof.
  intros Hopen Hfit len off. split; [|split].
  - apply write_buffered_overflow_open; assumption.
  - apply write_buffered_ok_open; assumption.
  - intros chunks Hall.
    destruct (write_all_buffered_preserves chunks st Hopen Hall) as [Ho Hs].
    split; [exact Ho|]. split; [exact Hs|].
    destruct Ho as (_ & _ & _ & _ & Hr & _). rewrite Hs in Hr. exact Hr.
Qed.

(** ** [write] in direct mode *)

Lemma write_direct_eq data st :
  use_psram_ (be st) = false ->
  let r := esp_ota_write (update_handle_ (be st)) data (world st) in
  write data st
  = Return (write_response (fst r))
      {| be := set_md5 (md5_add data (md5_ (be st))) (be st);
         world := snd r;
         log := log st ++ [EvOtaWrite (update_handle_ (be st)) data (fst r)] |}.
Proof.
  intros Hmode r. subst r. unfold write, write_response. run. rewrite Hmode. cbn.
  destruct (esp_ota_write _ _ _) as [err w']. cbn.
  destruct (err =? ESP_OK); cbn; [reflexivity|].
  destruct (err =? ESP_ERR_OTA_VALIDATE_FAILED); cbn; [reflexivity|].
  destruct ((err =? ESP_ERR_FLASH_OP_TIMEOUT) || (err =? ESP_ERR_FLASH_OP_FAIL));
    reflexivity.
Qed.

Lemma write_response_ok err : write_response err = OTA_RESPONSE_OK <-> err = ESP_OK.
Proof.
  unfold write_response. destruct (Z.eqb_spec err ESP_OK) as [->|Hne].
  - tauto.
  - split; [|contradiction].
    destruct (err =? ESP_ERR_OTA_VALIDATE_FAILED); [discriminate|].
    destruct ((err =? ESP_ERR_FLASH_OP_TIMEOUT) || (err =? ESP_ERR_FLASH_OP_FAIL));
      discriminate.
Qed.

(** A failed [esp_ota_write] stores nothing. *)
Lemma esp_ota_write_failed h data w :
  fst (esp_ota_write h data w) <> ESP_OK ->
  w_table (snd (esp_ota_write h data w)) = w_table w /\
  w_ota (snd (esp_ota_write h data w)) = w_ota w.
Proof.
  unfold esp_ota_write, next_result.
  destruct (w_script w) as [|r rest]; cbn;
    destruct (w_ota w !! h) as [e|]; cbn; try (intros _; split; reflexivity).
  - destruct (_ <? _); cbn; [intros _; split; reflexivity|].
    intros H; exfalso; apply H; reflexivity.
  - destruct (r =? ESP_OK); cbn; [|intros _; split; reflexivity].
    destruct (_ <? _); cbn; [intros _; split; reflexivity|].
    intros H; exfalso; apply H; reflexivity.
Qed.

(** C10. In direct mode [write] feeds the chunk to the digest accumulator
    whatever [esp_ota_write] reports: when the flash write fails, [write]
    returns an error, the flash cells and the transaction offset are as
    before, yet the accumulator has absorbed the chunk.  In PSRAM mode a
    [write] that does not return Ok leaves the whole state, accumulator
    included, unchanged, and one that returns Ok has fed the chunk. *)
Theorem write_digest_on_failure (data : list byte) (st : St) :
  (use_psram_ (be st) = false ->
   let r := esp_ota_write (update_handle_ (be st)) data (world st) in
   md5_ (be (final_st (write data st) st)) = md5_add data (md5_ (be st)) /\
   world (final_st (write data st) st) = snd r /\
   (fst r <> ESP_OK ->
    (exists resp, response (write data st) = Some resp /\ resp <> OTA_RESPONSE_OK) /\
    w_table (snd r) = w_table (world st) /\
    w_ota (snd r) = w_ota (world st))) /\
  (use_psram_ (be st) = true ->
   (response (write data st) <> Some OTA_RESPONSE_OK ->
    final_st (write data st) st = st) /\
   (response (write data st) = Some OTA_RESPONSE_OK ->
    md5_ (be (final_st (write data st) st)) = md5_add data (md5_ (be st)))).
Proof.
  split.
  - intros Hmode r. rewrite (write_direct_eq data st Hmode). fold r. cbn.
    split; [reflexivity|]. split; [reflexivity|].
    intros Hfail. split.
    + eexists. split; [reflexivity|]. rewrite write_response_ok. exact Hfail.
    + apply esp_ota_write_failed. exact Hfail.
  - intros Hmode.
    destruct (Z.lt_ge_cases (buffer_size_ (be st))
                (wrap32 (bytes_received_ (be st) + Z.of_nat (length data))))
      as [Hov|Hok].
    + rewrite write_buffered_overflow by assumption. cbn.
      split; [reflexivity|discriminate].
    + rewrite write_buffered_ok by assumption. cbn.
      split; [intros H; exfalso; apply H; reflexivity|reflexivity].
Qed.

(** ** [end] in direct mode *)

Lemma end_direct_eq fuel st :
  use_psram_ (be st) = false ->
  digest_passes (be st) = true ->
  let h := update_handle_ (be st) in
  let r1 := esp_ota_end h (world st) in
  let r2 := esp_ota_set_boot_partition (partition_ (be st)) (snd r1) in
  let b := set_update_handle 0 (after_digest (be st)) in
  end_ fuel st
  = if fst r1 =? ESP_OK then
      Return (if fst r2 =? ESP_OK then OTA_RESPONSE_OK
              else end_error_response (fst r2))
        {| be := b; world := snd r2;
           log := log st ++ [EvOtaEnd h (fst r1)]
                    ++ [EvSetBoot (partition_ (be st)) (fst r2)] |}
    else
      Return (end_error_response (fst r1))
        {| be := b; world := snd r1; log := log st ++ [EvOtaEnd h (fst r1)] |}.
Proof.
  intros Hmode Hpass h r1 r2 b. subst h r1 r2 b.
  unfold digest_passes in Hpass. unfold end_, after_digest, end_error_response. run.
  destruct (md5_set_ (be st)) eqn:Hset; cbn in *.
  - rewrite Hpass. cbn. rewrite Hmode. cbn.
    destruct (esp_ota_end _ _) as [e1 w1]. cbn.
    destruct (e1 =? ESP_OK) eqn:He1; cbn.
    + destruct (esp_ota_set_boot_partition _ _) as [e2 w2]. cbn.
      rewrite <- app_assoc. cbn.
      destruct (e2 =? ESP_OK) eqn:He2; cbn; [reflexivity|].
      destruct (e2 =? ESP_ERR_OTA_VALIDATE_FAILED); cbn; [reflexivity|].
      destruct ((e2 =? ESP_ERR_FLASH_OP_TIMEOUT) || (e2 =? ESP_ERR_FLASH_OP_FAIL));
        reflexivity.
    + destruct (e1 =? ESP_ERR_OTA_VALIDATE_FAILED); cbn; [reflexivity|].
      destruct ((e1 =? ESP_ERR_FLASH_OP_TIMEOUT) || (e1 =? ESP_ERR_FLASH_OP_FAIL));
        reflexivity.
  - rewrite Hmode. cbn.
    destruct (esp_ota_end _ _) as [e1 w1]. cbn.
    destruct (e1 =? ESP_OK) eqn:He1; cbn.
    + destruct (esp_ota_set_boot_partition _ _) as [e2 w2]. cbn.
      rewrite <- app_assoc. cbn.
      destruct (e2 =? ESP_OK) eqn:He2; cbn; [reflexivity|].
      destruct (e2 =? ESP_ERR_OTA_VALIDATE_FAILED); cbn; [reflexivity|].
      destruct ((e2 =? ESP_ERR_FLASH_OP_TIMEOUT) || (e2 =? ESP_ERR_FLASH_OP_FAIL));
        reflexivity.
    + destruct (e1 =? ESP_ERR_OTA_VALIDATE_FAILED); cbn; [reflexivity|].
      destruct ((e1 =? ESP_ERR_FLASH_OP_TIMEOUT) || (e1 =? ESP_ERR_FLASH_OP_FAIL));
        reflexivity.
Qed.

Lemma end_error_response_not_ok err : end_error_response err <> OTA_RESPONSE_OK.
Proof.
  unfold end_error_response.
  destruct (err =? ESP_ERR_OTA_VALIDATE_FAILED); [discriminate|].
  destruct ((err =? ESP_ERR_FLASH_OP_TIMEOUT) || (err =? ESP_ERR_FLASH_OP_FAIL));
    discriminate.
Qed.

Lemma end_error_response_cases err :
  (err = ESP_ERR_OTA_VALIDATE_FAILED ->
   end_error_response err = OTA_RESPONSE_ERROR_UPDATE_END) /\
  (err = ESP_ERR_FLASH_OP_TIMEOUT \/ err = ESP_ERR_FLASH_OP_FAIL ->
   end_error_response err = OTA_RESPONSE_ERROR_WRITING_FLASH) /\
  (err <> ESP_ERR_OTA_VALIDATE_FAILED -> err <> ESP_ERR_FLASH_OP_TIMEOUT ->
   err <> ESP_ERR_FLASH_OP_FAIL ->
   end_error_response err = OTA_RESPONSE_ERROR_UNKNOWN).
Proof.
  unfold end_error_response. repeat split.
  - intros ->. reflexivity.
  - intros [-> | ->]; reflexivity.
  - intros H1 H2 H3.
    rewrite (proj2 (Z.eqb_neq _ _) H1), (proj2 (Z.eqb_neq _ _) H2),
      (proj2 (Z.eqb_neq _ _) H3). reflexivity.
Qed.

(** C7, as the code has it.  In direct mode, once the digest check is
    passed, [end] closes the transaction and, if that succeeded, selects
    the partition for the next boot.  It returns Ok exactly when both steps
    succeed.  Otherwise the error code of the step that failed decides: a
    validation failure gives the update-end code, a flash-operation timeout
    or failure gives the flash-write code, and every other code, from
    either step, gives the unknown-error code. *)
Theorem end_direct_error_mapping (fuel : nat) (st : St) :
  use_psram_ (be st) = false ->
  digest_passes (be st) = true ->
  let r1 := esp_ota_end (update_handle_ (be st)) (world st) in
  let r2 := esp_ota_set_boot_partition (partition_ (be st)) (snd r1) in
  let err := if fst r1 =? ESP_OK then fst r2 else fst r1 in
  exists resp,
    response (end_ fuel st) = Some resp /\
    (resp = OTA_RESPONSE_OK <-> fst r1 = ESP_OK /\ fst r2 = ESP_OK) /\
    (err <> ESP_OK -> resp = end_error_response err) /\
    (err = ESP_ERR_OTA_VALIDATE_FAILED -> resp = OTA_RESPONSE_ERROR_UPDATE_END) /\
    (err = ESP_ERR_FLASH_OP_TIMEOUT \/ err = ESP_ERR_FLASH_OP_FAIL ->
     resp = OTA_RESPONSE_ERROR_WRITING_FLASH) /\
    (err <> ESP_OK -> err <> ESP_ERR_OTA_VALIDATE_FAILED ->
     err <> ESP_ERR_FLASH_OP_TIMEOUT -> err <> ESP_ERR_FLASH_OP_FAIL ->
     resp = OTA_RESPONSE_ERROR_UNKNOWN).
Proof.
  intros Hmode Hpass r1 r2 err.
  rewrite (end_direct_eq fuel st Hmode Hpass). fold r1. fold r2.
  destruct (end_error_response_cases err) as (Hv & Hf & Hu).
  subst err.
  destruct (Z.eqb_spec (fst r1) ESP_OK) as [E1|E1].
  - destruct (Z.eqb_spec (fst r2) ESP_OK) as [E2|E2]; cbn.
    + exists OTA_RESPONSE_OK. split; [reflexivity|].
      split; [tauto|]. rewrite E2.
      repeat split; try (intros; congruence).
      * unfold ESP_OK, ESP_ERR_OTA_VALIDATE_FAILED. discriminate.
      * unfold ESP_OK, ESP_ERR_FLASH_OP_TIMEOUT, ESP_ERR_FLASH_OP_FAIL.
        intros [H|H]; discriminate.
    + exists (end_error_response (fst r2)). split; [reflexivity|].
      split; [|auto].
      split; [intros H; exfalso; exact (end_error_response_not_ok _ H)|tauto].
  - cbn. exists (end_error_response (fst r1)). split; [reflexivity|].
    split; [|auto].
    split; [intros H; exfalso; exact (end_error_response_not_ok _ H)|tauto].
Qed.

(** ** [begin] in direct mode *)

Lemma begin_direct_no_partition image_size st :
  use_psram_ (be st) = false ->
  esp_ota_get_next_update_partition (world st) = None ->
  begin image_size st
  = Return OTA_RESPONSE_ERROR_NO_UPDATE_PARTITION
      {| be := set_partition None (be st); world := world st; log := log st |}.
Proof.
  intros Hmode Hnone. unfold begin. run. rewrite Hmode. cbn.
  rewrite Hnone. reflexivity.
Qed.

Lemma begin_direct_eq image_size st i :
  use_psram_ (be st) = false ->
  esp_ota_get_next_update_partition (world st) = Some i ->
  let r := esp_ota_begin i image_size (wdt_extend (world st)) in
  let err := fst (fst r) in
  let b := match snd (fst r) with
           | Some h => set_update_handle h (set_partition (Some i) (be st))
           | None => set_partition (Some i) (be st)
           end in
  let l := log st ++ wdt_extend_events ++ [EvOtaBegin i image_size err]
             ++ wdt_restore_events in
  begin image_size st
  = if err =? ESP_OK
    then Return OTA_RESPONSE_OK
           {| be := set_md5 (md5_init (md5_ b)) b;
              world := wdt_restore (snd r); log := l |}
    else Return (begin_error_response err)
           {| be := set_update_handle 0 b;
              world := snd (esp_ota_abort (update_handle_ b) (wdt_restore (snd r)));
              log := l ++ [EvOtaAbort (update_handle_ b)] |}.
Proof.
  intros Hmode Hsome r err b l. subst r err b l.
  unfold begin, wdt_extend, wdt_restore, wdt_extend_events, wdt_restore_events,
    begin_error_response, esp_task_wdt_reconfigure. run.
  rewrite Hmode. cbn. rewrite Hsome. cbn.
  destruct (CONFIG_ESP_TASK_WDT_TIMEOUT_S <? 15); cbn.
  - destruct (esp_ota_begin _ _ _) as [[e h] w1]. cbn.
    destruct h as [h|]; cbn; destruct (e =? ESP_OK); cbn;
      rewrite <- ?app_assoc; cbn; try reflexivity.
    all: destruct (esp_ota_abort _ _) as [ea wa]; cbn.
    all: rewrite <- ?app_assoc; cbn.
    all: destruct (e =? ESP_ERR_INVALID_SIZE); cbn; [reflexivity|].
    all: destruct ((e =? ESP_ERR_FLASH_OP_TIMEOUT) || (e =? ESP_ERR_FLASH_OP_FAIL));
      reflexivity.
  - destruct (esp_ota_begin _ _ _) as [[e h] w1]. cbn.
    destruct h as [h|]; cbn; destruct (e =? ESP_OK); cbn;
      rewrite <- ?app_assoc; cbn; try reflexivity.
    all: destruct (esp_ota_abort _ _) as [ea wa]; cbn.
    all: rewrite <- ?app_assoc; cbn.
    all: destruct (e =? ESP_ERR_INVALID_SIZE); cbn; [reflexivity|].
    all: destruct ((e =? ESP_ERR_FLASH_OP_TIMEOUT) || (e =? ESP_ERR_FLASH_OP_FAIL));
      reflexivity.
Qed.

(** C9, as the code has it.  [begin] never looks at whether the image size
    is zero; what it returns for size 0 is decided by the platform alone.
    In direct mode it returns Ok exactly when an update partition exists
    and [esp_ota_begin], called with size 0, succeeds; in PSRAM mode it
    returns Ok exactly when the pool reports some free bytes and the
    allocator answers the request for 0 bytes with a pointer that is not
    null. *)
Theorem begin_zero_size (st : St) :
  (use_psram_ (be st) = false ->
   (response (begin 0 st) = Some OTA_RESPONSE_OK <->
    exists i, esp_ota_get_next_update_partition (world st) = Some i /\
              fst (fst (esp_ota_begin i 0 (wdt_extend (world st)))) = ESP_OK)) /\
  (use_psram_ (be st) = true ->
   (response (begin 0 st) = Some OTA_RESPONSE_OK <->
    w_psram_free (world st) <> 0 /\ 0 <= w_psram_free (world st) /\
    fst (heap_caps_malloc 0 (world st)) <> 0)).
Proof.
  split; intros Hmode.
  - destruct (esp_ota_get_next_update_partition (world st)) as [i|] eqn:Hp.
    + rewrite (begin_direct_eq 0 st i Hmode Hp).
      destruct (Z.eqb_spec (fst (fst (esp_ota_begin i 0 (wdt_extend (world st))))) ESP_OK)
        as [E|E]; cbn.
      * split; [intros _; exists i; auto|reflexivity].
      * split.
        -- intros H. exfalso. inversion H as [H1]. revert H1.
           unfold begin_error_response.
           repeat match goal with |- context [if ?c then _ else _] => destruct c end;
             discriminate.
        -- intros (j & Hj & Hok). inversion Hj; subst. contradiction.
    + rewrite (begin_direct_no_partition 0 st Hmode Hp). cbn.
      split; [discriminate|]. intros (j & Hj & _). discriminate.
  - destruct (begin_buffered_cases 0 st Hmode) as (Hz & Hlt & Hnull & Hok).
    destruct (Z.eq_dec (w_psram_free (world st)) 0) as [E0|E0].
    + rewrite (Hz E0). cbn. split; [discriminate|tauto].
    + destruct (Z.lt_ge_cases (w_psram_free (world st)) 0) as [Hneg|Hpos].
      * rewrite (Hlt E0 Hneg). cbn. split; [discriminate|lia].
      * destruct (Z.eq_dec (fst (heap_caps_malloc 0 (world st))) 0) as [Ep|Ep].
        -- rewrite (Hnull E0 Hpos Ep). cbn. split; [discriminate|tauto].
        -- rewrite (Hok E0 Hpos Ep). cbn. split; [auto|reflexivity].
Qed.

(** ** [end] in PSRAM mode: the target partition *)

Lemma never_next_bind {A B} (m : M A) (k : A -> M B) :
  (forall a, never_next (k a)) -> never_next (bind m k).
Proof.
  intros Hk st b st'. unfold bind. destruct (m st) as [a st1|r st1|];
    [apply Hk|discriminate|discriminate].
Qed.

Lemma never_next_return {A} r : never_next (@return_ A r).
Proof. intros st a st'. discriminate. Qed.

Lemma bind_never_next {A} (m : M A) (k : A -> M A) st :
  never_next m -> bind m k st = m st.
Proof.
  intros Hm. unfold bind. destruct (m st) as [a st1|r st1|] eqn:E;
    [exfalso; exact (Hm _ _ _ E)|reflexivity|reflexivity].
Qed.

Lemma end_commit_never_next fuel i : never_next (end_commit fuel i).
Proof.
  unfold end_commit.
  repeat (apply never_next_bind; intros).
  apply never_next_return.
Qed.

Lemma end_buffered_eq fuel st :
  use_psram_ (be st) = true ->
  digest_passes (be st) = true ->
  let found := resolve_target (be st) (world st) in
  let st1 := {| be := set_partition found (after_digest (be st));
                world := world st; log := log st |} in
  end_ fuel st
  = match found with
    | None => (abort ;; return_ OTA_RESPONSE_ERROR_NO_UPDATE_PARTITION) st1
    | Some i => end_commit fuel i st1
    end.
Proof.
  intros Hmode Hpass found st1. subst found st1.
  unfold digest_passes in Hpass.
  unfold end_, after_digest, resolve_target. run.
  destruct (md5_set_ (be st)) eqn:Hset; cbn in *.
  - rewrite Hpass. cbn. rewrite Hmode. cbn.
    destruct (negb _); cbn; destruct (esp_partition_find_first _ _ _ _); cbn.
    all: try (destruct (end_commit _ _ _) eqn:E;
              [exfalso; exact (end_commit_never_next _ _ _ _ _ E)
              |reflexivity|reflexivity]).
    all: rewrite abort_eq; reflexivity.
  - rewrite Hmode. cbn.
    destruct (negb _); cbn; destruct (esp_partition_find_first _ _ _ _); cbn.
    all: try (destruct (end_commit _ _ _) eqn:E;
              [exfalso; exact (end_commit_never_next _ _ _ _ _ E)
              |reflexivity|reflexivity]).
    all: rewrite abort_eq; reflexivity.
Qed.

(** ** The commit sequence of [end] in PSRAM mode *)

Lemma post_bind {A B} (m : M A) (k : A -> M B) st
    (Qn : A -> St -> Prop) Pn (Pr : OTAResponseTypes -> St -> Prop) :
  post m st Qn Pr ->
  (forall a st1, Qn a st1 -> post (k a) st1 Pn Pr) ->
  post (bind m k) st Pn Pr.
Proof.
  unfold post, bind. intros Hm Hk.
  destruct (m st) as [a st1|r st1|]; [apply Hk; exact Hm|exact Hm|exact I].
Qed.

Lemma post_weaken {A} (m : M A) st (Pn Pn' : A -> St -> Prop)
    (Pr Pr' : OTAResponseTypes -> St -> Prop) :
  post m st Pn Pr ->
  (forall a st', Pn a st' -> Pn' a st') ->
  (forall r st', Pr r st' -> Pr' r st') ->
  post m st Pn' Pr'.
Proof.
  unfold post. intros Hm Hn Hr.
  destruct (m st); [apply Hn|apply Hr|]; assumption.
Qed.

Lemma same_session_refl i st : same_session i st st.
Proof.
  repeat split. exists []. split; [symmetry; apply app_nil_r|constructor].
Qed.

Lemma same_session_trans i st1 st2 st3 :
  same_session i st1 st2 -> same_session i st2 st3 -> same_session i st1 st3.
Proof.
  intros (Hb & Hh & Hf & Ho & evs & Hl & He) (Hb' & Hh' & Hf' & Ho' & evs' & Hl' & He').
  repeat split; try congruence.
  exists (evs ++ evs'). split.
  - rewrite Hl', Hl, app_assoc. reflexivity.
  - apply Forall_app. split; assumption.
Qed.

Lemma aborted_trans i st1 st2 st3 :
  same_session i st1 st2 -> aborted i st2 st3 -> aborted i st1 st3.
Proof.
  intros H12 (st & H2 & Ha). exists st. split; [|exact Ha].
  eapply same_session_trans; eassumption.
Qed.

(** A step that leaves the object, the heap and the transactions alone and
    logs one call on partition [i]. *)
Lemma same_session_step i st st' e :
  be st' = be st ->
  w_heap (world st') = w_heap (world st) ->
  w_heap_fault (world st') = w_heap_fault (world st) ->
  w_ota (world st') = w_ota (world st) ->
  log st' = log st ++ [e] ->
  (touches_flash e = true -> event_partition e = Some i) ->
  same_session i st st'.
Proof.
  intros Hb Hh Hf Ho Hl He. repeat split; try assumption.
  exists [e]. split; [exact Hl|]. constructor; [exact He|constructor].
Qed.

Lemma update_part_frame i f w :
  w_heap (update_part i f w) = w_heap w /\
  w_heap_fault (update_part i f w) = w_heap_fault w /\
  w_ota (update_part i f w) = w_ota w.
Proof. unfold update_part. destruct (w_table w !! i); repeat split. Qed.

Lemma next_result_frame w :
  w_heap (snd (next_result w)) = w_heap w /\
  w_heap_fault (snd (next_result w)) = w_heap_fault w /\
  w_ota (snd (next_result w)) = w_ota w /\
  w_table (snd (next_result w)) = w_table w /\
  w_boot (snd (next_result w)) = w_boot w.
Proof. unfold next_result. destruct (w_script w); repeat split. Qed.

Lemma esp_partition_erase_range_frame i off len w :
  w_heap (snd (esp_partition_erase_range i off len w)) = w_heap w /\
  w_heap_fault (snd (esp_partition_erase_range i off len w)) = w_heap_fault w /\
  w_ota (snd (esp_partition_erase_range i off len w)) = w_ota w.
Proof.
  unfold esp_partition_erase_range.
  pose proof (next_result_frame w) as (Hh & Hf & Ho & _).
  destruct (next_result w) as [r w1]. cbn in *.
  destruct (negb (r =? ESP_OK)); cbn; [auto|].
  destruct (negb (range_check i off len w1 =? ESP_OK)); cbn; [auto|].
  pose proof (update_part_frame i (erase_cells off len) w1) as (Hh' & Hf' & Ho').
  repeat split; congruence.
Qed.

Lemma esp_partition_write_frame i off data w :
  w_heap (snd (esp_partition_write i off data w)) = w_heap w /\
  w_heap_fault (snd (esp_partition_write i off data w)) = w_heap_fault w /\
  w_ota (snd (esp_partition_write i off data w)) = w_ota w.
Proof.
  unfold esp_partition_write.
  pose proof (next_result_frame w) as (Hh & Hf & Ho & _).
  destruct (next_result w) as [r w1]. cbn in *.
  destruct (negb (r =? ESP_OK)); cbn; [auto|].
  destruct (negb (range_check i off _ w1 =? ESP_OK)); cbn; [auto|].
  pose proof (update_part_frame i (program_at off data) w1) as (Hh' & Hf' & Ho').
  repeat split; congruence.
Qed.

Lemma esp_partition_read_frame i off len w :
  w_heap (snd (esp_partition_read i off len w)) = w_heap w /\
  w_heap_fault (snd (esp_partition_read i off len w)) = w_heap_fault w /\
  w_ota (snd (esp_partition_read i off len w)) = w_ota w /\
  w_table (snd (esp_partition_read i off len w)) = w_table w /\
  w_boot (snd (esp_partition_read i off len w)) = w_boot w.
Proof.
  unfold esp_partition_read.
  pose proof (next_result_frame w) as (Hh & Hf & Ho & Ht & Hb).
  destruct (next_result w) as [r w1]. cbn in *.
  destruct (negb (r =? ESP_OK)); cbn; [auto|].
  destruct (negb (range_check i off len w1 =? ESP_OK)); cbn; [auto|].
  destruct (w_table w1 !! i); cbn; auto.
Qed.

Lemma esp_ota_set_boot_partition_frame p w :
  w_heap (snd (esp_ota_set_boot_partition p w)) = w_heap w /\
  w_heap_fault (snd (esp_ota_set_boot_partition p w)) = w_heap_fault w /\
  w_ota (snd (esp_ota_set_boot_partition p w)) = w_ota w /\
  w_table (snd (esp_ota_set_boot_partition p w)) = w_table w.
Proof.
  unfold esp_ota_set_boot_partition.
  pose proof (next_result_frame w) as (Hh & Hf & Ho & Ht & _).
  destruct (next_result w) as [r w1]. cbn in *.
  destruct (negb (r =? ESP_OK)); cbn; [auto|].
  destruct p as [i|]; cbn; [|auto].
  destruct (w_table w1 !! i) as [q|]; cbn; [|auto].
  destruct (p_type q =? ESP_PARTITION_TYPE_APP); cbn; auto.
Qed.

Arguments flash_from_psram : simpl never.
Arguments verify_flash : simpl never.

Lemma flash_from_psram_unfold fuel i offset :
  flash_from_psram (S fuel) i offset
  = (s <- this ;;
     if offset <? buffer_size_ s then
       let chunk_len := Z.min CHUNK_SIZE (buffer_size_ s - offset) in
       src <- query (heap_read (psram_buffer_ s) offset chunk_len) ;;
       err <- platform (esp_partition_write i offset src) ;;
       emit (EvPartWrite i offset src err) ;;
       when_ (negb (err =? ESP_OK))
         (abort ;; return_ OTA_RESPONSE_ERROR_WRITING_FLASH) ;;
       esp_task_wdt_reset ;;
       flash_from_psram fuel i (wrap32 (offset + CHUNK_SIZE))
     else ret tt).
Proof. reflexivity. Qed.

Lemma verify_flash_unfold fuel i offset :
  verify_flash (S fuel) i offset
  = (s <- this ;;
     if offset <? buffer_size_ s then
       let chunk_len := Z.min CHUNK_SIZE (buffer_size_ s - offset) in
       res <- platform (fun w => let '(err, buf, w') := esp_partition_read i offset chunk_len w
                                 in ((err, buf), w')) ;;
       emit (EvPartRead i offset chunk_len (fst res)) ;;
       src <- query (heap_read (psram_buffer_ s) offset chunk_len) ;;
       let verify_buf := snd res in
       when_ (negb (fst res =? ESP_OK) || negb (bool_decide (verify_buf = src)))
         (abort ;; return_ OTA_RESPONSE_ERROR_WRITING_FLASH) ;;
       esp_task_wdt_reset ;;
       verify_flash fuel i (wrap32 (offset + CHUNK_SIZE))
     else ret tt).
Proof. reflexivity. Qed.

Lemma flash_from_psram_post i fuel : forall offset st,
  post (flash_from_psram fuel i offset) st
    (fun _ st' => same_session i st st')
    (fun r st' => r = OTA_RESPONSE_ERROR_WRITING_FLASH /\ aborted i st st').
Proof.
  induction fuel as [|fuel IH]; intros offset st; [exact I|].
  rewrite flash_from_psram_unfold. unfold post, esp_task_wdt_reset. run.
  destruct (offset <? buffer_size_ (be st)); cbn; [|apply same_session_refl].
  pose proof (esp_partition_write_frame i offset
                (heap_read (psram_buffer_ (be st)) offset
                   (Z.min CHUNK_SIZE (buffer_size_ (be st) - offset)) (world st))
                (world st))
    as (Hh & Hf & Ho).
  destruct (esp_partition_write _ _ _ _) as [err w']. cbn in *.
  match goal with
  | |- context [EvPartWrite i offset ?d err] =>
      assert (Hstep : same_session i st
                {| be := be st; world := w';
                   log := log st ++ [EvPartWrite i offset d err] |})
        by (eapply same_session_step; cbn; auto)
  end.
  destruct (err =? ESP_OK); cbn.
  - match goal with
    | |- context [flash_from_psram fuel i ?o ?s] =>
        pose proof (IH o s) as HIH; unfold post in HIH;
        assert (Hstep2 : same_session i st s)
          by (eapply same_session_trans; [exact Hstep|];
              eapply same_session_step; cbn; auto; discriminate);
        destruct (flash_from_psram fuel i o s) as [a st'|r st'|]
    end.
    + eapply same_session_trans; eassumption.
    + destruct HIH as [-> Hab]. split; [reflexivity|].
      eapply aborted_trans; eassumption.
    + exact I.
  - rewrite abort_eq. cbn. split; [reflexivity|].
    eexists. split; [exact Hstep|]. rewrite abort_eq. reflexivity.
Qed.

Lemma verify_flash_post i fuel : forall offset st,
  post (verify_flash fuel i offset) st
    (fun _ st' => same_session i st st' /\ w_table (world st') = w_table (world st)
                  /\ w_boot (world st') = w_boot (world st))
    (fun r st' => r = OTA_RESPONSE_ERROR_WRITING_FLASH /\ aborted i st st').
Proof.
  induction fuel as [|fuel IH]; intros offset st; [exact I|].
  rewrite verify_flash_unfold. unfold post, esp_task_wdt_reset. run.
  destruct (offset <? buffer_size_ (be st)); cbn;
    [|split; [apply same_session_refl|split; reflexivity]].
  pose proof (esp_partition_read_frame i offset
                (Z.min CHUNK_SIZE (buffer_size_ (be st) - offset)) (world st))
    as (Hh & Hf & Ho & Ht & Hb).
  destruct (esp_partition_read _ _ _ _) as [[err buf] w']. cbn in *.
  match goal with
  | |- context [EvPartRead i offset ?n err] =>
      assert (Hstep : same_session i st
                {| be := be st; world := w';
                   log := log st ++ [EvPartRead i offset n err] |})
        by (eapply same_session_step; cbn; auto)
  end.
  destruct (negb (err =? ESP_OK) || _); cbn.
  - rewrite abort_eq. cbn. split; [reflexivity|].
    eexists. split; [exact Hstep|]. rewrite abort_eq. reflexivity.
  - match goal with
    | |- context [verify_flash fuel i ?o ?s] =>
        pose proof (IH o s) as HIH; unfold post in HIH;
        assert (Hstep2 : same_session i st s)
          by (eapply same_session_trans; [exact Hstep|];
              eapply same_session_step; cbn; auto; discriminate);
        destruct (verify_flash fuel i o s) as [a st'|r st'|]
    end.
    + destruct HIH as (Hs & Ht' & Hb'). cbn in *.
      split; [eapply same_session_trans; eassumption|].
      split; congruence.
    + destruct HIH as [-> Hab]. split; [reflexivity|].
      eapply aborted_trans; eassumption.
    + exact I.
Qed.

Lemma end_commit_post fuel i st :
  post (end_commit fuel i) st
    (fun _ _ => False)
    (fun r st' =>
       aborted i st st' /\
       (r = OTA_RESPONSE_OK \/ r = OTA_RESPONSE_ERROR_WRITING_FLASH \/
        r = OTA_RESPONSE_ERROR_UPDATE_END)).
Proof.
  unfold post, end_commit. run.
  pose proof (esp_partition_erase_range_frame i 0 (part_size i (world st)) (world st))
    as (Hh & Hf & Ho).
  destruct (esp_partition_erase_range _ _ _ _) as [err w1]. cbn in *.
  match goal with
  | |- context [EvErase i 0 ?n err] =>
      assert (H1 : same_session i st
                {| be := be st; world := w1; log := log st ++ [EvErase i 0 n err] |})
        by (eapply same_session_step; cbn; auto)
  end.
  destruct (err =? ESP_OK); cbn.
  2:{ rewrite abort_eq. cbn. split; [|auto].
      eexists. split; [exact H1|]. rewrite abort_eq. reflexivity. }
  match goal with
  | |- context [flash_from_psram fuel i 0 ?s] =>
      pose proof (flash_from_psram_post i fuel 0 s) as HF; unfold post in HF;
      destruct (flash_from_psram fuel i 0 s) as [a st2|r st2|]
  end; [|destruct HF as [-> HF]; split; [eapply aborted_trans; eassumption|auto]|exact I].
  assert (H2 : same_session i st st2) by (eapply same_session_trans; eassumption).
  pose proof (verify_flash_post i fuel 0 st2) as HV. unfold post in HV.
  destruct (verify_flash fuel i 0 st2) as [a' st3|r st3|];
    [|destruct HV as [-> HV]; split; [eapply aborted_trans; eassumption|auto]|exact I].
  destruct HV as (HV & _).
  assert (H3 : same_session i st st3) by (eapply same_session_trans; eassumption).
  pose proof (esp_ota_set_boot_partition_frame (Some i) (world st3)) as (Hh' & Hf' & Ho' & _).
  destruct (esp_ota_set_boot_partition _ _) as [e2 w4]. cbn in *.
  assert (H4 : same_session i st
            {| be := be st3; world := w4; log := log st3 ++ [EvSetBoot (Some i) e2] |}).
  { eapply same_session_trans; [exact H3|].
    eapply same_session_step; cbn; auto. }
  destruct (e2 =? ESP_OK); cbn; rewrite abort_eq; cbn.
  - split; [|auto]. eexists. split; [exact H4|]. rewrite abort_eq. reflexivity.
  - split; [|auto]. eexists. split; [exact H4|]. rewrite abort_eq. reflexivity.
Qed.

Lemma abort_events_flash_on i s : flash_events_on i (abort_events s).
Proof.
  unfold flash_events_on, abort_events.
  destruct (psram_buffer_ s =? 0), (update_handle_ s =? 0); cbn;
    repeat constructor; discriminate.
Qed.

(** What an aborted session looks like from where it started. *)
Lemma aborted_props i st st' :
  aborted i st st' ->
  be st' = abort_be (be st) /\
  closed (be st') /\
  (psram_buffer_ (be st) = 0 \/
   w_heap (world st') !! psram_buffer_ (be st) = None) /\
  (update_handle_ (be st) = 0 \/
   w_ota (world st') !! update_handle_ (be st) = None) /\
  w_heap_fault (world st') = w_heap_fault (world st) || stale_buffer st /\
  exists evs, log st' = log st ++ evs /\ In EvBackendAbort evs /\
              flash_events_on i evs.
Proof.
  intros (st1 & (Hb & Hh & Hf & Ho & evs & Hl & He) & Ha).
  rewrite abort_eq in Ha. inversion Ha; subst st'; clear Ha. cbn.
  pose proof (abort_world_released (be st1) (world st1)) as (Hr1 & Hr2).
  rewrite Hb in Hr1, Hr2. rewrite Hb.
  split; [reflexivity|].
  split; [apply abort_be_closed|].
  split; [exact Hr1|]. split; [exact Hr2|]. split.
  - rewrite <- Hb. rewrite abort_world_heap_fault. unfold stale_buffer.
    rewrite Hb, Hh, Hf. reflexivity.
  - exists (evs ++ abort_events (be st)). split; [rewrite Hl, app_assoc; reflexivity|].
    split.
    + apply in_or_app. right. left. reflexivity.
    + apply Forall_app. split; [exact He|apply abort_events_flash_on].
Qed.

Lemma find_first_from_spec tbl ty sub label : forall i k,
  find_first_from i tbl ty sub label = Some k ->
  (i <= k)%nat /\
  exists p, tbl !! (k - i)%nat = Some p /\ part_matches ty sub label p = true.
Proof.
  induction tbl as [|q rest IH]; intros i k H; cbn in H; [discriminate|].
  destruct (part_matches ty sub label q) eqn:Hm.
  - inversion H; subst. split; [lia|]. exists q.
    rewrite Nat.sub_diag. split; [reflexivity|exact Hm].
  - apply IH in H. destruct H as (Hle & p & Hp & Hpm).
    split; [lia|]. exists p. split; [|exact Hpm].
    replace (k - i)%nat with (S (k - S i)) by lia. exact Hp.
Qed.

Lemma esp_partition_find_first_spec ty sub label w k :
  esp_partition_find_first ty sub label w = Some k ->
  exists p, w_table w !! k = Some p /\ part_matches ty sub label p = true.
Proof.
  unfold esp_partition_find_first. intros H.
  apply find_first_from_spec in H. destruct H as (_ & p & Hp & Hm).
  rewrite Nat.sub_0_r in Hp. exists p. auto.
Qed.

Lemma string_eqb_empty (s : string) :
  negb (String.eqb s EmptyString) = false <-> s = EmptyString.
Proof.
  destruct (String.eqb_spec s EmptyString) as [->|Hne]; cbn.
  - tauto.
  - split; [discriminate|contradiction].
Qed.

(** C4, as the code has it.  In PSRAM mode, once the digest check is
    passed, [end] resolves its target among the application partitions:
    with no label set, the first partition of subtype ota_0, whichever
    partition is running; with a label set, the first partition carrying
    that label, of any subtype.  A failed lookup makes [end] call [abort]
    and return the no-update-partition code, flash untouched.  Otherwise
    every erase, write, read-back and boot selection [end] performs is on
    the partition found, which it leaves in [partition_]. *)
Theorem end_buffered_target (fuel : nat) (st : St) :
  use_psram_ (be st) = true ->
  digest_passes (be st) = true ->
  let label := target_partition_label_ (be st) in
  let found := resolve_target (be st) (world st) in
  let b1 := set_partition found (after_digest (be st)) in
  (label = EmptyString ->
   found = esp_partition_find_first ESP_PARTITION_TYPE_APP
             ESP_PARTITION_SUBTYPE_APP_OTA_0 None (world st)) /\
  (label <> EmptyString ->
   found = esp_partition_find_first ESP_PARTITION_TYPE_APP
             ESP_PARTITION_SUBTYPE_ANY (Some label) (world st)) /\
  (forall i, found = Some i ->
     exists p, w_table (world st) !! i = Some p /\
               p_type p = ESP_PARTITION_TYPE_APP /\
               (label = EmptyString -> p_subtype p = ESP_PARTITION_SUBTYPE_APP_OTA_0) /\
               (label <> EmptyString -> p_label p = label)) /\
  (found = None ->
   end_ fuel st
   = Return OTA_RESPONSE_ERROR_NO_UPDATE_PARTITION
       {| be := abort_be b1; world := abort_world b1 (world st);
          log := log st ++ abort_events b1 |} /\
   w_table (abort_world b1 (world st)) = w_table (world st) /\
   w_boot (abort_world b1 (world st)) = w_boot (world st)) /\
  (forall i r st', found = Some i -> end_ fuel st = Return r st' ->
     partition_ (be st') = Some i /\
     exists evs, log st' = log st ++ evs /\ flash_events_on i evs).
Proof.
  intros Hmode Hpass label found b1.
  assert (Hl1 : label = EmptyString ->
                found = esp_partition_find_first ESP_PARTITION_TYPE_APP
                          ESP_PARTITION_SUBTYPE_APP_OTA_0 None (world st)).
  { intros E. subst found. unfold resolve_target. fold label. rewrite E. reflexivity. }
  assert (Hl2 : label <> EmptyString ->
                found = esp_partition_find_first ESP_PARTITION_TYPE_APP
                          ESP_PARTITION_SUBTYPE_ANY (Some label) (world st)).
  { intros E. subst found. unfold resolve_target. fold label.
    destruct (negb (String.eqb label EmptyString)) eqn:Hn; [reflexivity|].
    apply string_eqb_empty in Hn. contradiction. }
  split; [exact Hl1|]. split; [exact Hl2|]. split; [|split].
  - intros i Hi.
    destruct (String.eqb_spec label EmptyString) as [E|E].
    + rewrite (Hl1 E) in Hi. apply esp_partition_find_first_spec in Hi.
      destruct Hi as (p & Hp & Hm). exists p. split; [exact Hp|].
      unfold part_matches in Hm. cbn in Hm. rewrite andb_true_r in Hm.
      apply andb_prop in Hm. destruct Hm as [Ht Hs].
      split; [apply Z.eqb_eq; exact Ht|].
      split; [intros _; apply Z.eqb_eq; exact Hs|contradiction].
    + rewrite (Hl2 E) in Hi. apply esp_partition_find_first_spec in Hi.
      destruct Hi as (p & Hp & Hm). exists p. split; [exact Hp|].
      unfold part_matches in Hm.
      apply andb_prop in Hm. destruct Hm as [Hm Hlab].
      apply andb_prop in Hm. destruct Hm as [Ht _].
      split; [apply Z.eqb_eq; exact Ht|].
      split; [contradiction|intros _; apply String.eqb_eq; exact Hlab].
  - intros Hnone. rewrite (end_buffered_eq fuel st Hmode Hpass).
    fold found. fold b1. rewrite Hnone. unfold bind. rewrite abort_eq. cbn.
    split; [subst b1; rewrite Hnone; reflexivity|].
    subst b1. rewrite Hnone. apply abort_world_flash.
  - intros i r st' Hsome Hend.
    rewrite (end_buffered_eq fuel st Hmode Hpass) in Hend.
    fold found in Hend. rewrite Hsome in Hend.
    match type of Hend with
    | end_commit fuel i ?s = _ =>
        pose proof (end_commit_post fuel i s) as HP; unfold post in HP;
        rewrite Hend in HP
    end.
    destruct HP as (Hab & _).
    apply aborted_props in Hab.
    destruct Hab as (Hbe & _ & _ & _ & _ & evs & Hlog & _ & Hon).
    cbn in *. split; [rewrite Hbe; reflexivity|].
    exists evs. auto.
Qed.

(** ** Failing exits of [end] *)

Arguments after_digest : simpl never.

Lemma esp_ota_end_frame h w :
  w_heap (snd (esp_ota_end h w)) = w_heap w /\
  w_heap_fault (snd (esp_ota_end h w)) = w_heap_fault w /\
  w_table (snd (esp_ota_end h w)) = w_table w /\
  w_boot (snd (esp_ota_end h w)) = w_boot w.
Proof.
  unfold esp_ota_end.
  pose proof (next_result_frame w) as (Hh & Hf & Ho & Ht & Hb).
  destruct (next_result w) as [r w1]. cbn in *.
  destruct (w_ota w1 !! h) as [e|]; cbn; [|auto].
  destruct (oe_wrote_size e =? 0); cbn; auto.
Qed.

Lemma esp_ota_end_released h w : w_ota (snd (esp_ota_end h w)) !! h = None.
Proof.
  unfold esp_ota_end. destruct (next_result w) as [r w1]. cbn.
  destruct (w_ota w1 !! h) as [e|] eqn:E; cbn; [|exact E].
  destruct (oe_wrote_size e =? 0); cbn; apply lookup_delete_eq.
Qed.

Lemma after_digest_fields b :
  psram_buffer_ (after_digest b) = psram_buffer_ b /\
  update_handle_ (after_digest b) = update_handle_ b /\
  buffer_size_ (after_digest b) = buffer_size_ b /\
  bytes_received_ (after_digest b) = bytes_received_ b /\
  partition_ (after_digest b) = partition_ b /\
  use_psram_ (after_digest b) = use_psram_ b.
Proof. unfold after_digest. destruct (md5_set_ b); repeat split. Qed.

Lemma digest_fails b :
  digest_passes b = false ->
  md5_set_ b = true /\
  equals_hex (md5_calculate (md5_ b)) (expected_bin_md5_ b) = false.
Proof.
  unfold digest_passes. destruct (md5_set_ b); cbn; [auto|discriminate].
Qed.

Lemma open_not_stale st :
  open_buffered st \/ open_direct st -> stale_buffer st = false.
Proof.
  unfold stale_buffer.
  intros [(_ & _ & _ & (blk & Hblk & _) & _) | (_ & _ & _ & Hp & _)].
  - rewrite Hblk. rewrite bool_decide_eq_false_2 by discriminate.
    apply andb_false_r.
  - rewrite Hp. reflexivity.
Qed.

(** C3, as the code has it.  When [end] on an open session returns a code
    other than Ok, the object is left with a null buffer pointer, a cleared
    handle and zero bytes-received and buffer-size; the buffer block is no
    longer live and the transaction no longer open on the platform; no
    block was freed that was not live.  On a digest mismatch and on every
    failure in PSRAM mode this is the work of [abort], called before the
    error is returned.  In direct mode, after a passed digest check,
    [abort] is not called: [esp_ota_end] has released the transaction and
    [end] clears the handle itself. *)
Theorem end_failure_releases (fuel : nat) (st st' : St) (r : OTAResponseTypes) :
  open_buffered st \/ open_direct st ->
  end_ fuel st = Return r st' ->
  r <> OTA_RESPONSE_OK ->
  closed (be st') /\
  (psram_buffer_ (be st) = 0 \/
   w_heap (world st') !! psram_buffer_ (be st) = None) /\
  (update_handle_ (be st) = 0 \/
   w_ota (world st') !! update_handle_ (be st) = None) /\
  w_heap_fault (world st') = w_heap_fault (world st) /\
  exists evs,
    log st' = log st ++ evs /\
    (use_psram_ (be st) = true \/ digest_passes (be st) = false ->
     In EvBackendAbort evs) /\
    (use_psram_ (be st) = false -> digest_passes (be st) = true ->
     ~ In EvBackendAbort evs /\
     exists err, In (EvOtaEnd (update_handle_ (be st)) err) evs).
Proof.
  intros Hopen Hend Hr.
  pose proof (open_not_stale st Hopen) as Hstale.
  destruct (digest_passes (be st)) eqn:Hpass.
  - destruct (use_psram_ (be st)) eqn:Hmode.
    + (* PSRAM mode *)
      rewrite (end_buffered_eq fuel st Hmode Hpass) in Hend.
      assert (Hab : aborted 0
                {| be := set_partition (resolve_target (be st) (world st))
                           (after_digest (be st));
                   world := world st; log := log st |} st'
              \/ exists i, aborted i
                {| be := set_partition (resolve_target (be st) (world st))
                           (after_digest (be st));
                   world := world st; log := log st |} st').
      { destruct (resolve_target (be st) (world st)) as [i|].
        - right. exists i.
          match type of Hend with
          | end_commit fuel i ?s = _ =>
              pose proof (end_commit_post fuel i s) as HP; unfold post in HP;
              rewrite Hend in HP
          end.
          apply HP.
        - left. unfold bind in Hend. rewrite abort_eq in Hend. cbn in Hend.
          inversion Hend; subst.
          eexists. split; [apply same_session_refl|]. rewrite abort_eq. reflexivity. }
      assert (Hab' : exists i, aborted i
                {| be := set_partition (resolve_target (be st) (world st))
                           (after_digest (be st));
                   world := world st; log := log st |} st')
        by (destruct Hab as [H|H]; [exists 0%nat; exact H|exact H]).
      destruct Hab' as (i & Hi). apply aborted_props in Hi.
      destruct Hi as (_ & Hc & Hb & Hh & Hf & evs & Hl & Hin & _).
      pose proof (after_digest_fields (be st)) as (Ep & Eh & _).
      cbn in *. rewrite Ep in Hb. rewrite Eh in Hh.
      split; [exact Hc|]. split; [exact Hb|]. split; [exact Hh|]. split.
      * rewrite Hf. unfold stale_buffer in *. cbn. rewrite Ep.
        rewrite Hstale. apply orb_false_r.
      * exists evs. split; [exact Hl|]. split; [auto|discriminate].
    + (* direct mode *)
      destruct Hopen as [(Hm & _)|(_ & Hh0 & Hlive & Hp & Hbs & Hbr)]; [congruence|].
      rewrite (end_direct_eq fuel st Hmode Hpass) in Hend.
      pose proof (after_digest_fields (be st)) as (Ep & Eh & Es & Er & _).
      pose proof (esp_ota_end_frame (update_handle_ (be st)) (world st))
        as (Fh & Ff & _).
      pose proof (esp_ota_end_released (update_handle_ (be st)) (world st)) as Frel.
      pose proof (esp_ota_set_boot_partition_frame (partition_ (be st))
                    (snd (esp_ota_end (update_handle_ (be st)) (world st))))
        as (Gh & Gf & Go & _).
      destruct (fst (esp_ota_end (update_handle_ (be st)) (world st)) =? ESP_OK);
        inversion Hend; subst; cbn.
      * split; [unfold closed; cbn; repeat split; congruence|]. split; [left; exact Hp|].
        split; [right; rewrite Go; exact Frel|]. split; [congruence|].
        eexists. split; [reflexivity|]. split; [intros [H|H]; discriminate|].
        intros _ _. split.
        -- cbn. intros [H|[H|H]]; [discriminate|discriminate|exact H].
        -- eexists. left. reflexivity.
      * split; [unfold closed; cbn; repeat split; congruence|]. split; [left; exact Hp|].
        split; [right; exact Frel|]. split; [congruence|].
        eexists. split; [reflexivity|]. split; [intros [H|H]; discriminate|].
        intros _ _. split.
        -- cbn. intros [H|H]; [discriminate|exact H].
        -- eexists. left. reflexivity.
  - (* digest mismatch *)
    destruct (digest_fails _ Hpass) as (Hset & Hmis).
    pose proof (end_md5_mismatch_eq fuel st Hset Hmis) as E. cbv zeta in E.
    pose proof (abort_be_closed (set_md5 (md5_calculate (md5_ (be st))) (be st)))
      as Hc.
    assert (Hin : In EvBackendAbort
                    (abort_events (set_md5 (md5_calculate (md5_ (be st))) (be st))))
      by (left; reflexivity).
    pose proof (abort_world_released
                  (set_md5 (md5_calculate (md5_ (be st))) (be st)) (world st))
      as (Hb & Hh).
    rewrite E in Hend. inversion Hend; subst; cbn.
    split; [exact Hc|]. split; [exact Hb|]. split; [exact Hh|]. split.
    + pose proof (abort_world_heap_fault
                    {| be := set_md5 (md5_calculate (md5_ (be st))) (be st);
                       world := world st; log := log st |}) as Hf.
      unfold stale_buffer in *. cbn in Hf. rewrite Hstale in Hf.
      rewrite orb_false_r in Hf. exact Hf.
    + eexists. split; [reflexivity|]. split; [intros _; exact Hin|].
      intros _ H. discriminate.
Qed.

(** ** Flash cells *)

Lemma byte_and_xff_l b : byte_and xff b = b.
Proof. destruct b; reflexivity. Qed.

Lemma program_cells_erased data :
  program_cells (replicate (length data) xff) data = data.
Proof.
  induction data as [|b data IH]; [reflexivity|].
  cbn [program_cells replicate length].
  rewrite byte_and_xff_l, IH. reflexivity.
Qed.

Lemma program_at_erased (pre data tail : list byte) (n : nat) :
  (length data <= n)%nat ->
  program_at (Z.of_nat (length pre)) data (pre ++ replicate n xff ++ tail)
  = (pre ++ data) ++ replicate (n - length data) xff ++ tail.
Proof.
  intros Hle. unfold program_at. rewrite Nat2Z.id.
  rewrite take_app_length.
  rewrite drop_app_length.
  rewrite take_app_le by (rewrite length_replicate; lia).
  rewrite take_replicate. rewrite Nat.min_l by lia.
  rewrite program_cells_erased.
  rewrite drop_app_add. rewrite drop_app_le by (rewrite length_replicate; lia).
  rewrite drop_replicate. rewrite <- app_assoc. reflexivity.
Qed.

Lemma erase_cells_all (d : list byte) :
  erase_cells 0 (Z.of_nat (length d)) d = replicate (length d) xff.
Proof.
  unfold erase_cells. rewrite Z.add_0_l, Nat2Z.id.
  change (Z.to_nat 0) with 0%nat. rewrite take_0, drop_all, app_nil_r.
  reflexivity.
Qed.

Lemma erase_cells_prefix (d : list byte) (len : Z) :
  erase_cells 0 len d = replicate (Z.to_nat len) xff ++ drop (Z.to_nat len) d.
Proof.
  unfold erase_cells. rewrite Z.add_0_l.
  change (Z.to_nat 0) with 0%nat. rewrite take_0. reflexivity.
Qed.

Lemma read_cells_prefix (buf tail : list byte) (off len : Z) :
  0 <= off -> 0 <= len -> off + len <= Z.of_nat (length buf) ->
  read_cells off len (buf ++ tail) = read_cells off len buf.
Proof.
  intros H1 H2 H3. unfold read_cells.
  rewrite drop_app_le by lia.
  rewrite take_app_le by (rewrite length_drop; lia). reflexivity.
Qed.

Lemma take_read_cells (buf : list byte) (off len : Z) :
  0 <= off -> 0 <= len ->
  take (Z.to_nat off) buf ++ read_cells off len buf = take (Z.to_nat (off + len)) buf.
Proof.
  intros H1 H2. unfold read_cells.
  rewrite Z2Nat.inj_add by lia.
  rewrite take_take_drop. reflexivity.
Qed.

Lemma update_part_table i f w p :
  w_table w !! i = Some p ->
  w_table (update_part i f w) !! i = Some (with_data (f (p_data p)) p) /\
  w_script (update_part i f w) = w_script w /\
  w_boot (update_part i f w) = w_boot w.
Proof.
  intros Hp. unfold update_part. rewrite Hp. cbn.
  split; [|auto]. apply list_lookup_insert_eq.
  apply lookup_lt_Some in Hp. exact Hp.
Qed.

Lemma next_result_empty w : w_script w = [] -> next_result w = (ESP_OK, w).
Proof. intros H. unfold next_result. rewrite H. reflexivity. Qed.

(** ** A direct-mode session on a platform that reports no failure *)

Lemma part_matches_type ty sub label p :
  part_matches ty sub label p = true -> p_type p = ty.
Proof.
  unfold part_matches. intros H.
  apply andb_prop in H. destruct H as [H _].
  apply andb_prop in H. destruct H as [H _].
  apply Z.eqb_eq. exact H.
Qed.

Lemma next_update_scan_app subs w start : forall d nir i,
  (forall j, d = Some j ->
     exists p, w_table w !! j = Some p /\ p_type p = ESP_PARTITION_TYPE_APP) ->
  next_update_scan subs w start d nir = Some i ->
  exists p, w_table w !! i = Some p /\ p_type p = ESP_PARTITION_TYPE_APP.
Proof.
  induction subs as [|t rest IH]; intros d nir i Hd H; cbn in H; [auto|].
  destruct (esp_partition_find_first ESP_PARTITION_TYPE_APP t None w) as [k|] eqn:Hk.
  - assert (Hkapp : exists p, w_table w !! k = Some p
                              /\ p_type p = ESP_PARTITION_TYPE_APP).
    { apply esp_partition_find_first_spec in Hk. destruct Hk as (p & Hp & Hm).
      exists p. split; [exact Hp|]. eapply part_matches_type; exact Hm. }
    assert (Hd' : forall j, match d with None => Some k | Some _ => d end = Some j ->
                  exists p, w_table w !! j = Some p
                            /\ p_type p = ESP_PARTITION_TYPE_APP).
    { intros j Hj. destruct d as [d0|]; [apply Hd; exact Hj|].
      inversion Hj; subst. exact Hkapp. }
    destruct (Nat.eqb k start).
    + eapply IH; [exact Hd'|exact H].
    + destruct nir.
      * inversion H; subst. exact Hkapp.
      * eapply IH; [exact Hd'|exact H].
  - eapply IH; [exact Hd|exact H].
Qed.

Lemma esp_ota_get_next_update_partition_app w i :
  esp_ota_get_next_update_partition w = Some i ->
  exists p, w_table w !! i = Some p /\ p_type p = ESP_PARTITION_TYPE_APP.
Proof.
  unfold esp_ota_get_next_update_partition. apply next_update_scan_app.
  intros j Hj. discriminate.
Qed.

Lemma round_up_sector_ge n : n <= round_up_sector n.
Proof.
  unfold round_up_sector, SPI_FLASH_SEC_SIZE.
  pose proof (Z.div_mod (n + 4096 - 1) 4096 ltac:(lia)) as Hdm.
  pose proof (Z.mod_pos_bound (n + 4096 - 1) 4096 ltac:(lia)) as Hb.
  lia.
Qed.

Lemma esp_ota_begin_ok i size w p :
  w_script w = [] ->
  w_table w !! i = Some p ->
  0 < size <= p_size p ->
  exists h w' n tail,
    esp_ota_begin i size w = (ESP_OK, Some h, w') /\
    w_script w' = [] /\
    w_boot w' = w_boot w /\
    w_ota w' !! h = Some {| oe_part := i; oe_wrote_size := 0 |} /\
    w_table w' !! i = Some (with_data (replicate n xff ++ tail) p) /\
    size <= Z.of_nat n.
Proof.
  intros Hs Hp Hsize. unfold esp_ota_begin. rewrite (next_result_empty w Hs).
  cbn. rewrite Hp.
  destruct (Z.ltb_spec (p_size p) size) as [Hlt|_]; [lia|].
  rewrite andb_false_r.
  set (len := if (size =? 0) || (size =? OTA_SIZE_UNKNOWN) then p_size p
              else Z.min (p_size p) (round_up_sector size)).
  assert (Hlen : size <= len <= p_size p).
  { subst len. pose proof (round_up_sector_ge size).
    destruct ((size =? 0) || (size =? OTA_SIZE_UNKNOWN)); lia. }
  pose proof (update_part_table i (erase_cells 0 len) w p Hp) as (Ht & Hsc & Hb).
  rewrite erase_cells_prefix in Ht.
  eexists _, _, (Z.to_nat len), _. split; [reflexivity|]. cbn.
  split; [congruence|]. split; [exact Hb|].
  split; [apply lookup_insert_eq|]. split; [exact Ht|]. lia.
Qed.

Lemma wdt_extend_frame w :
  w_script (wdt_extend w) = w_script w /\
  w_table (wdt_extend w) = w_table w /\
  w_boot (wdt_extend w) = w_boot w.
Proof.
  unfold wdt_extend. destruct (CONFIG_ESP_TASK_WDT_TIMEOUT_S <? 15); repeat split.
Qed.

Lemma wdt_restore_frame w :
  w_script (wdt_restore w) = w_script w /\
  w_table (wdt_restore w) = w_table w /\
  w_boot (wdt_restore w) = w_boot w /\
  w_ota (wdt_restore w) = w_ota w.
Proof.
  unfold wdt_restore. destruct (CONFIG_ESP_TASK_WDT_TIMEOUT_S <? 15); repeat split.
Qed.

Lemma begin_direct_ok size st i p :
  use_psram_ (be st) = false ->
  md5_set_ (be st) = false ->
  w_script (world st) = [] ->
  esp_ota_get_next_update_partition (world st) = Some i ->
  w_table (world st) !! i = Some p ->
  0 < size <= p_size p ->
  exists st1 h n,
    begin size st = Return OTA_RESPONSE_OK st1 /\
    direct_writing i h [] n st1 /\
    size <= Z.of_nat n /\
    md5_ctx (md5_ (be st1)) = [].
Proof.
  intros Hmode Hmd5 Hs Hsome Hp Hsize.
  pose proof (wdt_extend_frame (world st)) as (Es & Et & Eb).
  destruct (esp_ota_get_next_update_partition_app _ _ Hsome) as (p' & Hp' & Happ).
  assert (p' = p) by congruence. subst p'.
  destruct (esp_ota_begin_ok i size (wdt_extend (world st)) p)
    as (h & w' & n & tail & Hbeg & Hs' & Hb' & Hota & Htab & Hn);
    [congruence|congruence|exact Hsize|].
  rewrite (begin_direct_eq size st i Hmode Hsome). rewrite Hbeg. cbn.
  pose proof (wdt_restore_frame w') as (Rs & Rt & Rb & Ro).
  eexists _, h, n. split; [reflexivity|]. split; [|split; [exact Hn|reflexivity]].
  unfold direct_writing; cbn.
  repeat match goal with |- _ /\ _ => split end;
    try assumption; try congruence.
  { rewrite Ro. exact Hota. }
  exists (with_data (replicate n xff ++ tail) p), tail.
  split; [congruence|]. split; [exact Happ|reflexivity].
Qed.

Lemma write_direct_ok i h written n data st :
  direct_writing i h written n st ->
  (length data <= n)%nat ->
  exists st',
    write data st = Return OTA_RESPONSE_OK st' /\
    direct_writing i h (written ++ data) (n - length data) st' /\
    md5_ctx (md5_ (be st')) = md5_ctx (md5_ (be st)) ++ data /\
    w_boot (world st') = w_boot (world st).
Proof.
  intros (Hmode & Hmd5 & Hpart & Hh & Hs & Hota & q & tail & Hq & Happ & Hdata) Hle.
  rewrite (write_direct_eq data st Hmode). rewrite Hh.
  assert (Hw : exists w',
    esp_ota_write h data (world st) = (ESP_OK, w') /\
    w_script w' = [] /\ w_boot w' = w_boot (world st) /\
    w_ota w' !! h = Some {| oe_part := i;
                            oe_wrote_size := Z.of_nat (length (written ++ data)) |} /\
    w_table w' !! i
    = Some (with_data ((written ++ data) ++ replicate (n - length data) xff ++ tail) q)).
  { unfold esp_ota_write. rewrite (next_result_empty _ Hs). rewrite Hota. cbn.
    unfold part_size. rewrite Hq. unfold p_size. rewrite Hdata.
    rewrite !length_app, length_replicate.
    destruct (Z.ltb_spec (Z.of_nat (length written + (n + length tail)))
                (Z.of_nat (length written) + Z.of_nat (length data))) as [Hlt|_];
      [lia|].
    pose proof (update_part_table i (program_at (Z.of_nat (length written)) data)
                  (world st) q Hq) as (Ht & Hsc & Hb).
    rewrite Hdata, program_at_erased in Ht by exact Hle.
    eexists. split; [reflexivity|]. cbn.
    split; [congruence|]. split; [exact Hb|]. split; [|exact Ht].
    rewrite lookup_insert_eq. rewrite Nat2Z.inj_add. reflexivity. }
  destruct Hw as (w' & Hw & Hs' & Hb' & Hota' & Ht').
  rewrite Hw. cbn. eexists. split; [reflexivity|]. cbn.
  split; [|split; [reflexivity|exact Hb']].
  unfold direct_writing; cbn.
  repeat match goal with |- _ /\ _ => split end; try assumption.
  eexists _, tail. split; [exact Ht'|]. split; [exact Happ|reflexivity].
Qed.

Lemma write_all_direct_ok i h chunks : forall written n st,
  direct_writing i h written n st ->
  (length (concat chunks) <= n)%nat ->
  Forall (fun r => r = Some OTA_RESPONSE_OK) (write_responses chunks st) /\
  direct_writing i h (written ++ concat chunks) (n - length (concat chunks))
    (write_all chunks st) /\
  md5_ctx (md5_ (be (write_all chunks st)))
  = md5_ctx (md5_ (be st)) ++ concat chunks /\
  w_boot (world (write_all chunks st)) = w_boot (world st).
Proof.
  induction chunks as [|c rest IH]; intros written n st Hinv Hle.
  - cbn. rewrite !app_nil_r, Nat.sub_0_r. auto.
  - cbn [concat] in *. rewrite length_app in Hle.
    destruct (write_direct_ok i h written n c st Hinv ltac:(lia))
      as (st' & Hw & Hinv' & Hmd & Hb).
    cbn [write_responses write_all]. rewrite Hw. cbn [response final_st].
    destruct (IH (written ++ c) (n - length c)%nat st' Hinv' ltac:(lia))
      as (Hall & Hinv'' & Hmd' & Hb').
    split; [constructor; [reflexivity|exact Hall]|].
    rewrite app_assoc, length_app.
    replace (n - (length c + length (concat rest)))%nat
      with (n - length c - length (concat rest))%nat by lia.
    split; [exact Hinv''|]. split; [|congruence].
    rewrite Hmd', Hmd, app_assoc. reflexivity.
Qed.

Lemma end_direct_ok fuel i h written n st :
  direct_writing i h written n st ->
  (0 < length written)%nat ->
  exists st',
    end_ fuel st = Return OTA_RESPONSE_OK st' /\
    w_boot (world st') = Some i /\
    w_table (world st') = w_table (world st) /\
    closed (set_bytes_received 0 (set_buffer_size 0 (set_psram_buffer 0 (be st')))).
Proof.
  intros (Hmode & Hmd5 & Hpart & Hh & Hs & Hota & q & tail & Hq & Happ & Hdata) Hpos.
  assert (Hpass : digest_passes (be st) = true)
    by (unfold digest_passes; rewrite Hmd5; reflexivity).
  rewrite (end_direct_eq fuel st Hmode Hpass). rewrite Hh, Hpart.
  assert (He : esp_ota_end h (world st)
               = (ESP_OK, set_ota (delete h (w_ota (world st))) (world st))).
  { unfold esp_ota_end. rewrite (next_result_empty _ Hs). rewrite Hota. cbn.
    destruct (Z.eqb_spec (Z.of_nat (length written)) 0); [lia|reflexivity]. }
  rewrite He. cbn.
  assert (Hb : esp_ota_set_boot_partition (Some i)
                 (set_ota (delete h (w_ota (world st))) (world st))
               = (ESP_OK, set_boot (Some i)
                            (set_ota (delete h (w_ota (world st))) (world st)))).
  { unfold esp_ota_set_boot_partition. rewrite next_result_empty by exact Hs.
    cbn. rewrite Hq. rewrite Happ. reflexivity. }
  rewrite Hb. cbn. eexists. split; [reflexivity|]. cbn.
  repeat split.
Qed.

(** ** A PSRAM-mode session on a platform that reports no failure *)

Arguments begin : simpl never.
Arguments write : simpl never.
Arguments end_ : simpl never.

Lemma resolve_target_ext b b' w w' :
  target_partition_label_ b' = target_partition_label_ b ->
  w_table w' = w_table w ->
  resolve_target b' w' = resolve_target b w.
Proof.
  intros Hl Ht. unfold resolve_target, esp_partition_find_first.
  rewrite Hl, Ht. reflexivity.
Qed.

Lemma heap_caps_malloc_ok n w :
  w_script w = [] ->
  0 <= n <= w_psram_free w ->
  exists p w',
    heap_caps_malloc n w = (p, w') /\ p <> 0 /\
    w_heap w' !! p = Some (replicate (Z.to_nat n) x00) /\
    w_script w' = [] /\ w_table w' = w_table w /\ w_boot w' = w_boot w.
Proof.
  intros Hs Hn. unfold heap_caps_malloc. rewrite (next_result_empty _ Hs).
  cbn. destruct (Z.leb_spec n (w_psram_free w)) as [_|Hgt]; [|lia].
  eexists _, _. split; [reflexivity|]. cbn.
  split; [discriminate|]. split; [apply lookup_insert_eq|].
  split; [exact Hs|]. split; reflexivity.
Qed.

Lemma begin_buffered_ok size st i :
  use_psram_ (be st) = true ->
  md5_set_ (be st) = false ->
  w_script (world st) = [] ->
  0 < size <= w_psram_free (world st) ->
  resolve_target (be st) (world st) = Some i ->
  exists st1,
    begin size st = Return OTA_RESPONSE_OK st1 /\
    buffered_writing i size [] st1 /\
    w_table (world st1) = w_table (world st) /\
    w_boot (world st1) = w_boot (world st) /\
    md5_ctx (md5_ (be st1)) = [].
Proof.
  intros Hmode Hmd5 Hs Hsize Hres.
  destruct (heap_caps_malloc_ok size (world st) Hs ltac:(lia))
    as (p & w' & Hm & Hp & Hheap & Hs' & Ht & Hb).
  destruct (begin_buffered_cases size st Hmode) as (_ & _ & _ & Hok).
  rewrite Hm in Hok. cbn in Hok.
  rewrite Hok by (try exact Hp; lia).
  eexists. split; [reflexivity|]. cbn.
  split; [|auto].
  unfold buffered_writing; cbn.
  repeat match goal with |- _ /\ _ => split end; try assumption; try reflexivity.
  - rewrite <- Hres. apply resolve_target_ext; [reflexivity|exact Ht].
  - exists (replicate (Z.to_nat size) x00). split; [exact Hheap|].
    cbn. rewrite length_replicate. lia.
Qed.

Lemma write_buffered_step i size written data st :
  buffered_writing i size written st ->
  size < SIZE_MAX_P1 ->
  Z.of_nat (length written) + Z.of_nat (length data) <= size ->
  exists st',
    write data st = Return OTA_RESPONSE_OK st' /\
    buffered_writing i size (written ++ data) st' /\
    md5_ctx (md5_ (be st')) = md5_ctx (md5_ (be st)) ++ data /\
    w_table (world st') = w_table (world st) /\
    w_boot (world st') = w_boot (world st).
Proof.
  intros (Hmode & Hmd5 & Hbs & Hbr & Hp & Hs & Hres & rest & Hheap & Hlen) Hsz Hfit.
  assert (Hwrap : wrap32 (bytes_received_ (be st) + Z.of_nat (length data))
                  = Z.of_nat (length written) + Z.of_nat (length data)).
  { rewrite Hbr. apply wrap32_small. lia. }
  rewrite write_buffered_ok by (try exact Hmode; rewrite Hwrap; lia).
  rewrite Hwrap.
  rewrite (memcpy_to_heap_live _ _ _ (written ++ rest)) by (try exact Hheap; lia).
  eexists. split; [reflexivity|]. cbn.
  split; [|auto].
  unfold buffered_writing; cbn.
  repeat match goal with |- _ /\ _ => split end; try assumption.
  - rewrite length_app. lia.
  - exists (drop (length data) rest). rewrite Hbr, Nat2Z.id.
    rewrite lookup_insert_eq.
    rewrite take_app_length, drop_app_add.
    rewrite <- app_assoc. split; [reflexivity|].
    rewrite length_app in Hlen.
    rewrite !length_app, length_drop. lia.
Qed.

Lemma write_all_buffered_ok i size chunks : forall written st,
  buffered_writing i size written st ->
  size < SIZE_MAX_P1 ->
  Z.of_nat (length written) + Z.of_nat (length (concat chunks)) <= size ->
  Forall (fun r => r = Some OTA_RESPONSE_OK) (write_responses chunks st) /\
  buffered_writing i size (written ++ concat chunks) (write_all chunks st) /\
  md5_ctx (md5_ (be (write_all chunks st)))
  = md5_ctx (md5_ (be st)) ++ concat chunks /\
  w_table (world (write_all chunks st)) = w_table (world st) /\
  w_boot (world (write_all chunks st)) = w_boot (world st).
Proof.
  induction chunks as [|c rest IH]; intros written st Hinv Hsz Hfit.
  - cbn. rewrite !app_nil_r. auto.
  - cbn [concat] in *. rewrite length_app in Hfit.
    destruct (write_buffered_step i size written c st Hinv Hsz ltac:(lia))
      as (st' & Hw & Hinv' & Hmd & Ht & Hb).
    cbn [write_responses write_all]. rewrite Hw. cbn [response final_st].
    destruct (IH (written ++ c) st' Hinv' Hsz) as (Hall & Hinv'' & Hmd' & Ht' & Hb').
    { rewrite length_app. lia. }
    split; [constructor; [reflexivity|exact Hall]|].
    rewrite app_assoc.
    split; [exact Hinv''|]. split; [|split; congruence].
    rewrite Hmd', Hmd, app_assoc. reflexivity.
Qed.

Lemma range_check_ok i off len w q :
  w_table w !! i = Some q ->
  0 <= off -> 0 <= len -> off + len <= p_size q ->
  range_check i off len w = ESP_OK.
Proof.
  intros Hq H0 H1 H2. unfold range_check, part_size. rewrite Hq.
  destruct (Z.ltb_spec (p_size q) off); [lia|].
  destruct (Z.ltb_spec (p_size q) (off + len)); [lia|reflexivity].
Qed.

Lemma esp_partition_erase_range_ok i off len w q :
  w_script w = [] -> w_table w !! i = Some q ->
  0 <= off -> 0 <= len -> off + len <= p_size q ->
  esp_partition_erase_range i off len w
  = (ESP_OK, update_part i (erase_cells off len) w).
Proof.
  intros Hs Hq H0 H1 H2. unfold esp_partition_erase_range.
  rewrite (next_result_empty _ Hs). cbn.
  rewrite (range_check_ok i off len w q) by assumption. reflexivity.
Qed.

Lemma esp_partition_write_ok i off data w q :
  w_script w = [] -> w_table w !! i = Some q ->
  0 <= off -> off + Z.of_nat (length data) <= p_size q ->
  esp_partition_write i off data w
  = (ESP_OK, update_part i (program_at off data) w).
Proof.
  intros Hs Hq H0 H2. unfold esp_partition_write.
  rewrite (next_result_empty _ Hs). cbn.
  rewrite (range_check_ok i off _ w q) by (try assumption; lia). reflexivity.
Qed.

Lemma esp_partition_read_ok i off len w q :
  w_script w = [] -> w_table w !! i = Some q ->
  0 <= off -> 0 <= len -> off + len <= p_size q ->
  esp_partition_read i off len w = (ESP_OK, read_cells off len (p_data q), w).
Proof.
  intros Hs Hq H0 H1 H2. unfold esp_partition_read.
  rewrite (next_result_empty _ Hs). cbn.
  rewrite (range_check_ok i off len w q) by assumption. cbn.
  rewrite Hq. reflexivity.
Qed.

Lemma esp_ota_set_boot_partition_ok i w q :
  w_script w = [] -> w_table w !! i = Some q ->
  p_type q = ESP_PARTITION_TYPE_APP ->
  esp_ota_set_boot_partition (Some i) w = (ESP_OK, set_boot (Some i) w).
Proof.
  intros Hs Hq Happ. unfold esp_ota_set_boot_partition.
  rewrite (next_result_empty _ Hs). cbn. rewrite Hq, Happ. reflexivity.
Qed.

Lemma read_cells_length (buf : list byte) off len :
  0 <= off -> 0 <= len -> off + len <= Z.of_nat (length buf) ->
  Z.of_nat (length (read_cells off len buf)) = len.
Proof.
  intros H0 H1 H2. unfold read_cells. rewrite length_take, length_drop. lia.
Qed.

Lemma program_at_chunk (buf : list byte) (P : nat) off len :
  0 <= off -> 0 <= len ->
  off + len <= Z.of_nat (length buf) -> (length buf <= P)%nat ->
  program_at off (read_cells off len buf)
    (take (Z.to_nat off) buf ++ replicate (P - Z.to_nat off) xff)
  = take (Z.to_nat (off + len)) buf ++ replicate (P - Z.to_nat (off + len)) xff.
Proof.
  intros H0 H1 H2 HP.
  pose proof (read_cells_length buf off len H0 H1 H2) as Hlen.
  assert (Hpre : off = Z.of_nat (length (take (Z.to_nat off) buf)))
    by (rewrite length_take; lia).
  rewrite Hpre at 1.
  rewrite <- (app_nil_r (replicate (P - Z.to_nat off) xff)).
  rewrite program_at_erased by lia.
  rewrite app_nil_r. rewrite take_read_cells by assumption.
  f_equal. f_equal. lia.
Qed.

Lemma flash_from_psram_ok i p (buf : list byte) (P : nat) : forall fuel off st q,
  Z.of_nat (length buf) + CHUNK_SIZE <= SIZE_MAX_P1 ->
  (length buf <= P)%nat ->
  0 <= off ->
  psram_buffer_ (be st) = p ->
  buffer_size_ (be st) = Z.of_nat (length buf) ->
  w_heap (world st) !! p = Some buf ->
  w_script (world st) = [] ->
  w_table (world st) !! i = Some q ->
  p_data q = take (Z.to_nat (Z.min off (Z.of_nat (length buf)))) buf
               ++ replicate (P - Z.to_nat (Z.min off (Z.of_nat (length buf)))) xff ->
  Z.max 0 (Z.of_nat (length buf) - off) + CHUNK_SIZE <= Z.of_nat fuel * CHUNK_SIZE ->
  exists st' q',
    flash_from_psram fuel i off st = Next tt st' /\
    be st' = be st /\
    w_heap (world st') = w_heap (world st) /\
    w_script (world st') = [] /\
    w_boot (world st') = w_boot (world st) /\
    w_table (world st') !! i = Some q' /\
    p_type q' = p_type q /\
    p_data q' = buf ++ replicate (P - length buf) xff.
Proof.
  unfold CHUNK_SIZE, SIZE_MAX_P1.
  induction fuel as [|fuel IH]; intros off st q Hmax HP Hoff Hp Hbs Hheap Hs Hq Hdata Hfuel;
    [lia|].
  rewrite flash_from_psram_unfold. unfold esp_task_wdt_reset. run. rewrite Hbs.
  destruct (Z.ltb_spec off (Z.of_nat (length buf))) as [Hlt|Hge]; cbn.
  - set (len := Z.min CHUNK_SIZE (Z.of_nat (length buf) - off)).
    assert (Hlen : 0 < len /\ off + len <= Z.of_nat (length buf)
                   /\ off + len = Z.min (off + 4096) (Z.of_nat (length buf)))
      by (subst len; unfold CHUNK_SIZE; lia).
    unfold heap_read. rewrite Hp, Hheap.
    rewrite Z.min_l in Hdata by lia.
    assert (Hpsz : p_size q = Z.of_nat P).
    { unfold p_size. rewrite Hdata, length_app, length_take, length_replicate. lia. }
    rewrite (esp_partition_write_ok i off _ (world st) q)
      by (try assumption; rewrite read_cells_length; lia).
    cbn.
    pose proof (update_part_table i (program_at off (read_cells off len buf))
                  (world st) q Hq) as (Ht & Hsc & Hb).
    rewrite Hdata, program_at_chunk in Ht by lia.
    pose proof (update_part_frame i (program_at off (read_cells off len buf)) (world st))
      as (Fh & _ & _).
    match goal with
    | |- context [flash_from_psram fuel i ?o ?s] =>
        destruct (IH o s (with_data
                    (take (Z.to_nat (off + len)) buf
                       ++ replicate (P - Z.to_nat (off + len)) xff) q))
          as (st' & q' & Hrun & Hbe & Hh' & Hs' & Hb' & Ht' & Hty & Hd')
    end; try assumption.
    + rewrite wrap32_small by (unfold SIZE_MAX_P1, CHUNK_SIZE; lia).
      unfold CHUNK_SIZE. lia.
    + cbn. rewrite Fh. exact Hheap.
    + cbn. congruence.
    + cbn. rewrite wrap32_small by (unfold SIZE_MAX_P1, CHUNK_SIZE; lia).
      unfold CHUNK_SIZE. destruct Hlen as (_ & _ & ->). reflexivity.
    + rewrite wrap32_small by (unfold SIZE_MAX_P1, CHUNK_SIZE; lia).
      unfold CHUNK_SIZE. lia.
    + exists st', q'. split; [exact Hrun|]. cbn in *.
      repeat match goal with |- _ /\ _ => split end; try assumption; congruence.
  - exists st, q. split; [destruct st; reflexivity|].
    rewrite Z.min_r in Hdata by lia. rewrite Nat2Z.id in Hdata.
    rewrite firstn_all in Hdata.
    repeat match goal with |- _ /\ _ => split end; try assumption; reflexivity.
Qed.

Lemma verify_flash_ok i p (buf : list byte) (P : nat) q : forall fuel off st,
  Z.of_nat (length buf) + CHUNK_SIZE <= SIZE_MAX_P1 ->
  (length buf <= P)%nat ->
  0 <= off ->
  psram_buffer_ (be st) = p ->
  buffer_size_ (be st) = Z.of_nat (length buf) ->
  w_heap (world st) !! p = Some buf ->
  w_script (world st) = [] ->
  w_table (world st) !! i = Some q ->
  p_data q = buf ++ replicate (P - length buf) xff ->
  Z.max 0 (Z.of_nat (length buf) - off) + CHUNK_SIZE <= Z.of_nat fuel * CHUNK_SIZE ->
  exists st',
    verify_flash fuel i off st = Next tt st' /\
    be st' = be st /\
    world st' = world st.
Proof.
  unfold CHUNK_SIZE, SIZE_MAX_P1.
  induction fuel as [|fuel IH]; intros off st Hmax HP Hoff Hp Hbs Hheap Hs Hq Hdata Hfuel;
    [lia|].
  rewrite verify_flash_unfold. unfold esp_task_wdt_reset. run. rewrite Hbs.
  destruct (Z.ltb_spec off (Z.of_nat (length buf))) as [Hlt|Hge]; cbn.
  - set (len := Z.min CHUNK_SIZE (Z.of_nat (length buf) - off)).
    assert (Hlen : 0 < len /\ off + len <= Z.of_nat (length buf))
      by (subst len; unfold CHUNK_SIZE; lia).
    assert (Hpsz : p_size q = Z.of_nat P).
    { unfold p_size. rewrite Hdata, length_app, length_replicate. lia. }
    rewrite (esp_partition_read_ok i off len (world st) q) by (try assumption; lia).
    cbn. unfold heap_read. rewrite Hp, Hheap.
    rewrite Hdata, read_cells_prefix by lia.
    rewrite bool_decide_eq_true_2 by reflexivity. cbn.
    match goal with
    | |- context [verify_flash fuel i ?o ?s] =>
        destruct (IH o s) as (st' & Hrun & Hbe & Hw)
    end; try assumption.
    + rewrite wrap32_small by (unfold SIZE_MAX_P1, CHUNK_SIZE; lia).
      unfold CHUNK_SIZE. lia.
    + rewrite wrap32_small by (unfold SIZE_MAX_P1, CHUNK_SIZE; lia).
      unfold CHUNK_SIZE. lia.
    + exists st'. split; [exact Hrun|]. cbn in *. auto.
  - exists st. split; [destruct st; reflexivity|]. auto.
Qed.

Lemma end_buffered_ok fuel i buf st q :
  buffered_writing i (Z.of_nat (length buf)) buf st ->
  Z.of_nat (length buf) + CHUNK_SIZE <= SIZE_MAX_P1 ->
  w_table (world st) !! i = Some q ->
  Z.of_nat (length buf) <= p_size q ->
  Z.of_nat (length buf) + CHUNK_SIZE <= Z.of_nat fuel * CHUNK_SIZE ->
  exists st' q',
    end_ fuel st = Return OTA_RESPONSE_OK st' /\
    closed (be st') /\
    partition_ (be st') = Some i /\
    w_boot (world st') = Some i /\
    w_table (world st') !! i = Some q' /\
    p_data q' = buf ++ replicate (length (p_data q) - length buf) xff /\
    w_heap (world st') !! psram_buffer_ (be st) = None.
Proof.
  intros (Hmode & Hmd5 & Hbs & Hbr & Hp & Hs & Hres & rest & Hheap & Hlen)
    Hmax Hq Hsize Hfuel.
  assert (rest = []) as ->.
  { rewrite length_app in Hlen. destruct rest; [reflexivity|cbn in Hlen; lia]. }
  rewrite app_nil_r in Hheap.
  assert (Hpass : digest_passes (be st) = true)
    by (unfold digest_passes; rewrite Hmd5; reflexivity).
  assert (Happ : p_type q = ESP_PARTITION_TYPE_APP).
  { unfold resolve_target in Hres.
    destruct (negb _); apply esp_partition_find_first_spec in Hres;
      destruct Hres as (q0 & Hq0 & Hm); apply part_matches_type in Hm; congruence. }
  rewrite (end_buffered_eq fuel st Hmode Hpass). rewrite Hres.
  assert (Had : after_digest (be st) = be st)
    by (unfold after_digest; rewrite Hmd5; reflexivity).
  rewrite Had.
  unfold end_commit. run. unfold part_size. rewrite Hq.
  unfold p_size in Hsize.
  rewrite (esp_partition_erase_range_ok i 0 _ (world st) q)
    by (try assumption; unfold p_size; lia).
  cbn.
  pose proof (update_part_table i (erase_cells 0 (p_size q)) (world st) q Hq)
    as (Ht & Hsc & Hb).
  unfold p_size in Ht. rewrite erase_cells_all in Ht.
  pose proof (update_part_frame i (erase_cells 0 (p_size q)) (world st))
    as (Fh & _ & _).
  match goal with
  | |- context [flash_from_psram fuel i 0 ?s] =>
      destruct (flash_from_psram_ok i (psram_buffer_ (be st)) buf
                  (length (p_data q)) fuel 0 s
                  (with_data (replicate (length (p_data q)) xff) q))
        as (st2 & q2 & Hrun & Hbe2 & Hh2 & Hs2 & Hb2 & Ht2 & Hty2 & Hd2)
  end; try assumption; try lia; try reflexivity.
  { cbn. rewrite Fh. exact Hheap. }
  { cbn. congruence. }
  { cbn. rewrite Z.min_l by lia. cbn. rewrite Nat.sub_0_r. reflexivity. }
  rewrite Hrun.
  destruct (verify_flash_ok i (psram_buffer_ (be st)) buf (length (p_data q)) q2
              fuel 0 st2)
    as (st3 & Hrun3 & Hbe3 & Hw3); try assumption; try lia; try congruence.
  { rewrite Hbe2. reflexivity. }
  { rewrite Hbe2. exact Hbs. }
  { rewrite Hh2. cbn. rewrite Fh. exact Hheap. }
  rewrite Hrun3.
  rewrite (esp_ota_set_boot_partition_ok i (world st3) q2)
    by (rewrite ?Hw3; try assumption; cbn in Hty2; congruence).
  cbn. rewrite abort_eq. cbn.
  eexists _, q2. split; [reflexivity|]. cbn.
  split; [apply abort_be_closed|].
  split; [rewrite Hbe3, Hbe2; reflexivity|].
  pose proof (abort_world_flash (be st3) (set_boot (Some i) (world st3))) as (At & Ab).
  split; [rewrite Ab; reflexivity|].
  split; [rewrite At; cbn; rewrite Hw3; exact Ht2|].
  split; [exact Hd2|].
  pose proof (abort_world_released (be st3) (set_boot (Some i) (world st3)))
    as ([Hnull|Hrel] & _).
  - rewrite Hbe3, Hbe2 in Hnull. cbn in Hnull. contradiction.
  - rewrite Hbe3, Hbe2 in Hrel. cbn in Hrel.
    rewrite Hbe3 at 1. rewrite Hbe2. exact Hrel.
Qed.

(** ** Round trip *)

Lemma read_cells_written (written tail : list byte) :
  read_cells 0 (Z.of_nat (length written)) (written ++ tail) = written.
Proof.
  unfold read_cells. change (Z.to_nat 0) with 0%nat. rewrite drop_0, Nat2Z.id.
  apply take_app_length.
Qed.

(** C2. For every image size S > 0 and every way of cutting S bytes into
    chunks: when no expected digest is set and the platform is ready (no
    failure reported, room for S bytes in the target partition and, in
    PSRAM mode, in the pool), [begin S], a [write] per chunk and [end] all
    return Ok, the partition the session targets becomes the boot
    partition, and its first S bytes read back as the concatenation of the
    chunks.  [fuel] bounds the iterations of the loops of [end]: any bound
    above S / 4096 + 1 will do. *)
Theorem session_roundtrip (fuel : nat) (size : Z) (chunks : list (list byte))
    (st : St) :
  0 < size ->
  Z.of_nat (length (concat chunks)) = size ->
  md5_set_ (be st) = false ->
  storage_ready size st ->
  size + CHUNK_SIZE <= Z.of_nat fuel * CHUNK_SIZE ->
  Forall (fun r => r = Some OTA_RESPONSE_OK)
    (fst (run_session fuel size chunks st)) /\
  exists i q,
    session_target st = Some i /\
    w_boot (world (snd (run_session fuel size chunks st))) = Some i /\
    w_table (world (snd (run_session fuel size chunks st))) !! i = Some q /\
    read_cells 0 size (p_data q) = concat chunks.
Proof.
  intros Hpos Hlen Hmd5 (Hs & Hready) Hfuel.
  unfold run_session, session_target. cbn [fst snd].
  destruct (use_psram_ (be st)) eqn:Hmode.
  - (* PSRAM mode *)
    destruct Hready as (Hfree & Hmax & i & p & Hres & Hp & Hsz).
    destruct (begin_buffered_ok size st i Hmode Hmd5 Hs ltac:(lia) Hres)
      as (st1 & Hbeg & Hinv1 & Ht1 & Hb1 & _).
    rewrite Hbeg. cbn [response final_st].
    destruct (write_all_buffered_ok i size chunks [] st1 Hinv1)
      as (Hall & Hinv2 & _ & Ht2 & _).
    { unfold SIZE_MAX_P1, CHUNK_SIZE in *. lia. }
    { cbn. lia. }
    cbn [app] in Hinv2. rewrite <- Hlen in Hinv2.
    destruct (end_buffered_ok fuel i (concat chunks) (write_all chunks st1) p Hinv2)
      as (st3 & q3 & Hend & _ & _ & Hboot & Htab & Hdata & _).
    { rewrite Hlen. exact Hmax. }
    { rewrite Ht2, Ht1. exact Hp. }
    { rewrite Hlen. exact Hsz. }
    { rewrite Hlen. exact Hfuel. }
    rewrite Hend. cbn [response final_st]. split.
    + constructor; [reflexivity|]. apply Forall_app. split; [exact Hall|].
      constructor; [reflexivity|constructor].
    + exists i, q3. split; [exact Hres|]. split; [exact Hboot|].
      split; [exact Htab|]. rewrite Hdata, <- Hlen. apply read_cells_written.
  - (* direct mode *)
    destruct Hready as (i & p & Hnext & Hp & Hsz).
    destruct (begin_direct_ok size st i p Hmode Hmd5 Hs Hnext Hp ltac:(lia))
      as (st1 & h & n & Hbeg & Hinv1 & Hn & _).
    rewrite Hbeg. cbn [response final_st].
    destruct (write_all_direct_ok i h chunks [] n st1 Hinv1 ltac:(lia))
      as (Hall & Hinv2 & _ & _).
    cbn [app] in Hinv2.
    destruct (end_direct_ok fuel i h _ _ _ Hinv2 ltac:(lia))
      as (st3 & Hend & Hboot & Htab & _).
    rewrite Hend. cbn [response final_st]. split.
    + constructor; [reflexivity|]. apply Forall_app. split; [exact Hall|].
      constructor; [reflexivity|constructor].
    + destruct Hinv2 as (_ & _ & _ & _ & _ & _ & q & tail & Hq & _ & Hdata).
      exists i, q. split; [exact Hnext|]. split; [exact Hboot|].
      split; [rewrite Htab; exact Hq|].
      rewrite Hdata, <- Hlen. apply read_cells_written.
Qed.

(** ** Error codes of [begin] and [write] in direct mode *)

Lemma begin_error_response_cases err :
  (err = ESP_ERR_INVALID_SIZE ->
   begin_error_response err = OTA_RESPONSE_ERROR_ESP32_NOT_ENOUGH_SPACE) /\
  (err = ESP_ERR_FLASH_OP_TIMEOUT \/ err = ESP_ERR_FLASH_OP_FAIL ->
   begin_error_response err = OTA_RESPONSE_ERROR_WRITING_FLASH) /\
  (err <> ESP_ERR_INVALID_SIZE -> err <> ESP_ERR_FLASH_OP_TIMEOUT ->
   err <> ESP_ERR_FLASH_OP_FAIL ->
   begin_error_response err = OTA_RESPONSE_ERROR_UNKNOWN) /\
  begin_error_response err <> OTA_RESPONSE_OK.
Proof.
  unfold begin_error_response.
  repeat match goal with |- _ /\ _ => split end.
  - intros ->. reflexivity.
  - intros [-> | ->]; reflexivity.
  - intros H1 H2 H3.
    rewrite (proj2 (Z.eqb_neq _ _) H1), (proj2 (Z.eqb_neq _ _) H2),
      (proj2 (Z.eqb_neq _ _) H3). reflexivity.
  - destruct (err =? ESP_ERR_INVALID_SIZE); [discriminate|].
    destruct ((err =? ESP_ERR_FLASH_OP_TIMEOUT) || (err =? ESP_ERR_FLASH_OP_FAIL));
      discriminate.
Qed.

Lemma update_part_wdt i f w :
  w_wdt_timeout_ms (update_part i f w) = w_wdt_timeout_ms w.
Proof. unfold update_part. destruct (w_table w !! i); reflexivity. Qed.

Lemma esp_ota_begin_wdt i size w :
  w_wdt_timeout_ms (snd (esp_ota_begin i size w)) = w_wdt_timeout_ms w.
Proof.
  unfold esp_ota_begin, next_result.
  destruct (w_script w) as [|r rest]; cbn.
  - destruct (w_table w !! i) as [p|]; cbn; [|reflexivity].
    destruct (negb _ && _); cbn; [reflexivity|apply update_part_wdt].
  - destruct (negb (r =? ESP_OK)); cbn; [reflexivity|].
    destruct (w_table w !! i) as [p|]; cbn; [|reflexivity].
    destruct (negb _ && _); cbn; [reflexivity|].
    rewrite update_part_wdt. reflexivity.
Qed.

Lemma esp_ota_abort_wdt h w :
  w_wdt_timeout_ms (snd (esp_ota_abort h w)) = w_wdt_timeout_ms w.
Proof. unfold esp_ota_abort. destruct (w_ota w !! h); reflexivity. Qed.

Lemma wdt_restore_value w :
  w_wdt_timeout_ms (wdt_restore w)
  = if CONFIG_ESP_TASK_WDT_TIMEOUT_S <? 15
    then CONFIG_ESP_TASK_WDT_TIMEOUT_S * 1000 else w_wdt_timeout_ms w.
Proof.
  unfold wdt_restore. destruct (CONFIG_ESP_TASK_WDT_TIMEOUT_S <? 15); reflexivity.
Qed.

Lemma wdt_extend_value w :
  w_wdt_timeout_ms (wdt_extend w)
  = if CONFIG_ESP_TASK_WDT_TIMEOUT_S <? 15 then 15000 else w_wdt_timeout_ms w.
Proof.
  unfold wdt_extend. destruct (CONFIG_ESP_TASK_WDT_TIMEOUT_S <? 15); reflexivity.
Qed.

(** X1. [begin] in direct mode.  Without an update partition it returns
    the no-update-partition code and calls nothing on the platform.  With
    one, it returns Ok exactly when [esp_ota_begin] succeeds; a size error
    gives the not-enough-space code, a flash timeout or failure the
    flash-write code, anything else the unknown-error code, and after any of
    these the handle is cleared.  Whatever [esp_ota_begin] reports, the
    watchdog timeout is afterwards the configured one when that is below
    15 s (it was raised to 15 s around the call), and untouched
    otherwise. *)
Theorem begin_direct_outcomes (image_size : Z) (st : St) :
  use_psram_ (be st) = false ->
  (esp_ota_get_next_update_partition (world st) = None ->
   begin image_size st
   = Return OTA_RESPONSE_ERROR_NO_UPDATE_PARTITION
       {| be := set_partition None (be st); world := world st; log := log st |}) /\
  (forall i, esp_ota_get_next_update_partition (world st) = Some i ->
     let err := fst (fst (esp_ota_begin i image_size (wdt_extend (world st)))) in
     exists resp st',
       begin image_size st = Return resp st' /\
       (resp = OTA_RESPONSE_OK <-> err = ESP_OK) /\
       (err = ESP_ERR_INVALID_SIZE ->
        resp = OTA_RESPONSE_ERROR_ESP32_NOT_ENOUGH_SPACE) /\
       (err = ESP_ERR_FLASH_OP_TIMEOUT \/ err = ESP_ERR_FLASH_OP_FAIL ->
        resp = OTA_RESPONSE_ERROR_WRITING_FLASH) /\
       (err <> ESP_OK -> err <> ESP_ERR_INVALID_SIZE ->
        err <> ESP_ERR_FLASH_OP_TIMEOUT -> err <> ESP_ERR_FLASH_OP_FAIL ->
        resp = OTA_RESPONSE_ERROR_UNKNOWN) /\
       (err <> ESP_OK -> update_handle_ (be st') = 0) /\
       partition_ (be st') = Some i /\
       w_wdt_timeout_ms (world st')
       = if CONFIG_ESP_TASK_WDT_TIMEOUT_S <? 15
         then CONFIG_ESP_TASK_WDT_TIMEOUT_S * 1000
         else w_wdt_timeout_ms (world st)).
Proof.
  intros Hmode. split.
  - intros Hnone. apply begin_direct_no_partition; assumption.
  - intros i Hsome err.
    rewrite (begin_direct_eq image_size st i Hmode Hsome). fold err.
    pose proof (esp_ota_begin_wdt i image_size (wdt_extend (world st))) as Hw.
    pose proof (begin_error_response_cases err) as (Hsz & Hfl & Hun & Hnok).
    destruct (Z.eqb_spec err ESP_OK) as [E|E].
    + eexists _, _. split; [reflexivity|]. cbn [be world].
      split; [tauto|]. rewrite E.
      split; [discriminate|]. split; [intros [H|H]; discriminate|].
      split; [congruence|]. split; [congruence|].
      split.
      * destruct (snd (fst (esp_ota_begin i image_size (wdt_extend (world st)))));
          reflexivity.
      * rewrite wdt_restore_value, Hw, wdt_extend_value.
        destruct (CONFIG_ESP_TASK_WDT_TIMEOUT_S <? 15); reflexivity.
    + eexists _, _. split; [reflexivity|]. cbn [be world].
      split; [split; [intros H; exfalso; exact (Hnok H)|contradiction]|].
      split; [exact Hsz|]. split; [exact Hfl|].
      split; [intros _; exact Hun|]. split; [reflexivity|].
      split.
      * destruct (snd (fst (esp_ota_begin i image_size (wdt_extend (world st)))));
          reflexivity.
      * rewrite esp_ota_abort_wdt, wdt_restore_value, Hw, wdt_extend_value.
        destruct (CONFIG_ESP_TASK_WDT_TIMEOUT_S <? 15); reflexivity.
Qed.

Lemma write_response_cases err :
  (err = ESP_ERR_OTA_VALIDATE_FAILED ->
   write_response err = OTA_RESPONSE_ERROR_MAGIC) /\
  (err = ESP_ERR_FLASH_OP_TIMEOUT \/ err = ESP_ERR_FLASH_OP_FAIL ->
   write_response err = OTA_RESPONSE_ERROR_WRITING_FLASH) /\
  (err <> ESP_OK -> err <> ESP_ERR_OTA_VALIDATE_FAILED ->
   err <> ESP_ERR_FLASH_OP_TIMEOUT -> err <> ESP_ERR_FLASH_OP_FAIL ->
   write_response err = OTA_RESPONSE_ERROR_UNKNOWN).
Proof.
  unfold write_response. repeat match goal with |- _ /\ _ => split end.
  - intros ->. reflexivity.
  - intros [-> | ->]; reflexivity.
  - intros H0 H1 H2 H3.
    rewrite (proj2 (Z.eqb_neq _ _) H0), (proj2 (Z.eqb_neq _ _) H1),
      (proj2 (Z.eqb_neq _ _) H2), (proj2 (Z.eqb_neq _ _) H3). reflexivity.
Qed.

(** X2. [write] in direct mode returns Ok exactly when [esp_ota_write]
    succeeds; a validation failure gives the magic-mismatch code, a flash
    timeout or failure the flash-write code, anything else the
    unknown-error code.  In every case the only field of the object that
    changes is the digest accumulator, and exactly one platform call is
    logged. *)
Theorem write_direct_outcomes (data : list byte) (st : St) :
  use_psram_ (be st) = false ->
  let err := fst (esp_ota_write (update_handle_ (be st)) data (world st)) in
  exists resp st',
    write data st = Return resp st' /\
    (resp = OTA_RESPONSE_OK <-> err = ESP_OK) /\
    (err = ESP_ERR_OTA_VALIDATE_FAILED -> resp = OTA_RESPONSE_ERROR_MAGIC) /\
    (err = ESP_ERR_FLASH_OP_TIMEOUT \/ err = ESP_ERR_FLASH_OP_FAIL ->
     resp = OTA_RESPONSE_ERROR_WRITING_FLASH) /\
    (err <> ESP_OK -> err <> ESP_ERR_OTA_VALIDATE_FAILED ->
     err <> ESP_ERR_FLASH_OP_TIMEOUT -> err <> ESP_ERR_FLASH_OP_FAIL ->
     resp = OTA_RESPONSE_ERROR_UNKNOWN) /\
    be st' = set_md5 (md5_add data (md5_ (be st))) (be st) /\
    log st' = log st ++ [EvOtaWrite (update_handle_ (be st)) data err].
Proof.
  intros Hmode err. rewrite (write_direct_eq data st Hmode). fold err.
  pose proof (write_response_cases err) as (Hv & Hf & Hu).
  eexists _, _. split; [reflexivity|]. cbn [be log].
  split; [apply write_response_ok|]. auto.
Qed.

(** ** What the methods leave alone *)

Lemma keeps_bind {A B T} (f : St -> T) (m : M A) (k : A -> M B) :
  keeps f m -> (forall a, keeps f (k a)) -> keeps f (bind m k).
Proof.
  intros Hm Hk st. specialize (Hm st). unfold post, bind in *.
  destruct (m st) as [a st1|r st1|]; [|exact Hm|exact I].
  specialize (Hk a st1). unfold post in Hk.
  destruct (k a st1); [congruence|congruence|exact I].
Qed.

Lemma keeps_ret {A T} (f : St -> T) (a : A) : keeps f (ret a).
Proof. intros st. reflexivity. Qed.

Lemma keeps_return {A T} (f : St -> T) r : keeps f (@return_ A r).
Proof. intros st. reflexivity. Qed.

Lemma keeps_this {T} (f : St -> T) : keeps f this.
Proof. intros st. reflexivity. Qed.

Lemma keeps_query {A T} (f : St -> T) (q : World -> A) : keeps f (query q).
Proof. intros st. reflexivity. Qed.

Lemma keeps_diverge {A T} (f : St -> T) : keeps f (fun _ => @Diverge A).
Proof. intros st. exact I. Qed.

Lemma keeps_when {T} (f : St -> T) c m : keeps f m -> keeps f (when_ c m).
Proof. intros Hm. destruct c; [exact Hm|apply keeps_ret]. Qed.

Lemma keeps_emit_be {T} (h : IDFOTABackend -> T) e :
  keeps (fun st => h (be st)) (emit e).
Proof. intros st. reflexivity. Qed.

Lemma keeps_emit_world {T} (g : World -> T) e :
  keeps (fun st => g (world st)) (emit e).
Proof. intros st. reflexivity. Qed.

Lemma keeps_platform_be {A T} (h : IDFOTABackend -> T) (op : World -> A * World) :
  keeps (fun st => h (be st)) (platform op).
Proof.
  intros st. unfold post, platform. destruct (op (world st)). reflexivity.
Qed.

Lemma keeps_platform_world {A T} (g : World -> T) (op : World -> A * World) :
  (forall w, g (snd (op w)) = g w) ->
  keeps (fun st => g (world st)) (platform op).
Proof.
  intros Hop st. unfold post, platform. specialize (Hop (world st)).
  destruct (op (world st)). exact Hop.
Qed.

Lemma keeps_assign_be {T} (h : IDFOTABackend -> T) u :
  (forall b, h (u b) = h b) -> keeps (fun st => h (be st)) (assign u).
Proof. intros Hu st. apply Hu. Qed.

Lemma keeps_assign_world {T} (g : World -> T) u :
  keeps (fun st => g (world st)) (assign u).
Proof. intros st. reflexivity. Qed.

(** Decompose a method along its statements. *)
Ltac keeps_steps :=
  repeat first
    [ apply keeps_ret | apply keeps_return | apply keeps_this
    | apply keeps_query | apply keeps_diverge
    | apply keeps_emit_be | apply keeps_emit_world
    | apply keeps_platform_be | apply keeps_assign_world
    | apply keeps_when
    | apply keeps_bind; [|intros ?]
    | match goal with
      | |- keeps _ (if ?c then _ else _) => destruct c
      | |- keeps _ (match ?x with _ => _ end) => destruct x
      end ].

Lemma abort_keeps_config : keeps (fun st => session_config (be st)) abort.
Proof.
  unfold abort. keeps_steps; apply keeps_assign_be; reflexivity.
Qed.

Lemma flash_from_psram_keeps_config fuel i : forall offset,
  keeps (fun st => session_config (be st)) (flash_from_psram fuel i offset).
Proof.
  induction fuel as [|fuel IH]; intros offset; [apply keeps_diverge|].
  rewrite flash_from_psram_unfold. unfold esp_task_wdt_reset.
  keeps_steps; try apply abort_keeps_config; apply IH.
Qed.

Lemma verify_flash_keeps_config fuel i : forall offset,
  keeps (fun st => session_config (be st)) (verify_flash fuel i offset).
Proof.
  induction fuel as [|fuel IH]; intros offset; [apply keeps_diverge|].
  rewrite verify_flash_unfold. unfold esp_task_wdt_reset.
  keeps_steps; try apply abort_keeps_config; apply IH.
Qed.

Lemma end_commit_keeps_config fuel i :
  keeps (fun st => session_config (be st)) (end_commit fuel i).
Proof.
  unfold end_commit.
  keeps_steps; try apply abort_keeps_config;
    first [apply flash_from_psram_keeps_config | apply verify_flash_keeps_config].
Qed.

Lemma begin_keeps_config size :
  keeps (fun st => session_config (be st)) (begin size).
Proof.
  unfold begin, esp_task_wdt_reconfigure.
  keeps_steps; apply keeps_assign_be; reflexivity.
Qed.

Lemma write_keeps_config data :
  keeps (fun st => session_config (be st)) (write data).
Proof.
  unfold write. keeps_steps; apply keeps_assign_be; reflexivity.
Qed.

Lemma end_keeps_config fuel :
  keeps (fun st => session_config (be st)) (end_ fuel).
Proof.
  unfold end_.
  keeps_steps;
    first [ apply abort_keeps_config | apply end_commit_keeps_config
          | apply flash_from_psram_keeps_config | apply verify_flash_keeps_config
          | apply keeps_assign_be; reflexivity ].
Qed.

Lemma keeps_final_st {A T} (f : St -> T) (m : M A) st :
  keeps f m -> f (final_st (m st) st) = f st.
Proof.
  intros Hm. specialize (Hm st). unfold post in Hm.
  destruct (m st); cbn; [exact Hm|exact Hm|reflexivity].
Qed.

(** X3. No method of a session touches what the caller configured:
    [begin], [write], [end] and [abort] leave the expected digest and its
    enabled flag, the mode and the target label as they were, on every
    exit.  In particular a digest once set stays in force for every later
    session on the same object. *)
Theorem methods_keep_config (fuel : nat) (size : Z) (data : list byte) (st : St) :
  session_config (be (final_st (begin size st) st)) = session_config (be st) /\
  session_config (be (final_st (write data st) st)) = session_config (be st) /\
  session_config (be (final_st (end_ fuel st) st)) = session_config (be st) /\
  session_config (be (final_st (abort st) st)) = session_config (be st).
Proof.
  split; [apply (keeps_final_st (fun st => session_config (be st))),
            begin_keeps_config|].
  split; [apply (keeps_final_st (fun st => session_config (be st))),
            write_keeps_config|].
  split; [apply (keeps_final_st (fun st => session_config (be st))),
            end_keeps_config|].
  apply (keeps_final_st (fun st => session_config (be st))), abort_keeps_config.
Qed.

(** ** The boot target *)

Lemma update_part_boot i f w : w_boot (update_part i f w) = w_boot w.
Proof. unfold update_part. destruct (w_table w !! i); reflexivity. Qed.

Lemma heap_caps_free_boot p w : w_boot (heap_caps_free p w) = w_boot w.
Proof. unfold heap_caps_free. destruct (w_heap w !! p); reflexivity. Qed.

Lemma memcpy_to_heap_boot p off data w :
  w_boot (memcpy_to_heap p off data w) = w_boot w.
Proof.
  unfold memcpy_to_heap. destruct (w_heap w !! p); [|reflexivity].
  destruct (_ <=? _)%nat; reflexivity.
Qed.

Lemma esp_ota_abort_boot h w : w_boot (snd (esp_ota_abort h w)) = w_boot w.
Proof. unfold esp_ota_abort. destruct (w_ota w !! h); reflexivity. Qed.

Lemma esp_ota_begin_boot i size w :
  w_boot (snd (esp_ota_begin i size w)) = w_boot w.
Proof.
  unfold esp_ota_begin.
  pose proof (next_result_frame w) as (_ & _ & _ & _ & Hb).
  destruct (next_result w) as [r w1]. cbn in *.
  destruct (negb (r =? ESP_OK)); cbn; [exact Hb|].
  destruct (w_table w1 !! i) as [p|]; cbn; [|exact Hb].
  destruct (negb _ && _); cbn; [exact Hb|].
  rewrite update_part_boot. exact Hb.
Qed.

Lemma esp_ota_write_boot h data w :
  w_boot (snd (esp_ota_write h data w)) = w_boot w.
Proof.
  unfold esp_ota_write.
  pose proof (next_result_frame w) as (_ & _ & _ & _ & Hb).
  destruct (next_result w) as [r w1]. cbn in *.
  destruct (w_ota w1 !! h) as [e|]; cbn; [|exact Hb].
  destruct (negb (r =? ESP_OK)); cbn; [exact Hb|].
  destruct (_ <? _); cbn; [exact Hb|].
  rewrite update_part_boot. exact Hb.
Qed.

Lemma esp_partition_erase_range_boot i off len w :
  w_boot (snd (esp_partition_erase_range i off len w)) = w_boot w.
Proof.
  unfold esp_partition_erase_range.
  pose proof (next_result_frame w) as (_ & _ & _ & _ & Hb).
  destruct (next_result w) as [r w1]. cbn in *.
  destruct (negb (r =? ESP_OK)); cbn; [exact Hb|].
  destruct (negb (range_check i off len w1 =? ESP_OK)); cbn; [exact Hb|].
  rewrite update_part_boot. exact Hb.
Qed.

Lemma esp_partition_write_boot i off data w :
  w_boot (snd (esp_partition_write i off data w)) = w_boot w.
Proof.
  unfold esp_partition_write.
  pose proof (next_result_frame w) as (_ & _ & _ & _ & Hb).
  destruct (next_result w) as [r w1]. cbn in *.
  destruct (negb (r =? ESP_OK)); cbn; [exact Hb|].
  destruct (negb (range_check i off _ w1 =? ESP_OK)); cbn; [exact Hb|].
  rewrite update_part_boot. exact Hb.
Qed.

(** [esp_ota_set_boot_partition] moves the boot target exactly when it
    succeeds. *)
Lemma esp_ota_set_boot_partition_boot p w :
  (fst (esp_ota_set_boot_partition p w) = ESP_OK ->
   w_boot (snd (esp_ota_set_boot_partition p w)) = p /\ p <> None) /\
  (fst (esp_ota_set_boot_partition p w) <> ESP_OK ->
   w_boot (snd (esp_ota_set_boot_partition p w)) = w_boot w).
Proof.
  unfold esp_ota_set_boot_partition.
  pose proof (next_result_frame w) as (_ & _ & _ & _ & Hb).
  destruct (next_result w) as [r w1]. cbn in *.
  destruct (Z.eqb_spec r ESP_OK) as [->|Hr]; cbn.
  - destruct p as [i|]; cbn; [|split; [discriminate|intros _; exact Hb]].
    destruct (w_table w1 !! i) as [q|]; cbn;
      [|split; [discriminate|intros _; exact Hb]].
    destruct (p_type q =? ESP_PARTITION_TYPE_APP); cbn.
    + split; [intros _; split; [reflexivity|discriminate]|].
      intros H. exfalso. apply H. reflexivity.
    + split; [discriminate|intros _; exact Hb].
  - split; [intros H; contradiction|intros _; exact Hb].
Qed.

Ltac boot_frames :=
  first
    [ apply keeps_platform_world; intros ?;
      first [ apply heap_caps_free_boot | apply memcpy_to_heap_boot
            | apply esp_ota_abort_boot | apply esp_ota_write_boot
            | apply esp_partition_erase_range_boot
            | apply esp_partition_write_boot
            | apply heap_caps_malloc_flash
            | reflexivity ]
    | idtac ].

Lemma abort_keeps_boot : keeps (fun st => w_boot (world st)) abort.
Proof. unfold abort. keeps_steps; boot_frames. Qed.

Lemma begin_keeps_boot size : keeps (fun st => w_boot (world st)) (begin size).
Proof.
  unfold begin, esp_task_wdt_reconfigure. keeps_steps; boot_frames.
  all: apply keeps_platform_world; intros w.
  all: pose proof (esp_ota_begin_boot n size w) as Hb.
  all: destruct (esp_ota_begin n size w) as [[e h] w']; exact Hb.
Qed.

Lemma write_keeps_boot data : keeps (fun st => w_boot (world st)) (write data).
Proof. unfold write. keeps_steps; boot_frames. Qed.

Lemma flash_from_psram_boot i fuel : forall offset st,
  post (flash_from_psram fuel i offset) st
    (fun _ st' => w_boot (world st') = w_boot (world st))
    (fun r st' => r = OTA_RESPONSE_ERROR_WRITING_FLASH /\
                  w_boot (world st') = w_boot (world st)).
Proof.
  induction fuel as [|fuel IH]; intros offset st; [exact I|].
  rewrite flash_from_psram_unfold. unfold post, esp_task_wdt_reset. run.
  destruct (offset <? buffer_size_ (be st)); cbn; [|reflexivity].
  match goal with
  | |- context [esp_partition_write i offset ?d (world st)] =>
      pose proof (esp_partition_write_boot i offset d (world st)) as Hb;
      destruct (esp_partition_write i offset d (world st)) as [err w']
  end.
  cbn in *. destruct (err =? ESP_OK); cbn.
  - match goal with
    | |- context [flash_from_psram fuel i ?o ?s] =>
        pose proof (IH o s) as HIH; unfold post in HIH;
        destruct (flash_from_psram fuel i o s) as [a st'|r st'|]
    end; cbn in *.
    + congruence.
    + destruct HIH as [-> HIH]. split; [reflexivity|congruence].
    + exact I.
  - rewrite abort_eq. cbn. split; [reflexivity|].
    rewrite (proj2 (abort_world_flash _ _)). exact Hb.
Qed.

Lemma verify_flash_boot i fuel : forall offset st,
  post (verify_flash fuel i offset) st
    (fun _ st' => w_boot (world st') = w_boot (world st))
    (fun r st' => r = OTA_RESPONSE_ERROR_WRITING_FLASH /\
                  w_boot (world st') = w_boot (world st)).
Proof.
  induction fuel as [|fuel IH]; intros offset st; [exact I|].
  rewrite verify_flash_unfold. unfold post, esp_task_wdt_reset. run.
  destruct (offset <? buffer_size_ (be st)); cbn; [|reflexivity].
  match goal with
  | |- context [esp_partition_read i offset ?n (world st)] =>
      pose proof (esp_partition_read_frame i offset n (world st))
        as (_ & _ & _ & _ & Hb);
      destruct (esp_partition_read i offset n (world st)) as [[err buf] w']
  end.
  cbn in *. destruct (negb (err =? ESP_OK) || _); cbn.
  - rewrite abort_eq. cbn. split; [reflexivity|].
    rewrite (proj2 (abort_world_flash _ _)). exact Hb.
  - match goal with
    | |- context [verify_flash fuel i ?o ?s] =>
        pose proof (IH o s) as HIH; unfold post in HIH;
        destruct (verify_flash fuel i o s) as [a st'|r st'|]
    end; cbn in *.
    + congruence.
    + destruct HIH as [-> HIH]. split; [reflexivity|congruence].
    + exact I.
Qed.

Lemma end_commit_boot fuel i st :
  post (end_commit fuel i) st
    (fun _ _ => False)
    (fun r st' =>
       (r <> OTA_RESPONSE_OK /\ w_boot (world st') = w_boot (world st)) \/
       (r = OTA_RESPONSE_OK /\ w_boot (world st') = Some i)).
Proof.
  unfold post, end_commit. run.
  pose proof (esp_partition_erase_range_boot i 0 (part_size i (world st)) (world st))
    as Hb1.
  destruct (esp_partition_erase_range _ _ _ _) as [err w1]. cbn in *.
  destruct (err =? ESP_OK); cbn.
  2:{ rewrite abort_eq. cbn. left. split; [discriminate|].
      rewrite (proj2 (abort_world_flash _ _)). exact Hb1. }
  match goal with
  | |- context [flash_from_psram fuel i 0 ?s] =>
      pose proof (flash_from_psram_boot i fuel 0 s) as HF; unfold post in HF;
      destruct (flash_from_psram fuel i 0 s) as [a st2|r st2|]
  end; cbn in *;
    [|destruct HF as [-> HF]; left; split; [discriminate|congruence]|exact I].
  pose proof (verify_flash_boot i fuel 0 st2) as HV. unfold post in HV.
  destruct (verify_flash fuel i 0 st2) as [a' st3|r st3|];
    [|destruct HV as [-> HV]; left; split; [discriminate|congruence]|exact I].
  pose proof (esp_ota_set_boot_partition_boot (Some i) (world st3)) as (Hok & Hfail).
  destruct (esp_ota_set_boot_partition _ _) as [e2 w4]. cbn in *.
  destruct (Z.eqb_spec e2 ESP_OK) as [E|E]; cbn; rewrite abort_eq; cbn;
    rewrite (proj2 (abort_world_flash _ _)); cbn.
  - right. split; [reflexivity|]. apply Hok. exact E.
  - left. split; [discriminate|]. rewrite (Hfail E). congruence.
Qed.

(** X4. The boot target moves only when [end] returns Ok.  [begin],
    [write] and [abort] never change it; an [end] that returns any error
    leaves it as it was; and an [end] that returns Ok has set it to the
    partition the session wrote: the one found by the lookup of [end] in
    PSRAM mode, the one [begin] chose in direct mode. *)
Theorem boot_target_moves_only_on_ok (fuel : nat) (size : Z) (data : list byte)
    (st : St) :
  w_boot (world (final_st (begin size st) st)) = w_boot (world st) /\
  w_boot (world (final_st (write data st) st)) = w_boot (world st) /\
  w_boot (world (final_st (abort st) st)) = w_boot (world st) /\
  (forall r st', end_ fuel st = Return r st' ->
     (r <> OTA_RESPONSE_OK -> w_boot (world st') = w_boot (world st)) /\
     (r = OTA_RESPONSE_OK ->
      w_boot (world st')
      = (if use_psram_ (be st) then resolve_target (be st) (world st)
         else partition_ (be st)) /\
      w_boot (world st') <> None)).
Proof.
  split; [apply (keeps_final_st (fun st => w_boot (world st))), begin_keeps_boot|].
  split; [apply (keeps_final_st (fun st => w_boot (world st))), write_keeps_boot|].
  split; [apply (keeps_final_st (fun st => w_boot (world st))), abort_keeps_boot|].
  intros r st' Hend.
  destruct (digest_passes (be st)) eqn:Hpass.
  - destruct (use_psram_ (be st)) eqn:Hmode.
    + rewrite (end_buffered_eq fuel st Hmode Hpass) in Hend.
      destruct (resolve_target (be st) (world st)) as [i|].
      * match type of Hend with
        | end_commit fuel i ?s = _ =>
            pose proof (end_commit_boot fuel i s) as HP; unfold post in HP;
            rewrite Hend in HP
        end.
        cbn in HP. destruct HP as [[Hne Hb]|[-> Hb]].
        -- split; [intros _; exact Hb|contradiction].
        -- split; [intros H; contradiction|].
           intros _. rewrite Hb. split; [reflexivity|discriminate].
      * unfold bind in Hend. rewrite abort_eq in Hend. cbn in Hend.
        inversion Hend; subst; cbn.
        split; [intros _; apply abort_world_flash|discriminate].
    + rewrite (end_direct_eq fuel st Hmode Hpass) in Hend.
      pose proof (esp_ota_end_frame (update_handle_ (be st)) (world st))
        as (_ & _ & _ & Hb1).
      pose proof (esp_ota_set_boot_partition_boot (partition_ (be st))
                    (snd (esp_ota_end (update_handle_ (be st)) (world st))))
        as (Hok & Hfail).
      destruct (fst (esp_ota_end (update_handle_ (be st)) (world st)) =? ESP_OK).
      * destruct (Z.eqb_spec
                    (fst (esp_ota_set_boot_partition (partition_ (be st))
                            (snd (esp_ota_end (update_handle_ (be st)) (world st)))))
                    ESP_OK) as [E|E];
          inversion Hend; subst; cbn.
        -- split; [intros H; contradiction|]. intros _.
           destruct (Hok E) as [Hb Hn]. rewrite Hb. auto.
        -- split; [intros _; rewrite (Hfail E); exact Hb1|].
           intros H. exfalso. exact (end_error_response_not_ok _ H).
      * inversion Hend; subst; cbn.
        split; [intros _; exact Hb1|].
        intros H. exfalso. exact (end_error_response_not_ok _ H).
  - destruct (digest_fails _ Hpass) as (Hset & Hmis).
    pose proof (end_md5_mismatch_eq fuel st Hset Hmis) as E. cbv zeta in E.
    rewrite E in Hend. inversion Hend; subst; cbn.
    split; [intros _; apply abort_world_flash|discriminate].
Qed.

(** ** What an Ok from [end] in PSRAM mode guarantees *)

Lemma esp_partition_read_ok_inv i off len w buf w' :
  esp_partition_read i off len w = (ESP_OK, buf, w') ->
  exists q, w_table w !! i = Some q /\ buf = read_cells off len (p_data q) /\
            w_table w' = w_table w /\ w_heap w' = w_heap w.
Proof.
  unfold esp_partition_read.
  pose proof (next_result_frame w) as (Hh & _ & _ & Ht & _).
  destruct (next_result w) as [r w1]. cbn in *.
  destruct (negb (r =? ESP_OK)) eqn:Hr; cbn.
  - intros H. inversion H; subst. rewrite Z.eqb_refl in Hr. discriminate.
  - destruct (Z.eqb_spec (range_check i off len w1) ESP_OK) as [E|E]; cbn.
    + destruct (w_table w1 !! i) as [q|] eqn:Hq; cbn.
      * intros H. inversion H; subst. exists q. rewrite <- Ht. auto.
      * intros H. inversion H.
    + intros H. inversion H; subst. contradiction.
Qed.

Lemma read_cells_split (d : list byte) off a b :
  0 <= off -> 0 <= a -> 0 <= b ->
  read_cells off (a + b) d = read_cells off a d ++ read_cells (off + a) b d.
Proof.
  intros H0 Ha Hb. unfold read_cells.
  rewrite !Z2Nat.inj_add by lia.
  rewrite <- take_take_drop. rewrite drop_drop. reflexivity.
Qed.

Lemma read_cells_all (d : list byte) :
  read_cells 0 (Z.of_nat (length d)) d = d.
Proof.
  unfold read_cells. change (Z.to_nat 0) with 0%nat.
  rewrite drop_0, Nat2Z.id. apply firstn_all.
Qed.

(** When the read-back loop runs to its end, every chunk from [offset] on
    read back as it stands in the buffer. *)
Lemma verify_flash_verified i (blk : list byte) : forall fuel offset st st',
  w_heap (world st) !! psram_buffer_ (be st) = Some blk ->
  buffer_size_ (be st) + CHUNK_SIZE <= SIZE_MAX_P1 ->
  0 <= offset ->
  verify_flash fuel i offset st = Next tt st' ->
  w_table (world st') = w_table (world st) /\
  (offset < buffer_size_ (be st) ->
   exists q, w_table (world st) !! i = Some q /\
             read_cells offset (buffer_size_ (be st) - offset) (p_data q)
             = read_cells offset (buffer_size_ (be st) - offset) blk).
Proof.
  unfold CHUNK_SIZE, SIZE_MAX_P1.
  induction fuel as [|fuel IH]; intros offset st st' Hheap Hmax Hoff Hrun;
    [discriminate|].
  rewrite verify_flash_unfold in Hrun. unfold esp_task_wdt_reset in Hrun.
  revert Hrun. run.
  destruct (Z.ltb_spec offset (buffer_size_ (be st))) as [Hlt|Hge]; cbn.
  2:{ intros H. inversion H; subst. split; [reflexivity|lia]. }
  set (len := Z.min CHUNK_SIZE (buffer_size_ (be st) - offset)).
  pose proof (esp_partition_read_frame i offset len (world st)) as (Hfr & _).
  destruct (esp_partition_read i offset len (world st)) as [[err buf] w'] eqn:Hread.
  cbn in *. unfold heap_read. cbn. rewrite Hfr, Hheap.
  destruct (Z.eqb_spec err ESP_OK) as [->|Herr]; cbn;
    [|rewrite abort_eq; cbn; discriminate].
  destruct (decide (buf = read_cells offset len blk)) as [Hbuf|Hbuf].
  2:{ rewrite bool_decide_eq_false_2 by exact Hbuf. cbn.
      rewrite abort_eq. cbn. discriminate. }
  rewrite bool_decide_eq_true_2 by exact Hbuf. cbn.
  destruct (esp_partition_read_ok_inv _ _ _ _ _ _ Hread) as (q & Hq & Hbq & Ht & Hh).
  rewrite wrap32_small by (unfold SIZE_MAX_P1, CHUNK_SIZE; lia).
  intros Hrun.
  apply IH in Hrun; cbn; try (unfold CHUNK_SIZE; lia).
  2:{ rewrite Hh. exact Hheap. }
  cbn in Hrun. destruct Hrun as (Ht' & Hrest).
  split; [congruence|]. intros _. exists q. split; [exact Hq|].
  assert (Hchunk : read_cells offset len (p_data q) = read_cells offset len blk)
    by congruence.
  destruct (Z.lt_ge_cases (offset + CHUNK_SIZE) (buffer_size_ (be st))) as [Hmore|Hlast].
  - destruct (Hrest Hmore) as (q' & Hq' & Heq).
    rewrite Ht in Hq'. assert (q' = q) by congruence. subst q'.
    assert (Hl : offset + len = offset + CHUNK_SIZE)
      by (subst len; unfold CHUNK_SIZE in *; lia).
    assert (Hsplit : forall d : list byte,
              read_cells offset (buffer_size_ (be st) - offset) d
              = read_cells offset len d
                  ++ read_cells (offset + len)
                       (buffer_size_ (be st) - (offset + len)) d).
    { intros d. rewrite <- read_cells_split by (unfold CHUNK_SIZE in *; lia).
      f_equal. lia. }
    rewrite !Hsplit, Hchunk, Hl. f_equal. exact Heq.
  - assert (Hl : len = buffer_size_ (be st) - offset)
      by (subst len; unfold CHUNK_SIZE in *; lia).
    rewrite <- Hl. exact Hchunk.
Qed.

Lemma esp_ota_set_boot_partition_ok_inv i w :
  fst (esp_ota_set_boot_partition (Some i) w) = ESP_OK ->
  exists q, w_table w !! i = Some q /\ p_type q = ESP_PARTITION_TYPE_APP.
Proof.
  unfold esp_ota_set_boot_partition.
  pose proof (next_result_frame w) as (_ & _ & _ & Ht & _).
  destruct (next_result w) as [r w1]. cbn in *.
  destruct (negb (r =? ESP_OK)) eqn:Hr; cbn.
  - intros H. subst r. rewrite Z.eqb_refl in Hr. discriminate.
  - destruct (w_table w1 !! i) as [q|] eqn:Hq; cbn; [|discriminate].
    destruct (Z.eqb_spec (p_type q) ESP_PARTITION_TYPE_APP) as [E|E]; cbn;
      [|discriminate].
    intros _. exists q. rewrite <- Ht. auto.
Qed.

Lemma end_commit_verified fuel i (blk : list byte) st :
  w_heap (world st) !! psram_buffer_ (be st) = Some blk ->
  Z.of_nat (length blk) = buffer_size_ (be st) ->
  buffer_size_ (be st) + CHUNK_SIZE <= SIZE_MAX_P1 ->
  post (end_commit fuel i) st
    (fun _ _ => False)
    (fun r st' =>
       r = OTA_RESPONSE_OK ->
       exists q, w_table (world st') !! i = Some q /\
                 p_type q = ESP_PARTITION_TYPE_APP /\
                 read_cells 0 (buffer_size_ (be st)) (p_data q) = blk).
Proof.
  intros Hheap Hlen Hmax. unfold post, end_commit. run.
  pose proof (esp_partition_erase_range_frame i 0 (part_size i (world st)) (world st))
    as (Hh1 & _ & _).
  destruct (esp_partition_erase_range _ _ _ _) as [err w1]. cbn in *.
  destruct (err =? ESP_OK); cbn; [|rewrite abort_eq; cbn; discriminate].
  match goal with
  | |- context [flash_from_psram fuel i 0 ?s] =>
      pose proof (flash_from_psram_post i fuel 0 s) as HF; unfold post in HF;
      destruct (flash_from_psram fuel i 0 s) as [a st2|r st2|]
  end; cbn in *; [|destruct HF as [-> _]; discriminate|exact I].
  destruct HF as (Hbe2 & Hh2 & _). cbn in *.
  destruct (verify_flash fuel i 0 st2) as [[] st3|r st3|] eqn:Hver; [| |exact I].
  2:{ pose proof (verify_flash_post i fuel 0 st2) as HV. unfold post in HV.
      rewrite Hver in HV. destruct HV as [-> _]. discriminate. }
  apply (verify_flash_verified i blk) in Hver;
    [|rewrite Hbe2, Hh2, Hh1; exact Hheap|rewrite Hbe2; exact Hmax|lia].
  destruct Hver as (Ht3 & Hrd). rewrite Hbe2 in Hrd.
  pose proof (esp_ota_set_boot_partition_ok_inv i (world st3)) as Hinv.
  pose proof (esp_ota_set_boot_partition_frame (Some i) (world st3))
    as (_ & _ & _ & Ht4).
  destruct (esp_ota_set_boot_partition _ _) as [e2 w4]. cbn in *.
  destruct (Z.eqb_spec e2 ESP_OK) as [E|E]; cbn; rewrite abort_eq; cbn;
    [|discriminate].
  intros _. destruct (Hinv E) as (q & Hq & Happ).
  rewrite (proj1 (abort_world_flash _ _)). cbn. rewrite Ht4.
  exists q. split; [exact Hq|]. split; [exact Happ|].
  destruct (Z.lt_ge_cases 0 (buffer_size_ (be st))) as [Hpos|Hzero].
  - destruct (Hrd Hpos) as (q' & Hq' & Heq).
    rewrite <- Ht3 in Hq'. assert (q' = q) by congruence. subst q'.
    rewrite Z.sub_0_r in Heq. rewrite Heq, <- Hlen. apply read_cells_all.
  - assert (Hz : buffer_size_ (be st) = 0) by lia.
    rewrite Hz in *. destruct blk; [reflexivity|cbn in Hlen; lia].
Qed.

(** X5. An Ok from [end] in PSRAM mode is backed by the read-back, whatever
    the platform reported along the way: if [end] on an open PSRAM-mode
    session returns Ok, the partition its lookup found is an application
    partition whose first [buffer_size_] bytes, in the flash as [end] leaves
    it, equal the contents of the buffer. *)
Theorem end_buffered_ok_is_verified (fuel : nat) (st st' : St) :
  open_buffered st ->
  buffer_size_ (be st) + CHUNK_SIZE <= SIZE_MAX_P1 ->
  end_ fuel st = Return OTA_RESPONSE_OK st' ->
  exists i q blk,
    resolve_target (be st) (world st) = Some i /\
    w_heap (world st) !! psram_buffer_ (be st) = Some blk /\
    w_table (world st') !! i = Some q /\
    p_type q = ESP_PARTITION_TYPE_APP /\
    read_cells 0 (buffer_size_ (be st)) (p_data q) = blk.
Proof.
  intros (Hmode & _ & _ & (blk & Hheap & Hlen) & _) Hmax Hend.
  destruct (digest_passes (be st)) eqn:Hpass.
  - rewrite (end_buffered_eq fuel st Hmode Hpass) in Hend.
    destruct (resolve_target (be st) (world st)) as [i|].
    + pose proof (after_digest_fields (be st)) as (Ep & _ & Es & _).
      match type of Hend with
      | end_commit fuel i ?s = _ =>
          pose proof (end_commit_verified fuel i blk s) as HP
      end.
      cbn in HP. rewrite Ep, Es in HP.
      specialize (HP Hheap Hlen Hmax). unfold post in HP. rewrite Hend in HP.
      destruct (HP eq_refl) as (q & Hq & Happ & Hrd).
      exists i, q, blk. auto.
    + unfold bind in Hend. rewrite abort_eq in Hend. discriminate.
  - destruct (digest_fails _ Hpass) as (Hset & Hmis).
    pose proof (end_md5_mismatch_eq fuel st Hset Hmis) as E. cbv zeta in E.
    rewrite E in Hend. discriminate.
Qed.

(** ** [set_target_partition] *)

Lemma substring_0_length n : forall s : string,
  String.length (substring 0 n s) = Nat.min n (String.length s).
Proof.
  induction n as [|n IH]; intros s; destruct s as [|c s]; cbn; try reflexivity.
  rewrite IH. reflexivity.
Qed.

Lemma substring_0_all n : forall s : string,
  (String.length s <= n)%nat -> substring 0 n s = s.
Proof.
  induction n as [|n IH]; intros s Hle; destruct s as [|c s]; cbn in *;
    try reflexivity; try lia.
  rewrite IH by lia. reflexivity.
Qed.

Lemma string_length_zero (s : string) : String.length s = 0%nat <-> s = EmptyString.
Proof. destruct s; cbn; split; intros H; try reflexivity; discriminate. Qed.

(** X6. [set_target_partition] stores the first 16 characters of a
    non-empty label and ignores a null or empty one, so a label once set
    cannot be cleared again.  It touches nothing else.  After a non-empty
    label was given, the lookup of [end] in PSRAM mode is by the stored
    label (the 16-character prefix of a longer one) among application
    partitions of any subtype, never the default ota_0 lookup. *)
Theorem set_target_partition_effect (label : option string) (st : St) :
  exists b',
    set_target_partition label st
    = Next tt {| be := b'; world := world st; log := log st |} /\
    (label = None \/ label = Some EmptyString -> b' = be st) /\
    (forall l, label = Some l -> l <> EmptyString ->
       b' = set_target_label (substring 0 16 l) (be st) /\
       target_partition_label_ b' <> EmptyString /\
       (String.length (target_partition_label_ b') <= 16)%nat /\
       ((String.length l <= 16)%nat -> target_partition_label_ b' = l) /\
       resolve_target b' (world st)
       = esp_partition_find_first ESP_PARTITION_TYPE_APP
           ESP_PARTITION_SUBTYPE_ANY (Some (substring 0 16 l)) (world st)).
Proof.
  destruct label as [l|].
  - destruct (string_dec l EmptyString) as [->|Hne].
    + exists (be st). split; [destruct st; reflexivity|].
      split; [reflexivity|]. intros l Hl Hne. inversion Hl; subst. contradiction.
    + assert (Hlen : (0 < String.length l)%nat).
      { destruct (String.length l) eqn:E; [|lia].
        apply string_length_zero in E. contradiction. }
      exists (set_target_label (substring 0 16 l) (be st)). split.
      { unfold set_target_partition, when_.
        destruct (Z.ltb_spec 0 (Z.of_nat (String.length l))) as [_|H]; [|lia].
        reflexivity. }
      split; [intros [H|H]; [discriminate|inversion H; contradiction]|].
      intros l' Hl' _. inversion Hl'; subst l'. cbn [target_partition_label_ set_target_label].
      assert (Hsub : substring 0 16 l <> EmptyString).
      { intros E. apply string_length_zero in E.
        rewrite substring_0_length in E. lia. }
      split; [reflexivity|]. split; [exact Hsub|].
      split; [rewrite substring_0_length; lia|].
      split; [apply substring_0_all|].
      unfold resolve_target. cbn [target_partition_label_ set_target_label].
      destruct (negb (String.eqb (substring 0 16 l) EmptyString)) eqn:E;
        [reflexivity|].
      apply string_eqb_empty in E. contradiction.
  - exists (be st). split; [destruct st; reflexivity|].
    split; [reflexivity|]. intros l Hl. discriminate.
Qed.

(** ** What [begin] establishes *)

Lemma heap_caps_malloc_result n w :
  (fst (heap_caps_malloc n w) <> 0 ->
   fst (heap_caps_malloc n w) = Z.pos (w_heap_next (snd (next_result w))) /\
   w_heap (snd (heap_caps_malloc n w))
   = <[fst (heap_caps_malloc n w) := replicate (Z.to_nat n) x00]> (w_heap w) /\
   w_psram_free (snd (heap_caps_malloc n w)) = w_psram_free w - n) /\
  (fst (heap_caps_malloc n w) = 0 ->
   w_heap (snd (heap_caps_malloc n w)) = w_heap w /\
   w_psram_free (snd (heap_caps_malloc n w)) = w_psram_free w) /\
  w_heap_fault (snd (heap_caps_malloc n w)) = w_heap_fault w /\
  w_ota (snd (heap_caps_malloc n w)) = w_ota w.
Proof.
  unfold heap_caps_malloc, next_result.
  destruct (w_script w) as [|r rest]; cbn.
  - destruct (n <=? w_psram_free w); cbn.
    + split; [intros _; repeat split|]. split; [discriminate|]. split; reflexivity.
    + split; [intros H; contradiction|]. repeat split.
  - destruct ((r =? ESP_OK) && (n <=? w_psram_free w)); cbn.
    + split; [intros _; repeat split|]. split; [discriminate|]. split; reflexivity.
    + split; [intros H; contradiction|]. repeat split.
Qed.

Lemma esp_ota_begin_ok_inv i size w :
  fst (fst (esp_ota_begin i size w)) = ESP_OK ->
  exists h, snd (fst (esp_ota_begin i size w)) = Some h /\ h <> 0 /\
            w_ota (snd (esp_ota_begin i size w)) !! h
            = Some {| oe_part := i; oe_wrote_size := 0 |}.
Proof.
  unfold esp_ota_begin. destruct (next_result w) as [r w1]. cbn.
  destruct (Z.eqb_spec r ESP_OK) as [->|Hr]; cbn; [|intros H; contradiction].
  destruct (w_table w1 !! i) as [p|]; cbn; [|discriminate].
  destruct (negb _ && _); cbn; [discriminate|].
  intros _. eexists. split; [reflexivity|]. split; [discriminate|].
  apply lookup_insert_eq.
Qed.

Lemma esp_ota_begin_heap i size w :
  w_heap (snd (esp_ota_begin i size w)) = w_heap w /\
  w_heap_fault (snd (esp_ota_begin i size w)) = w_heap_fault w.
Proof.
  unfold esp_ota_begin.
  pose proof (next_result_frame w) as (Hh & Hf & _).
  destruct (next_result w) as [r w1]. cbn in *.
  destruct (negb (r =? ESP_OK)); cbn; [auto|].
  destruct (w_table w1 !! i) as [p|]; cbn; [|auto].
  destruct (negb _ && _); cbn; [auto|].
  pose proof (update_part_frame i (erase_cells 0
     (if (size =? 0) || (size =? OTA_SIZE_UNKNOWN) then p_size p
      else Z.min (p_size p) (round_up_sector size))) w1) as (Hh' & Hf' & _).
  split; congruence.
Qed.

Lemma esp_ota_abort_heap h w :
  w_heap (snd (esp_ota_abort h w)) = w_heap w.
Proof. unfold esp_ota_abort. destruct (w_ota w !! h); reflexivity. Qed.

Lemma esp_ota_begin_free i size w :
  w_psram_free (snd (esp_ota_begin i size w)) = w_psram_free w.
Proof.
  unfold esp_ota_begin, next_result, update_part.
  destruct (w_script w) as [|r rest]; cbn.
  - destruct (w_table w !! i) as [p|]; cbn; [|reflexivity].
    destruct (negb _ && _); cbn; reflexivity.
  - destruct (negb (r =? ESP_OK)); cbn; [reflexivity|].
    destruct (w_table w !! i) as [p|]; cbn; [|reflexivity].
    destruct (negb _ && _); cbn; reflexivity.
Qed.

Lemma esp_ota_abort_free h w :
  w_psram_free (snd (esp_ota_abort h w)) = w_psram_free w.
Proof. unfold esp_ota_abort. destruct (w_ota w !! h); reflexivity. Qed.

Lemma wdt_free w :
  w_psram_free (wdt_extend w) = w_psram_free w /\
  w_psram_free (wdt_restore w) = w_psram_free w.
Proof.
  unfold wdt_extend, wdt_restore.
  destruct (CONFIG_ESP_TASK_WDT_TIMEOUT_S <? 15); split; reflexivity.
Qed.

Lemma wdt_heap w :
  w_heap (wdt_extend w) = w_heap w /\ w_heap (wdt_restore w) = w_heap w.
Proof.
  unfold wdt_extend, wdt_restore.
  destruct (CONFIG_ESP_TASK_WDT_TIMEOUT_S <? 15); split; reflexivity.
Qed.

(** A successful [begin] on a closed object in PSRAM mode. *)
Lemma begin_buffered_opens size st st' :
  use_psram_ (be st) = true ->
  update_handle_ (be st) = 0 ->
  0 <= size < SIZE_MAX_P1 ->
  begin size st = Return OTA_RESPONSE_OK st' ->
  open_buffered st' /\
  buffer_size_ (be st') = size /\ bytes_received_ (be st') = 0 /\
  md5_ctx (md5_ (be st')) = [] /\
  psram_buffer_ (be st') = Z.pos (w_heap_next (snd (next_result (world st)))) /\
  w_heap (world st')
  = <[psram_buffer_ (be st') := replicate (Z.to_nat size) x00]> (w_heap (world st)) /\
  w_psram_free (world st') = w_psram_free (world st) - size /\
  w_heap_fault (world st') = w_heap_fault (world st).
Proof.
  intros Hmode Hh Hsize Hbeg.
  destruct (begin_buffered_cases size st Hmode) as (H0 & Hlt & Hnull & Hok).
  pose proof (heap_caps_malloc_result size (world st)) as (Hnn & _ & Hf & _).
  destruct (Z.eq_dec (w_psram_free (world st)) 0) as [E0|E0];
    [rewrite (H0 E0) in Hbeg; discriminate|].
  destruct (Z.lt_ge_cases (w_psram_free (world st)) size) as [Hl|Hge];
    [rewrite (Hlt E0 Hl) in Hbeg; discriminate|].
  destruct (Z.eq_dec (fst (heap_caps_malloc size (world st))) 0) as [Ep|Ep];
    [rewrite (Hnull E0 Hge Ep) in Hbeg; discriminate|].
  rewrite (Hok E0 Hge Ep) in Hbeg. inversion Hbeg; subst st'; clear Hbeg.
  destruct (Hnn Ep) as (Haddr & Hheap & Hfree).
  cbn [be world buffer_size_ bytes_received_ md5_ psram_buffer_ set_md5
       set_bytes_received set_buffer_size set_psram_buffer md5_init md5_ctx].
  split; [|auto 10].
  unfold open_buffered; cbn.
  repeat match goal with |- _ /\ _ => split end; try assumption; try lia.
  exists (replicate (Z.to_nat size) x00). split.
  - rewrite Hheap. apply lookup_insert_eq.
  - rewrite length_replicate. lia.
Qed.

(** A successful [begin] in direct mode on an object without a buffer. *)
Lemma begin_direct_opens size st st' :
  use_psram_ (be st) = false ->
  psram_buffer_ (be st) = 0 -> buffer_size_ (be st) = 0 ->
  bytes_received_ (be st) = 0 ->
  begin size st = Return OTA_RESPONSE_OK st' ->
  open_direct st' /\ md5_ctx (md5_ (be st')) = [] /\
  partition_ (be st') = esp_ota_get_next_update_partition (world st).
Proof.
  intros Hmode Hp Hbs Hbr Hbeg.
  destruct (esp_ota_get_next_update_partition (world st)) as [i|] eqn:Hnext;
    [|rewrite (begin_direct_no_partition size st Hmode Hnext) in Hbeg; discriminate].
  rewrite (begin_direct_eq size st i Hmode Hnext) in Hbeg.
  pose proof (begin_error_response_cases
                (fst (fst (esp_ota_begin i size (wdt_extend (world st))))))
    as (_ & _ & _ & Hnok).
  destruct (Z.eqb_spec (fst (fst (esp_ota_begin i size (wdt_extend (world st)))))
              ESP_OK) as [E|E].
  2:{ inversion Hbeg as [[Hr Hst]]. exfalso. exact (Hnok Hr). }
  destruct (esp_ota_begin_ok_inv i size _ E) as (h & Hsome & Hh0 & Hota).
  rewrite Hsome in Hbeg. inversion Hbeg; subst st'; clear Hbeg.
  pose proof (wdt_restore_frame (snd (esp_ota_begin i size (wdt_extend (world st)))))
    as (_ & _ & _ & Ro).
  split; [|split; reflexivity].
  unfold open_direct; cbn.
  repeat match goal with |- _ /\ _ => split end; try assumption.
  rewrite Ro, Hota. eexists. reflexivity.
Qed.

(** X7. A successful [begin] on a closed object opens the session the
    other methods expect.  In PSRAM mode the buffer is a live block of
    exactly the declared size, nothing is received yet; in direct mode a
    transaction is open on the platform under a handle that is not zero,
    on the partition the next-update lookup gave.  In both modes the digest
    accumulator starts empty. *)
Theorem begin_ok_opens_session (size : Z) (st st' : St) :
  closed (be st) ->
  0 <= size < SIZE_MAX_P1 ->
  begin size st = Return OTA_RESPONSE_OK st' ->
  md5_ctx (md5_ (be st')) = [] /\
  if use_psram_ (be st)
  then open_buffered st' /\ buffer_size_ (be st') = size /\
       bytes_received_ (be st') = 0
  else open_direct st' /\
       partition_ (be st') = esp_ota_get_next_update_partition (world st).
Proof.
  intros (Hp & Hh & Hbs & Hbr) Hsize Hbeg.
  destruct (use_psram_ (be st)) eqn:Hmode.
  - destruct (begin_buffered_opens size st st' Hmode Hh Hsize Hbeg)
      as (Ho & Hs & Hr & Hm & _). auto.
  - destruct (begin_direct_opens size st st' Hmode Hp Hbs Hbr Hbeg)
      as (Ho & Hm & Hpart). auto.
Qed.

(** X8. A [begin] that fails on a closed object leaves it closed and keeps
    no resource: no PSRAM block is allocated, the PSRAM heap and the boot
    target are as before, and in PSRAM mode the flash is untouched.  No
    [abort] is needed after a failed [begin]. *)
Theorem begin_failure_keeps_closed (size : Z) (st st' : St) (r : OTAResponseTypes) :
  closed (be st) ->
  begin size st = Return r st' ->
  r <> OTA_RESPONSE_OK ->
  closed (be st') /\
  w_heap (world st') = w_heap (world st) /\
  w_psram_free (world st') = w_psram_free (world st) /\
  w_boot (world st') = w_boot (world st) /\
  (use_psram_ (be st) = true -> w_table (world st') = w_table (world st)).
Proof.
  intros (Hp & Hh & Hbs & Hbr) Hbeg Hr.
  pose proof (keeps_final_st (fun st => w_boot (world st)) (begin size) st
                (begin_keeps_boot size)) as Hboot.
  rewrite Hbeg in Hboot. cbn in Hboot.
  destruct (use_psram_ (be st)) eqn:Hmode.
  - destruct (begin_buffered_cases size st Hmode) as (H0 & Hlt & Hnull & Hok).
    pose proof (heap_caps_malloc_result size (world st)) as (_ & Hn & _).
    pose proof (heap_caps_malloc_flash size (world st)) as (Ht & _).
    destruct (Z.eq_dec (w_psram_free (world st)) 0) as [E0|E0].
    { rewrite (H0 E0) in Hbeg. inversion Hbeg; subst.
      repeat split; auto. }
    destruct (Z.lt_ge_cases (w_psram_free (world st)) size) as [Hl|Hge].
    { rewrite (Hlt E0 Hl) in Hbeg. inversion Hbeg; subst.
      repeat split; auto. }
    destruct (Z.eq_dec (fst (heap_caps_malloc size (world st))) 0) as [Ep|Ep].
    + rewrite (Hnull E0 Hge Ep) in Hbeg. inversion Hbeg; subst; cbn in *.
      destruct (Hn Ep) as (Hheap & Hfree).
      split; [repeat split; assumption|]. auto.
    + rewrite (Hok E0 Hge Ep) in Hbeg. inversion Hbeg; subst. contradiction.
  - destruct (esp_ota_get_next_update_partition (world st)) as [i|] eqn:Hnext.
    + rewrite (begin_direct_eq size st i Hmode Hnext) in Hbeg.
      pose proof (esp_ota_begin_heap i size (wdt_extend (world st))) as (Bh & _).
      pose proof (wdt_heap (world st)) as (We & _).
      pose proof (wdt_heap (snd (esp_ota_begin i size (wdt_extend (world st)))))
        as (_ & Wr).
      destruct (fst (fst (esp_ota_begin i size (wdt_extend (world st)))) =? ESP_OK);
        inversion Hbeg; subst; [contradiction|]. cbn in *.
      split.
      { destruct (snd (fst (esp_ota_begin i size (wdt_extend (world st)))));
          repeat split; assumption. }
      split; [rewrite esp_ota_abort_heap; congruence|].
      split; [|split; [exact Hboot|discriminate]].
      rewrite esp_ota_abort_free.
      rewrite (proj2 (wdt_free _)), esp_ota_begin_free.
      apply (proj1 (wdt_free _)).
    + rewrite (begin_direct_no_partition size st Hmode Hnext) in Hbeg.
      inversion Hbeg; subst; cbn. repeat split; auto; discriminate.
Qed.

(** ** The digest check of [end] *)

Lemma end_error_response_not_mismatch err :
  end_error_response err <> OTA_RESPONSE_ERROR_MD5_MISMATCH.
Proof.
  unfold end_error_response.
  destruct (err =? ESP_ERR_OTA_VALIDATE_FAILED); [discriminate|].
  destruct ((err =? ESP_ERR_FLASH_OP_TIMEOUT) || (err =? ESP_ERR_FLASH_OP_FAIL));
    discriminate.
Qed.

Lemma end_passed_not_mismatch fuel st :
  digest_passes (be st) = true ->
  response (end_ fuel st) <> Some OTA_RESPONSE_ERROR_MD5_MISMATCH.
Proof.
  intros Hpass.
  destruct (use_psram_ (be st)) eqn:Hmode.
  - rewrite (end_buffered_eq fuel st Hmode Hpass).
    destruct (resolve_target (be st) (world st)) as [i|].
    + match goal with
      | |- context [end_commit fuel i ?s] =>
          pose proof (end_commit_post fuel i s) as HP; unfold post in HP;
          destruct (end_commit fuel i s) as [a st2|r st2|]
      end; cbn; try discriminate.
      destruct HP as (_ & [->|[->| ->]]); discriminate.
    + unfold bind, return_. rewrite abort_eq. cbn. discriminate.
  - rewrite (end_direct_eq fuel st Hmode Hpass).
    destruct (_ =? ESP_OK); cbn.
    + destruct (_ =? ESP_OK); cbn; [discriminate|].
      intros H; inversion H as [H']. exact (end_error_response_not_mismatch _ H').
    + intros H; inversion H as [H']. exact (end_error_response_not_mismatch _ H').
Qed.

Lemma end_mismatch_iff fuel st :
  response (end_ fuel st) = Some OTA_RESPONSE_ERROR_MD5_MISMATCH
  <-> digest_passes (be st) = false.
Proof.
  split.
  - intros H. destruct (digest_passes (be st)) eqn:Hpass; [|reflexivity].
    exfalso. exact (end_passed_not_mismatch fuel st Hpass H).
  - intros H. destruct (digest_fails _ H) as (Hset & Hmis).
    rewrite (end_md5_mismatch_eq fuel st Hset Hmis). reflexivity.
Qed.

(** X9. [end] returns the checksum-mismatch code exactly when an expected
    digest is set and the finalized accumulator differs from it: no failure
    of the lookup, of the erase, of a write, of the read-back, of the
    transaction close or of the boot selection is ever reported under that
    code, in either mode and for any number of loop iterations. *)
Theorem end_mismatch_exactly_on_digest (fuel : nat) (st : St) :
  response (end_ fuel st) = Some OTA_RESPONSE_ERROR_MD5_MISMATCH
  <-> (md5_set_ (be st) = true /\
       equals_hex (md5_calculate (md5_ (be st))) (expected_bin_md5_ (be st)) = false).
Proof.
  rewrite end_mismatch_iff. unfold digest_passes.
  destruct (md5_set_ (be st)); cbn.
  - split; [auto|intros [_ H]; exact H].
  - split; [discriminate|intros [H _]; discriminate].
Qed.

(** ** The digest over a session *)

Lemma digest_passes_ctx b bytes :
  md5_ctx (md5_ b) = bytes ->
  digest_passes b = negb (md5_set_ b) || digest_matches bytes (expected_bin_md5_ b).
Proof.
  intros <-. unfold digest_passes, digest_matches, equals_hex, md5_calculate.
  reflexivity.
Qed.

Lemma write_all_keeps_config chunks : forall st,
  session_config (be (write_all chunks st)) = session_config (be st).
Proof.
  induction chunks as [|c rest IH]; intros st; [reflexivity|].
  cbn [write_all]. rewrite IH.
  apply (keeps_final_st (fun st => session_config (be st))), write_keeps_config.
Qed.

Lemma session_config_fields b b' :
  session_config b' = session_config b ->
  md5_set_ b' = md5_set_ b /\ expected_bin_md5_ b' = expected_bin_md5_ b /\
  use_psram_ b' = use_psram_ b /\
  target_partition_label_ b' = target_partition_label_ b.
Proof. unfold session_config. intros H. inversion H. auto. Qed.

Lemma write_all_direct_digest chunks : forall st,
  use_psram_ (be st) = false ->
  md5_ctx (md5_ (be (write_all chunks st))) = md5_ctx (md5_ (be st)) ++ concat chunks.
Proof.
  induction chunks as [|c rest IH]; intros st Hmode.
  - cbn. rewrite app_nil_r. reflexivity.
  - cbn [write_all concat].
    rewrite (write_direct_eq c st Hmode). cbn [final_st].
    rewrite IH by exact Hmode. cbn. rewrite app_assoc. reflexivity.
Qed.

(** X10. In direct mode the digest that [end] checks is the digest of all
    the bytes passed to [write] since [begin], in order, whether or not
    each chunk reached the flash: after a successful [begin] and any
    sequence of [write] calls, whatever they returned, [end] reports a
    mismatch exactly when an expected digest is set and differs from the
    digest of the concatenation of the chunks. *)
Theorem direct_digest_covers_every_write (fuel : nat) (size : Z)
    (chunks : list (list byte)) (st st1 : St) :
  use_psram_ (be st) = false ->
  begin size st = Return OTA_RESPONSE_OK st1 ->
  md5_ctx (md5_ (be (write_all chunks st1))) = concat chunks /\
  (response (end_ fuel (write_all chunks st1))
   = Some OTA_RESPONSE_ERROR_MD5_MISMATCH
   <-> md5_set_ (be st) = true /\
       digest_matches (concat chunks) (expected_bin_md5_ (be st)) = false).
Proof.
  intros Hmode Hbeg.
  pose proof (keeps_final_st (fun st => session_config (be st)) (begin size) st
                (begin_keeps_config size)) as Hc1.
  rewrite Hbeg in Hc1. cbn in Hc1.
  pose proof (write_all_keeps_config chunks st1) as Hc2.
  rewrite Hc1 in Hc2.
  apply session_config_fields in Hc1. destruct Hc1 as (_ & _ & Hm1 & _).
  apply session_config_fields in Hc2. destruct Hc2 as (Hset & Hexp & _ & _).
  assert (Hnil : md5_ctx (md5_ (be st1)) = []).
  { destruct (esp_ota_get_next_update_partition (world st)) as [i|] eqn:Hnext;
      [|rewrite (begin_direct_no_partition size st Hmode Hnext) in Hbeg; discriminate].
    rewrite (begin_direct_eq size st i Hmode Hnext) in Hbeg.
    destruct (_ =? ESP_OK); inversion Hbeg; subst st1.
    - destruct (snd (fst _)); reflexivity.
    - exfalso.
      match goal with H : begin_error_response ?e = _ |- _ =>
        exact (proj2 (proj2 (proj2 (begin_error_response_cases e))) H) end. }
  assert (Hctx : md5_ctx (md5_ (be (write_all chunks st1))) = concat chunks).
  { rewrite write_all_direct_digest by congruence. rewrite Hnil. reflexivity. }
  split; [exact Hctx|].
  rewrite end_mismatch_iff, (digest_passes_ctx _ _ Hctx), Hset, Hexp.
  destruct (md5_set_ (be st)); cbn.
  - split; [auto|intros [_ H]; exact H].
  - split; [discriminate|intros [H _]; discriminate].
Qed.

Lemma write_buffered_tracks data st :
  open_buffered st -> fits_with_buffer st data ->
  digest_tracks_buffer st ->
  digest_tracks_buffer (final_st (write data st) st).
Proof.
  intros Hopen Hfit (blk0 & Hblk0 & Hctx).
  destruct (Z.lt_ge_cases (buffer_size_ (be st))
              (bytes_received_ (be st) + Z.of_nat (length data))) as [Hov|Hok].
  - rewrite write_buffered_overflow_open by assumption. cbn.
    exists blk0. auto.
  - destruct (write_buffered_ok_open data st Hopen Hfit Hok) as (blk & Hblk & Hlen & ->).
    destruct Hopen as (_ & _ & _ & _ & Hr & _).
    assert (blk0 = blk) by congruence. subst blk0.
    unfold digest_tracks_buffer. cbn.
    eexists. split; [apply lookup_insert_eq|].
    rewrite Hctx.
    assert (Hn : Z.to_nat (bytes_received_ (be st) + Z.of_nat (length data))
                 = (length (take (Z.to_nat (bytes_received_ (be st))) blk)
                    + length data)%nat).
    { rewrite length_take. lia. }
    rewrite Hn, app_assoc.
    rewrite <- (length_app (take _ blk) data).
    rewrite take_app_length. reflexivity.
Qed.

Lemma write_all_buffered_tracks chunks : forall st,
  open_buffered st ->
  Forall (fits_with_buffer st) chunks ->
  digest_tracks_buffer st ->
  digest_tracks_buffer (write_all chunks st).
Proof.
  induction chunks as [|c rest IH]; intros st Hopen Hfit Htr; [exact Htr|].
  cbn [write_all].
  inversion Hfit as [|? ? Hc Hrest]; subst.
  destruct (write_buffered_preserves c st Hopen Hc) as [Hopen' Hsz].
  apply IH; [exact Hopen'| |apply write_buffered_tracks; assumption].
  eapply Forall_impl; [exact Hrest|]. unfold fits_with_buffer.
  intros x Hx. rewrite Hsz. exact Hx.
Qed.

(** X11. In PSRAM mode the digest that [end] checks is the digest of the
    bytes received into the buffer: after a successful [begin] on a closed
    object and any sequence of [write] calls, accepted or rejected, the
    accumulator holds the first bytes-received bytes of the buffer block,
    the block still has the size declared to [begin], and [end] reports a
    mismatch exactly when an expected digest is set and differs from the
    digest of that prefix. *)
Theorem buffered_digest_covers_received (fuel : nat) (size : Z)
    (chunks : list (list byte)) (st st1 : St) :
  use_psram_ (be st) = true ->
  closed (be st) ->
  0 <= size < SIZE_MAX_P1 ->
  Forall (fun c => size + Z.of_nat (length c) < SIZE_MAX_P1) chunks ->
  begin size st = Return OTA_RESPONSE_OK st1 ->
  let st2 := write_all chunks st1 in
  exists blk,
    w_heap (world st2) !! psram_buffer_ (be st2) = Some blk /\
    Z.of_nat (length blk) = size /\
    0 <= bytes_received_ (be st2) <= size /\
    md5_ctx (md5_ (be st2)) = take (Z.to_nat (bytes_received_ (be st2))) blk /\
    (response (end_ fuel st2) = Some OTA_RESPONSE_ERROR_MD5_MISMATCH
     <-> md5_set_ (be st) = true /\
         digest_matches (take (Z.to_nat (bytes_received_ (be st2))) blk)
           (expected_bin_md5_ (be st)) = false).
Proof.
  intros Hmode (_ & Hh & _ & _) Hsize Hfit Hbeg st2.
  pose proof (keeps_final_st (fun st => session_config (be st)) (begin size) st
                (begin_keeps_config size)) as Hc1.
  rewrite Hbeg in Hc1. cbn in Hc1.
  pose proof (write_all_keeps_config chunks st1) as Hc2.
  rewrite Hc1 in Hc2.
  apply session_config_fields in Hc2. destruct Hc2 as (Hset & Hexp & _ & _).
  destruct (begin_buffered_opens size st st1 Hmode Hh Hsize Hbeg)
    as (Hopen & Hbs & Hbr & Hmd & _ & Hheap & _).
  assert (Hfit1 : Forall (fits_with_buffer st1) chunks).
  { eapply Forall_impl; [exact Hfit|]. unfold fits_with_buffer.
    intros x Hx. rewrite Hbs. exact Hx. }
  assert (Htr1 : digest_tracks_buffer st1).
  { destruct Hopen as (_ & _ & _ & (blk & Hblk & _) & _).
    exists blk. split; [exact Hblk|]. rewrite Hmd, Hbr. reflexivity. }
  destruct (write_all_buffered_preserves chunks st1 Hopen Hfit1) as [Hopen2 Hbs2].
  destruct (write_all_buffered_tracks chunks st1 Hopen Hfit1 Htr1)
    as (blk & Hblk & Hctx).
  fold st2 in Hopen2, Hbs2, Hblk, Hctx, Hset, Hexp.
  destruct Hopen2 as (_ & _ & _ & (blk' & Hblk' & Hlen) & Hr & _).
  assert (blk' = blk) by congruence. subst blk'.
  exists blk. split; [exact Hblk|].
  split; [congruence|]. split; [lia|]. split; [exact Hctx|].
  rewrite end_mismatch_iff, (digest_passes_ctx _ _ Hctx), Hset, Hexp.
  destruct (md5_set_ (be st)); cbn.
  - split; [auto|intros [_ H]; exact H].
  - split; [discriminate|intros [H _]; discriminate].
Qed.

(** ** Giving the buffer back *)

Lemma write_buffered_frame data st :
  open_buffered st -> fits_with_buffer st data ->
  psram_buffer_ (be (final_st (write data st) st)) = psram_buffer_ (be st) /\
  world_but_block (psram_buffer_ (be st)) (world (final_st (write data st) st))
  = world_but_block (psram_buffer_ (be st)) (world st).
Proof.
  intros Hopen Hfit.
  destruct (Z.lt_ge_cases (buffer_size_ (be st))
              (bytes_received_ (be st) + Z.of_nat (length data))) as [Hov|Hok].
  - rewrite write_buffered_overflow_open by assumption. cbn. auto.
  - destruct (write_buffered_ok_open data st Hopen Hfit Hok) as (blk & Hblk & Hlen & ->).
    cbn. split; [reflexivity|].
    unfold world_but_block; cbn. rewrite delete_insert_eq. reflexivity.
Qed.

Lemma write_all_buffered_frame chunks : forall st,
  open_buffered st ->
  Forall (fits_with_buffer st) chunks ->
  psram_buffer_ (be (write_all chunks st)) = psram_buffer_ (be st) /\
  world_but_block (psram_buffer_ (be st)) (world (write_all chunks st))
  = world_but_block (psram_buffer_ (be st)) (world st).
Proof.
  induction chunks as [|c rest IH]; intros st Hopen Hfit; [auto|].
  cbn [write_all].
  inversion Hfit as [|? ? Hc Hrest]; subst.
  destruct (write_buffered_preserves c st Hopen Hc) as [Hopen' Hsz].
  destruct (write_buffered_frame c st Hopen Hc) as [Hp Hw].
  destruct (IH (final_st (write c st) st) Hopen') as [Hp' Hw'].
  { eapply Forall_impl; [exact Hrest|]. unfold fits_with_buffer.
    intros x Hx. rewrite Hsz. exact Hx. }
  rewrite Hp in Hp', Hw'. split; congruence.
Qed.

Lemma next_result_heap_next w :
  w_heap_next (snd (next_result w)) = w_heap_next w.
Proof. unfold next_result. destruct (w_script w); reflexivity. Qed.

(** X12. A PSRAM-mode session that is given up costs nothing: after a
    successful [begin] on a closed object, any sequence of [write] calls
    (accepted or rejected) and then [abort], the object is closed again,
    the PSRAM heap holds the blocks it held before [begin] and reports the
    same free size, no heap fault was raised, and the partition table, the
    flash contents, the boot target and the open transactions are as
    before.  The precondition on the heap says that the allocator hands
    out an address that is not in use. *)
Theorem buffered_abort_returns_pool (size : Z) (chunks : list (list byte))
    (st st1 : St) :
  use_psram_ (be st) = true ->
  closed (be st) ->
  0 <= size < SIZE_MAX_P1 ->
  Forall (fun c => size + Z.of_nat (length c) < SIZE_MAX_P1) chunks ->
  w_heap (world st) !! Z.pos (w_heap_next (world st)) = None ->
  begin size st = Return OTA_RESPONSE_OK st1 ->
  let st2 := write_all chunks st1 in
  let st3 := final_st (abort st2) st2 in
  closed (be st3) /\
  w_heap (world st3) = w_heap (world st) /\
  w_psram_free (world st3) = w_psram_free (world st) /\
  w_heap_fault (world st3) = w_heap_fault (world st) /\
  w_table (world st3) = w_table (world st) /\
  w_boot (world st3) = w_boot (world st) /\
  w_ota (world st3) = w_ota (world st).
Proof.
  intros Hmode (_ & Hh & _ & _) Hsize Hfit Hfresh Hbeg st2 st3.
  destruct (begin_buffered_opens size st st1 Hmode Hh Hsize Hbeg)
    as (Hopen & Hbs & _ & _ & Haddr & Hheap & Hfree & Hfault).
  rewrite next_result_heap_next in Haddr.
  assert (Hfit1 : Forall (fits_with_buffer st1) chunks).
  { eapply Forall_impl; [exact Hfit|]. unfold fits_with_buffer.
    intros x Hx. rewrite Hbs. exact Hx. }
  destruct (write_all_buffered_preserves chunks st1 Hopen Hfit1) as [Hopen2 Hbs2].
  destruct (write_all_buffered_frame chunks st1 Hopen Hfit1) as [Hp2 Hw2].
  fold st2 in Hopen2, Hbs2, Hp2, Hw2.
  (* what [begin] left of the platform *)
  assert (Hw1 : w_table (world st1) = w_table (world st) /\
                w_boot (world st1) = w_boot (world st) /\
                w_ota (world st1) = w_ota (world st)).
  { destruct (begin_buffered_cases size st Hmode) as (H0 & Hlt & Hnull & Hok).
    pose proof (heap_caps_malloc_result size (world st)) as (_ & _ & _ & Ho).
    pose proof (heap_caps_malloc_flash size (world st)) as (Ht & Hb).
    destruct (Z.eq_dec (w_psram_free (world st)) 0) as [E0|E0];
      [rewrite (H0 E0) in Hbeg; discriminate|].
    destruct (Z.lt_ge_cases (w_psram_free (world st)) size) as [Hl|Hge];
      [rewrite (Hlt E0 Hl) in Hbeg; discriminate|].
    destruct (Z.eq_dec (fst (heap_caps_malloc size (world st))) 0) as [Ep|Ep];
      [rewrite (Hnull E0 Hge Ep) in Hbeg; discriminate|].
    rewrite (Hok E0 Hge Ep) in Hbeg. inversion Hbeg; subst st1. cbn. auto. }
  destruct Hw1 as (Ht1 & Hb1 & Ho1).
  unfold world_but_block in Hw2. inversion Hw2 as [[Hd2 Hf2 Hft2 Ht2 Hbo2 Ho2]].
  destruct Hopen2 as (_ & Hpn & Hh2 & (blk & Hblk & Hlen) & _).
  subst st3. rewrite abort_eq. cbn [final_st be world].
  split; [apply abort_be_closed|].
  unfold abort_world.
  destruct (Z.eqb_spec (psram_buffer_ (be st2)) 0) as [E|_]; [contradiction|].
  rewrite Hh2. cbn [Z.eqb].
  unfold heap_caps_free. rewrite Hblk. cbn.
  rewrite Hp2 in *.
  repeat match goal with |- _ /\ _ => split end; try congruence.
  - rewrite Hd2, Hheap, delete_insert_eq. apply delete_id.
    rewrite Haddr. exact Hfresh.
  - rewrite Hf2, Hfree. lia.
Qed.

(** ** [end] before [begin] *)

(** X13. In PSRAM mode [end] does not require a session: on a closed
    object (no buffer, nothing received), when the digest check lets it
    through and the platform reports no failure, [end] finds the target
    partition, erases the whole of it, writes nothing, selects it for the
    next boot and returns Ok.  The partition that will boot next is then
    blank. *)
Theorem end_before_begin_commits_blank (fuel : nat) (st : St) (i : nat)
    (q : esp_partition_t) :
  use_psram_ (be st) = true ->
  closed (be st) ->
  digest_passes (be st) = true ->
  w_script (world st) = [] ->
  resolve_target (be st) (world st) = Some i ->
  w_table (world st) !! i = Some q ->
  exists st',
    end_ (S fuel) st = Return OTA_RESPONSE_OK st' /\
    closed (be st') /\
    w_boot (world st') = Some i /\
    w_table (world st') !! i
    = Some (with_data (replicate (length (p_data q)) xff) q) /\
    count_events is_part_write (log st') = count_events is_part_write (log st).
Proof.
  intros Hmode (Hp & Hh & Hbs & Hbr) Hpass Hs Hres Hq.
  assert (Happ : p_type q = ESP_PARTITION_TYPE_APP).
  { unfold resolve_target in Hres.
    destruct (negb _); apply esp_partition_find_first_spec in Hres;
      destruct Hres as (q0 & Hq0 & Hm); apply part_matches_type in Hm; congruence. }
  rewrite (end_buffered_eq (S fuel) st Hmode Hpass). rewrite Hres.
  destruct (after_digest_fields (be st)) as (Ap & Ah & Abs & Abr & _ & _).
  unfold end_commit. run. unfold part_size. rewrite Hq.
  rewrite (esp_partition_erase_range_ok i 0 _ (world st) q)
    by (try assumption; unfold p_size; lia).
  cbn.
  pose proof (update_part_table i (erase_cells 0 (p_size q)) (world st) q Hq)
    as (Ht & Hsc & Hb).
  unfold p_size in Ht. rewrite erase_cells_all in Ht.
  rewrite flash_from_psram_unfold. run. rewrite Abs, Hbs. cbn.
  rewrite verify_flash_unfold. run. rewrite Abs, Hbs. cbn.
  rewrite (esp_ota_set_boot_partition_ok i _ _ (ltac:(rewrite Hsc; exact Hs)) Ht)
    by exact Happ.
  cbn. rewrite abort_eq. cbn.
  eexists. split; [reflexivity|]. cbn.
  split; [apply abort_be_closed|].
  unfold abort_world. cbn. rewrite Ap, Ah, Hp, Hh. cbn.
  split; [reflexivity|]. split; [exact Ht|].
  unfold abort_events. cbn. rewrite ?Ap, ?Ah, ?Hp, ?Hh. cbn.
  generalize (log st). intros l. induction l as [|e l IH]; [reflexivity|].
  cbn. rewrite IH. reflexivity.
Qed.

(** ** The partition-switch action *)

Lemma find_first_from_first tbl ty sub label : forall i k,
  find_first_from i tbl ty sub label = Some k ->
  forall j p, (i <= j < k)%nat -> tbl !! (j - i)%nat = Some p ->
              part_matches ty sub label p = false.
Proof.
  induction tbl as [|q rest IH]; intros i k H j p Hj Hp; cbn in H; [discriminate|].
  destruct (part_matches ty sub label q) eqn:Hm.
  - inversion H; subst. lia.
  - destruct (Nat.eq_dec j i) as [->|Hne].
    + rewrite Nat.sub_diag in Hp. cbn in Hp. inversion Hp; subst. exact Hm.
    + apply (IH (S i) k H j p); [lia|].
      replace (j - i)%nat with (S (j - S i)) in Hp by lia. exact Hp.
Qed.

Lemma part_matches_label ty sub l p :
  part_matches ty sub (Some l) p = true -> p_label p = l.
Proof.
  unfold part_matches. intros H.
  apply andb_prop in H. destruct H as [_ H].
  apply String.eqb_eq. exact H.
Qed.

Lemma part_matches_any l p :
  part_matches ESP_PARTITION_TYPE_APP ESP_PARTITION_SUBTYPE_ANY (Some l) p = false ->
  p_type p = ESP_PARTITION_TYPE_APP -> p_label p <> l.
Proof.
  unfold part_matches. intros H Ht Hl. rewrite Ht, Hl in H.
  rewrite String.eqb_refl in H. cbn in H. discriminate.
Qed.

Lemma esp_ota_set_boot_partition_app i q w :
  w_table w !! i = Some q -> p_type q = ESP_PARTITION_TYPE_APP ->
  fst (esp_ota_set_boot_partition (Some i) w) = fst (next_result w).
Proof.
  intros Hq Happ. unfold esp_ota_set_boot_partition.
  pose proof (next_result_frame w) as (_ & _ & _ & Ht & _).
  destruct (next_result w) as [r w1]. cbn in *.
  destruct (Z.eqb_spec r ESP_OK) as [->|Hr]; cbn; [|reflexivity].
  rewrite Ht, Hq, Happ. reflexivity.
Qed.

(** X14. [play] restarts the device exactly when the build is for the
    ESP32, the label is not empty, an application partition carries the
    label (read as a C string) and the platform accepts the boot
    selection; an application partition found by label is never refused
    for its type.  When it restarts, the boot target is the first
    application partition with that label, the restart is the last step
    and follows a delay of 100 ms; when it does not, the boot target is as
    before.  The partition table is never changed. *)
Theorem play_restarts_exactly_when_switched (esp32 : bool) (label : string)
    (w : World) :
  w_table (snd (play esp32 label w)) = w_table w /\
  (restarts (fst (play esp32 label w)) = true
   <-> esp32 = true /\ label <> EmptyString /\
       fst (next_result w) = ESP_OK /\
       exists i, esp_partition_find_first ESP_PARTITION_TYPE_APP
                   ESP_PARTITION_SUBTYPE_ANY (Some (c_str label)) w = Some i) /\
  (restarts (fst (play esp32 label w)) = true ->
   exists i q pre,
     w_boot (snd (play esp32 label w)) = Some i /\
     w_table w !! i = Some q /\
     p_type q = ESP_PARTITION_TYPE_APP /\ p_label q = c_str label /\
     (forall j q', (j < i)%nat -> w_table w !! j = Some q' ->
                   p_type q' = ESP_PARTITION_TYPE_APP ->
                   p_label q' <> c_str label) /\
     fst (play esp32 label w) = pre ++ [PlayDelay 100; PlayRestart]) /\
  (restarts (fst (play esp32 label w)) = false ->
   w_boot (snd (play esp32 label w)) = w_boot w).
Proof.
  unfold play.
  destruct esp32; cbn;
    [|split; [reflexivity|]; split;
      [split; [discriminate|intros (H & _); discriminate]|];
      split; [discriminate|reflexivity]].
  destruct (String.eqb_spec label EmptyString) as [->|Hne]; cbn.
  { split; [reflexivity|]. split.
    - split; [discriminate|]. intros (_ & H & _). contradiction.
    - split; [discriminate|reflexivity]. }
  destruct (esp_partition_find_first _ _ _ w) as [i|] eqn:Hfind; cbn.
  2:{ split; [reflexivity|]. split.
      - split; [discriminate|]. intros (_ & _ & _ & i & Hi). discriminate.
      - split; [discriminate|reflexivity]. }
  pose proof Hfind as Hspec. apply esp_partition_find_first_spec in Hspec.
  destruct Hspec as (q & Hq & Hm).
  pose proof (part_matches_type _ _ _ _ Hm) as Happ.
  pose proof (part_matches_label _ _ _ _ Hm) as Hlab.
  pose proof (esp_ota_set_boot_partition_app i q w Hq Happ) as Hres.
  pose proof (esp_ota_set_boot_partition_boot (Some i) w) as (Hok & Hfail).
  pose proof (esp_ota_set_boot_partition_frame (Some i) w) as (_ & _ & _ & Ht).
  destruct (esp_ota_set_boot_partition (Some i) w) as [err w1]. cbn in *.
  destruct (Z.eqb_spec err ESP_OK) as [E|E]; cbn.
  - split; [exact Ht|]. split.
    + split; [intros _|reflexivity].
      repeat match goal with |- _ /\ _ => split end; try congruence.
      exists i. reflexivity.
    + split; [intros _|discriminate].
      exists i, q, [PlaySetBoot i err; PlayLogI "Rebooting to partition: %s"].
      repeat match goal with |- _ /\ _ => split end; try assumption.
      * apply Hok. exact E.
      * intros j q' Hj Hq' Happ'.
        apply part_matches_any; [|exact Happ'].
        unfold esp_partition_find_first in Hfind.
        apply (find_first_from_first _ _ _ _ 0%nat i Hfind j q'); [lia|].
        rewrite Nat.sub_0_r. exact Hq'.
      * reflexivity.
  - split; [exact Ht|]. split.
    + split; [discriminate|]. intros (_ & _ & H & _). congruence.
    + split; [discriminate|]. intros _. apply Hfail. exact E.
Qed.

(** ** The partition layout *)

Lemma update_part_layout i f w : layout (update_part i f w) = layout w.
Proof.
  unfold update_part, layout.
  destruct (w_table w !! i) as [p|] eqn:Hp; [|reflexivity]. cbn.
  rewrite list_fmap_insert.
  apply list_insert_id. rewrite list_lookup_fmap, Hp. reflexivity.
Qed.

Lemma next_result_layout w : layout (snd (next_result w)) = layout w.
Proof. unfold next_result. destruct (w_script w); reflexivity. Qed.

Lemma heap_caps_free_layout p w : layout (heap_caps_free p w) = layout w.
Proof. unfold heap_caps_free. destruct (w_heap w !! p); reflexivity. Qed.

Lemma memcpy_to_heap_layout p off data w :
  layout (memcpy_to_heap p off data w) = layout w.
Proof.
  unfold memcpy_to_heap. destruct (w_heap w !! p); [|reflexivity].
  destruct (_ <=? _)%nat; reflexivity.
Qed.

Lemma heap_caps_malloc_layout n w : layout (snd (heap_caps_malloc n w)) = layout w.
Proof.
  unfold layout. rewrite (proj1 (heap_caps_malloc_flash n w)). reflexivity.
Qed.

Lemma esp_ota_abort_layout h w : layout (snd (esp_ota_abort h w)) = layout w.
Proof. unfold esp_ota_abort. destruct (w_ota w !! h); reflexivity. Qed.

Lemma esp_ota_begin_layout i size w :
  layout (snd (esp_ota_begin i size w)) = layout w.
Proof.
  unfold esp_ota_begin.
  pose proof (next_result_layout w) as Hl.
  destruct (next_result w) as [r w1]. cbn in *.
  destruct (negb (r =? ESP_OK)); cbn; [exact Hl|].
  destruct (w_table w1 !! i) as [p|]; cbn; [|exact Hl].
  destruct (negb _ && _); cbn; [exact Hl|].
  rewrite <- Hl. apply update_part_layout.
Qed.

Lemma esp_ota_write_layout h data w :
  layout (snd (esp_ota_write h data w)) = layout w.
Proof.
  unfold esp_ota_write.
  pose proof (next_result_layout w) as Hl.
  destruct (next_result w) as [r w1]. cbn in *.
  destruct (w_ota w1 !! h) as [e|]; cbn; [|exact Hl].
  destruct (negb (r =? ESP_OK)); cbn; [exact Hl|].
  destruct (_ <? _); cbn; [exact Hl|].
  rewrite <- Hl. apply update_part_layout.
Qed.

Lemma esp_ota_end_layout h w : layout (snd (esp_ota_end h w)) = layout w.
Proof.
  unfold esp_ota_end.
  pose proof (next_result_layout w) as Hl.
  destruct (next_result w) as [r w1]. cbn in *.
  destruct (w_ota w1 !! h) as [e|]; cbn; [|exact Hl].
  destruct (_ =? 0); exact Hl.
Qed.

Lemma esp_partition_erase_range_layout i off len w :
  layout (snd (esp_partition_erase_range i off len w)) = layout w.
Proof.
  unfold esp_partition_erase_range.
  pose proof (next_result_layout w) as Hl.
  destruct (next_result w) as [r w1]. cbn in *.
  destruct (negb (r =? ESP_OK)); cbn; [exact Hl|].
  destruct (negb (range_check i off len w1 =? ESP_OK)); cbn; [exact Hl|].
  rewrite <- Hl. apply update_part_layout.
Qed.

Lemma esp_partition_write_layout i off data w :
  layout (snd (esp_partition_write i off data w)) = layout w.
Proof.
  unfold esp_partition_write.
  pose proof (next_result_layout w) as Hl.
  destruct (next_result w) as [r w1]. cbn in *.
  destruct (negb (r =? ESP_OK)); cbn; [exact Hl|].
  destruct (negb (range_check i off _ w1 =? ESP_OK)); cbn; [exact Hl|].
  rewrite <- Hl. apply update_part_layout.
Qed.

Lemma esp_partition_read_layout i off len w :
  layout (snd (esp_partition_read i off len w)) = layout w.
Proof.
  pose proof (esp_partition_read_frame i off len w) as H.
  unfold layout. destruct H as (_ & _ & _ & Ht & _). rewrite Ht. reflexivity.
Qed.

Lemma esp_ota_set_boot_partition_layout p w :
  layout (snd (esp_ota_set_boot_partition p w)) = layout w.
Proof.
  unfold layout.
  rewrite (proj2 (proj2 (proj2 (esp_ota_set_boot_partition_frame p w)))).
  reflexivity.
Qed.

Ltac layout_frames :=
  first
    [ apply keeps_platform_world; intros ?;
      first [ apply heap_caps_free_layout | apply memcpy_to_heap_layout
            | apply esp_ota_abort_layout | apply esp_ota_write_layout
            | apply esp_ota_end_layout
            | apply esp_partition_erase_range_layout
            | apply esp_partition_write_layout
            | apply esp_ota_set_boot_partition_layout
            | apply heap_caps_malloc_layout
            | reflexivity ]
    | idtac ].

Lemma abort_keeps_layout : keeps (fun st => layout (world st)) abort.
Proof. unfold abort. keeps_steps; layout_frames. Qed.

Lemma begin_keeps_layout size : keeps (fun st => layout (world st)) (begin size).
Proof.
  unfold begin, esp_task_wdt_reconfigure. keeps_steps; layout_frames.
  all: apply keeps_platform_world; intros w.
  all: pose proof (esp_ota_begin_layout n size w) as Hb.
  all: destruct (esp_ota_begin n size w) as [[e h] w']; exact Hb.
Qed.

Lemma write_keeps_layout data : keeps (fun st => layout (world st)) (write data).
Proof. unfold write. keeps_steps; layout_frames. Qed.

Lemma flash_from_psram_keeps_layout fuel i : forall offset,
  keeps (fun st => layout (world st)) (flash_from_psram fuel i offset).
Proof.
  induction fuel as [|fuel IH]; intros offset; [apply keeps_diverge|].
  rewrite flash_from_psram_unfold. unfold esp_task_wdt_reset.
  keeps_steps; layout_frames; try apply abort_keeps_layout; apply IH.
Qed.

Lemma verify_flash_keeps_layout fuel i : forall offset,
  keeps (fun st => layout (world st)) (verify_flash fuel i offset).
Proof.
  induction fuel as [|fuel IH]; intros offset; [apply keeps_diverge|].
  rewrite verify_flash_unfold. unfold esp_task_wdt_reset.
  keeps_steps; layout_frames; try apply abort_keeps_layout; try apply IH.
  apply keeps_platform_world; intros w.
  pose proof (esp_partition_read_layout i offset
                (Z.min CHUNK_SIZE (buffer_size_ a - offset)) w) as Hb.
  destruct (esp_partition_read _ _ _ w) as [[e h] w']. exact Hb.
Qed.

Lemma end_keeps_layout fuel : keeps (fun st => layout (world st)) (end_ fuel).
Proof.
  unfold end_, end_commit.
  keeps_steps; layout_frames;
    first [ apply abort_keeps_layout
          | apply flash_from_psram_keeps_layout
          | apply verify_flash_keeps_layout ].
Qed.

Lemma find_first_from_layout ty sub label : forall tbl tbl' i,
  map part_entry tbl = map part_entry tbl' ->
  find_first_from i tbl ty sub label = find_first_from i tbl' ty sub label.
Proof.
  induction tbl as [|p rest IH]; intros [|p' rest'] i H; cbn in H;
    try discriminate; [reflexivity|].
  inversion H as [[H1 H2 H3 H4]]. cbn.
  unfold part_matches. rewrite H1, H2, H3.
  rewrite (IH rest' (S i) H4). reflexivity.
Qed.

Lemma esp_partition_find_first_layout ty sub label w w' :
  layout w = layout w' ->
  esp_partition_find_first ty sub label w = esp_partition_find_first ty sub label w'.
Proof. intros H. apply find_first_from_layout. exact H. Qed.

(** X15. A session never changes the partition layout: [begin], [write],
    [end] and [abort] leave the type, subtype and label of every entry of
    the partition table as they were, on every exit, so a lookup by type,
    subtype and label finds the same partition after the call as before
    it. *)
Theorem methods_keep_layout (fuel : nat) (size : Z) (data : list byte) (st : St)
    (ty sub : Z) (label : option string) :
  let stable (st' : St) :=
    layout (world st') = layout (world st) /\
    esp_partition_find_first ty sub label (world st')
    = esp_partition_find_first ty sub label (world st) in
  stable (final_st (begin size st) st) /\
  stable (final_st (write data st) st) /\
  stable (final_st (end_ fuel st) st) /\
  stable (final_st (abort st) st).
Proof.
  intros stable.
  assert (H : forall st', layout (world st') = layout (world st) -> stable st').
  { intros st' Hl. split; [exact Hl|].
    apply esp_partition_find_first_layout. exact Hl. }
  split; [apply H, (keeps_final_st (fun st => layout (world st))),
            begin_keeps_layout|].
  split; [apply H, (keeps_final_st (fun st => layout (world st))),
            write_keeps_layout|].
  split; [apply H, (keeps_final_st (fun st => layout (world st))),
            end_keeps_layout|].
  apply H, (keeps_final_st (fun st => layout (world st))), abort_keeps_layout.
Qed.

(** ** Switching to the partition a session flashed *)

Lemma play_switch_eq label w i :
  label <> EmptyString ->
  esp_partition_find_first ESP_PARTITION_TYPE_APP ESP_PARTITION_SUBTYPE_ANY
    (Some (c_str label)) w = Some i ->
  fst (esp_ota_set_boot_partition (Some i) w) = ESP_OK ->
  play true label w
  = ([PlaySetBoot i ESP_OK; PlayLogI "Rebooting to partition: %s";
      PlayDelay 100; PlayRestart],
     snd (esp_ota_set_boot_partition (Some i) w)).
Proof.
  intros Hne Hfind Hok. unfold play.
  destruct (String.eqb_spec label EmptyString) as [E|_]; [contradiction|].
  rewrite Hfind.
  destruct (esp_ota_set_boot_partition (Some i) w) as [err w1]. cbn in *.
  subst err. reflexivity.
Qed.

(** X16. The action switches to the image a PSRAM-mode session flashed
    under the same label: when [end] returned Ok on an open session whose
    target label is the action's label, and the platform accepts the boot
    selection, [play] restarts the device with the boot target on the
    partition [end] resolved, and the first [buffer_size_] bytes of that
    partition are the contents the buffer had. *)
Theorem play_boots_flashed_image (fuel : nat) (label : string) (st st' : St) :
  open_buffered st ->
  buffer_size_ (be st) + CHUNK_SIZE <= SIZE_MAX_P1 ->
  target_partition_label_ (be st) = c_str label ->
  c_str label <> EmptyString ->
  end_ fuel st = Return OTA_RESPONSE_OK st' ->
  fst (next_result (world st')) = ESP_OK ->
  exists i q blk,
    resolve_target (be st) (world st) = Some i /\
    restarts (fst (play true label (world st'))) = true /\
    w_boot (snd (play true label (world st'))) = Some i /\
    w_table (snd (play true label (world st'))) !! i = Some q /\
    w_heap (world st) !! psram_buffer_ (be st) = Some blk /\
    read_cells 0 (buffer_size_ (be st)) (p_data q) = blk.
Proof.
  intros (Hmode & _ & _ & (blk & Hheap & Hlen) & _) Hmax Hlab Hne Hend Hplat.
  assert (Hlne : label <> EmptyString) by (intros ->; apply Hne; reflexivity).
  pose proof (keeps_final_st (fun st => layout (world st)) (end_ fuel) st
                (end_keeps_layout fuel)) as Hlay.
  rewrite Hend in Hlay. cbn in Hlay.
  assert (Hver : exists i q,
             resolve_target (be st) (world st) = Some i /\
             w_table (world st') !! i = Some q /\
             p_type q = ESP_PARTITION_TYPE_APP /\
             read_cells 0 (buffer_size_ (be st)) (p_data q) = blk).
  { destruct (digest_passes (be st)) eqn:Hpass.
    - rewrite (end_buffered_eq fuel st Hmode Hpass) in Hend.
      destruct (resolve_target (be st) (world st)) as [i|].
      + pose proof (after_digest_fields (be st)) as (Ep & _ & Es & _).
        match type of Hend with
        | end_commit fuel i ?s = _ =>
            pose proof (end_commit_verified fuel i blk s) as HP
        end.
        cbn in HP. rewrite Ep, Es in HP.
        specialize (HP Hheap Hlen Hmax). unfold post in HP. rewrite Hend in HP.
        destruct (HP eq_refl) as (q & Hq & Happ & Hrd).
        exists i, q. auto.
      + unfold bind in Hend. rewrite abort_eq in Hend. discriminate.
    - destruct (digest_fails _ Hpass) as (Hset & Hmis).
      pose proof (end_md5_mismatch_eq fuel st Hset Hmis) as E. cbv zeta in E.
      rewrite E in Hend. discriminate. }
  destruct Hver as (i & q & Hres & Hq & Happ & Hrd).
  assert (Hfind : esp_partition_find_first ESP_PARTITION_TYPE_APP
                    ESP_PARTITION_SUBTYPE_ANY (Some (c_str label)) (world st')
                  = Some i).
  { rewrite (esp_partition_find_first_layout _ _ _ _ _ Hlay).
    unfold resolve_target in Hres. rewrite Hlab in Hres.
    destruct (String.eqb_spec (c_str label) EmptyString) as [E|_];
      [contradiction|exact Hres]. }
  assert (Hok : fst (esp_ota_set_boot_partition (Some i) (world st')) = ESP_OK).
  { rewrite (esp_ota_set_boot_partition_app i q _ Hq Happ). exact Hplat. }
  rewrite (play_switch_eq label (world st') i Hlne Hfind Hok).
  pose proof (esp_ota_set_boot_partition_boot (Some i) (world st')) as (Hb & _).
  pose proof (esp_ota_set_boot_partition_frame (Some i) (world st'))
    as (_ & _ & _ & Ht).
  exists i, q, blk. cbn [fst snd].
  repeat match goal with |- _ /\ _ => split end; try assumption.
  - reflexivity.
  - apply Hb. exact Hok.
  - rewrite Ht. exact Hq.
Qed.

(** ** [begin] on an open session *)

(** X17. [begin] does not release what an earlier [begin] acquired.  In
    PSRAM mode, a successful [begin] on an open session allocates a second
    block and overwrites the buffer pointer: the first block stays live,
    no method can reach it any more, and after [abort] the object is
    closed while the first block is still allocated and the pool is short
    of its bytes.  The precondition on the heap says that the allocator
    hands out an address that is not in use. *)
Theorem begin_on_open_session_leaks_buffer (size : Z) (st st1 : St) :
  open_buffered st ->
  0 <= size < SIZE_MAX_P1 ->
  w_heap (world st) !! Z.pos (w_heap_next (world st)) = None ->
  begin size st = Return OTA_RESPONSE_OK st1 ->
  let st2 := final_st (abort st1) st1 in
  exists blk,
    w_heap (world st) !! psram_buffer_ (be st) = Some blk /\
    Z.of_nat (length blk) = buffer_size_ (be st) /\
    psram_buffer_ (be st1) <> psram_buffer_ (be st) /\
    w_heap (world st1) !! psram_buffer_ (be st) = Some blk /\
    closed (be st2) /\
    w_heap (world st2) !! psram_buffer_ (be st) = Some blk /\
    w_heap (world st2) = w_heap (world st) /\
    w_psram_free (world st2) = w_psram_free (world st).
Proof.
  intros Hopen Hsize Hfresh Hbeg st2.
  pose proof Hopen as (Hmode & Hpn & Hh & (blk & Hblk & Hlen) & _).
  destruct (begin_buffered_opens size st st1 Hmode Hh Hsize Hbeg)
    as (Hopen1 & Hbs & _ & _ & Haddr & Hheap & Hfree & _).
  rewrite next_result_heap_next in Haddr.
  assert (Hne : psram_buffer_ (be st1) <> psram_buffer_ (be st)).
  { intros E. rewrite Haddr in E. rewrite E in Hfresh. congruence. }
  assert (Hold : w_heap (world st1) !! psram_buffer_ (be st) = Some blk).
  { rewrite Hheap, lookup_insert_ne by exact Hne. exact Hblk. }
  destruct Hopen1 as (_ & Hpn1 & Hh1 & (blk1 & Hblk1 & Hlen1) & _).
  assert (Hw2 : w_heap (world st2) = w_heap (world st) /\
                w_psram_free (world st2) = w_psram_free (world st)).
  { subst st2. rewrite abort_eq. cbn [final_st world].
    unfold abort_world.
    destruct (Z.eqb_spec (psram_buffer_ (be st1)) 0) as [E|_]; [contradiction|].
    rewrite Hh1. cbn [Z.eqb].
    unfold heap_caps_free. rewrite Hblk1. cbn.
    split.
    - rewrite Hheap, delete_insert_eq. apply delete_id.
      rewrite Haddr. exact Hfresh.
    - rewrite Hfree. lia. }
  destruct Hw2 as (Hh2 & Hf2).
  exists blk.
  repeat match goal with |- _ /\ _ => split end; try assumption.
  - subst st2. rewrite abort_eq. apply abort_be_closed.
  - rewrite Hh2. exact Hblk.
Qed.

(** ** [end] in direct mode without a session *)

(** X18. In direct mode [end] needs the transaction: on a closed object,
    when the digest check lets it through and no transaction is open under
    the null handle, [end] reports the unknown-error code, and the flash
    contents, the boot target and the PSRAM heap are as before. *)
Theorem end_direct_before_begin_is_refused (fuel : nat) (st : St) :
  use_psram_ (be st) = false ->
  closed (be st) ->
  digest_passes (be st) = true ->
  w_ota (world st) !! 0 = None ->
  exists st',
    end_ fuel st = Return OTA_RESPONSE_ERROR_UNKNOWN st' /\
    closed (be st') /\
    w_table (world st') = w_table (world st) /\
    w_boot (world st') = w_boot (world st) /\
    w_heap (world st') = w_heap (world st) /\
    log st' = log st ++ [EvOtaEnd 0 ESP_ERR_NOT_FOUND].
Proof.
  intros Hmode (Hp & Hh & Hbs & Hbr) Hpass Hota.
  rewrite (end_direct_eq fuel st Hmode Hpass). rewrite Hh.
  pose proof (next_result_frame (world st)) as (Fh & _ & Fo & Ft & Fb).
  assert (E : esp_ota_end 0 (world st)
              = (ESP_ERR_NOT_FOUND, snd (next_result (world st)))).
  { unfold esp_ota_end. destruct (next_result (world st)) as [r w1]. cbn in *.
    rewrite Fo, Hota. reflexivity. }
  rewrite E. cbn.
  eexists. split; [reflexivity|]. cbn.
  destruct (after_digest_fields (be st)) as (Ap & Ah & Abs & Abr & _ & _).
  split; [unfold closed; cbn; rewrite Ap, Abs, Abr; auto|].
  auto.
Qed.

(** ** [end] on a session that received less than declared *)

(** X19. [end] does not compare bytes-received with the declared size.
    On an open PSRAM-mode session that passes the digest check, with a
    platform that reports no failure and a target partition large enough,
    [end] returns Ok however few bytes were received: the whole buffer,
    received or not, is programmed into the erased partition, which becomes
    the boot target, and the buffer is released. *)
Theorem end_commits_whole_buffer (fuel : nat) (st : St) (i : nat)
    (q : esp_partition_t) (blk : list byte) :
  open_buffered st ->
  digest_passes (be st) = true ->
  w_script (world st) = [] ->
  resolve_target (be st) (world st) = Some i ->
  w_table (world st) !! i = Some q ->
  w_heap (world st) !! psram_buffer_ (be st) = Some blk ->
  buffer_size_ (be st) <= p_size q ->
  buffer_size_ (be st) + CHUNK_SIZE <= SIZE_MAX_P1 ->
  buffer_size_ (be st) + CHUNK_SIZE <= Z.of_nat fuel * CHUNK_SIZE ->
  exists st' q',
    end_ fuel st = Return OTA_RESPONSE_OK st' /\
    closed (be st') /\
    w_boot (world st') = Some i /\
    w_table (world st') !! i = Some q' /\
    p_data q' = blk ++ replicate (length (p_data q) - length blk) xff /\
    w_heap (world st') !! psram_buffer_ (be st) = None.
Proof.
  intros (Hmode & Hp & Hh & (blk' & Hheap' & Hlen) & Hr & _) Hpass Hs Hres Hq
    Hheap Hsize Hmax Hfuel.
  assert (blk' = blk) by congruence. subst blk'.
  assert (Happ : p_type q = ESP_PARTITION_TYPE_APP).
  { unfold resolve_target in Hres.
    destruct (negb _); apply esp_partition_find_first_spec in Hres;
      destruct Hres as (q0 & Hq0 & Hm); apply part_matches_type in Hm; congruence. }
  rewrite (end_buffered_eq fuel st Hmode Hpass). rewrite Hres.
  destruct (after_digest_fields (be st)) as (Ap & Ah & Abs & Abr & _ & _).
  unfold end_commit. run. unfold part_size. rewrite Hq.
  unfold p_size in Hsize.
  rewrite (esp_partition_erase_range_ok i 0 _ (world st) q)
    by (try assumption; unfold p_size; lia).
  cbn.
  pose proof (update_part_table i (erase_cells 0 (p_size q)) (world st) q Hq)
    as (Ht & Hsc & Hb).
  unfold p_size in Ht. rewrite erase_cells_all in Ht.
  pose proof (update_part_frame i (erase_cells 0 (p_size q)) (world st))
    as (Fh & _ & _).
  rewrite <- Hlen in Hsize, Hmax, Hfuel.
  match goal with
  | |- context [flash_from_psram fuel i 0 ?s] =>
      destruct (flash_from_psram_ok i (psram_buffer_ (be st)) blk
                  (length (p_data q)) fuel 0 s
                  (with_data (replicate (length (p_data q)) xff) q))
        as (st2 & q2 & Hrun & Hbe2 & Hh2 & Hs2 & Hb2 & Ht2 & Hty2 & Hd2)
  end; try assumption; try lia; try reflexivity.
  all: try (cbn; rewrite ?Fh, ?Ap, ?Abs; first [assumption | congruence | lia]).
  { cbn. rewrite Z.min_l by lia. cbn. rewrite Nat.sub_0_r. reflexivity. }
  rewrite Hrun.
  destruct (verify_flash_ok i (psram_buffer_ (be st)) blk (length (p_data q)) q2
              fuel 0 st2)
    as (st3 & Hrun3 & Hbe3 & Hw3); try assumption; try lia.
  all: try (rewrite ?Hbe2, ?Hh2; cbn; rewrite ?Fh, ?Ap, ?Abs;
            first [assumption | congruence | lia]).
  rewrite Hrun3.
  rewrite (esp_ota_set_boot_partition_ok i (world st3) q2)
    by (rewrite ?Hw3; try assumption; cbn in Hty2; congruence).
  cbn. rewrite abort_eq. cbn.
  eexists _, q2. split; [reflexivity|]. cbn.
  split; [apply abort_be_closed|].
  pose proof (abort_world_flash (be st3) (set_boot (Some i) (world st3))) as (At & Ab).
  split; [rewrite Ab; reflexivity|].
  split; [rewrite At; cbn; rewrite Hw3; exact Ht2|].
  split; [exact Hd2|].
  pose proof (abort_world_released (be st3) (set_boot (Some i) (world st3)))
    as ([Hnull|Hrel] & _).
  - rewrite Hbe3, Hbe2 in Hnull. cbn in Hnull. rewrite Ap in Hnull. contradiction.
  - assert (Hpb : psram_buffer_ (be st3) = psram_buffer_ (be st))
      by (rewrite Hbe3, Hbe2; cbn; exact Ap).
    rewrite Hpb in Hrel. exact Hrel.
Qed.

(** ** [set_update_md5] *)

(** X20. [set_update_md5] arms the digest check with the first 32
    characters of its argument; what follows them is ignored.  A later
    [end] then reports a mismatch exactly when those characters, letter
    case aside, are not the hexadecimal form of the digest of the bytes
    accumulated, and it does so in either mode and whatever the state of
    the session. *)
Theorem set_update_md5_arms_check (fuel : nat) (expected : list ascii) (st : St) :
  exists st1,
    set_update_md5 expected st = Next tt st1 /\
    set_update_md5 (take 32 expected) st = Next tt st1 /\
    md5_set_ (be st1) = true /\
    world st1 = world st /\
    (response (end_ fuel st1) = Some OTA_RESPONSE_ERROR_MD5_MISMATCH
     <-> map to_lower (take 32 expected)
         <> flat_map hex_of_byte (md5_hash (md5_ctx (md5_ (be st))))).
Proof.
  eexists. split; [reflexivity|].
  split; [unfold set_update_md5, assign; rewrite take_take, Nat.min_id; reflexivity|].
  split; [reflexivity|]. split; [reflexivity|].
  rewrite end_mismatch_iff. unfold digest_passes, equals_hex. cbn.
  rewrite take_take, Nat.min_id.
  destruct (decide (map to_lower (take 32 expected)
                    = flat_map hex_of_byte (md5_hash (md5_ctx (md5_ (be st))))))
    as [E|E].
  - rewrite bool_decide_eq_true_2 by exact E. split; [discriminate|contradiction].
  - rewrite bool_decide_eq_false_2 by exact E. split; auto.
Qed.

End Backend.

(** ** Concrete runs

    The digest is [last_byte_digest] and the configured watchdog timeout
    5 s.  The example sessions are states the methods really reach. *)

Lemma example_direct_open_reachable :
  then_ (begin 5 8) (write [x01; x02; x03; x04]) (example_st false example_world)
  = Return OTA_RESPONSE_OK example_direct_open.
Proof. vm_compute. reflexivity. Qed.

Lemma example_buffered_open_reachable :
  then_ (begin 5 8) (write [x01; x02; x03]) (example_st true example_world)
  = Return OTA_RESPONSE_OK example_buffered_open.
Proof. vm_compute. reflexivity. Qed.

Lemma example_direct_open_is_open : open_direct example_direct_open.
Proof.
  unfold open_direct. vm_compute.
  repeat match goal with |- _ /\ _ => split end; try reflexivity.
  - discriminate.
  - eexists. reflexivity.
Qed.

Lemma example_buffered_open_is_open : open_buffered example_buffered_open.
Proof.
  unfold open_buffered.
  repeat match goal with |- _ /\ _ => split end; try reflexivity.
  - discriminate.
  - eexists. split; vm_compute; reflexivity.
  - vm_compute. discriminate.
  - vm_compute. discriminate.
Qed.

(** C1 at a direct-mode session whose expected digest is wrong. *)
Lemma end_md5_mismatch_witness :
  md5_set_ (be (with_expected_md5 wrong_md5 example_direct_open)) = true /\
  equals_hex
    (md5_calculate last_byte_digest
       (md5_ (be (with_expected_md5 wrong_md5 example_direct_open))))
    (expected_bin_md5_ (be (with_expected_md5 wrong_md5 example_direct_open)))
  = false /\
  response (end_ last_byte_digest 0 (with_expected_md5 wrong_md5 example_direct_open))
  = Some OTA_RESPONSE_ERROR_MD5_MISMATCH.
Proof.
  split; [reflexivity|]. split; [vm_compute; reflexivity|].
  destruct (end_md5_mismatch last_byte_digest 0
              (with_expected_md5 wrong_md5 example_direct_open))
    as [E _]; [reflexivity|vm_compute; reflexivity|].
  rewrite E. reflexivity.
Defined.

(** C2 at an image of 8 bytes sent as chunks of 3 and 5 bytes, in PSRAM
    mode and in direct mode. *)
Lemma session_roundtrip_witness :
  let chunks := [[x01; x02; x03]; [x04; x05; x06; x07; x08]] in
  (0 < 8 /\
   storage_ready 8 (example_st true example_world) /\
   storage_ready 8 (example_st false example_world)) /\
  (Forall (fun r => r = Some OTA_RESPONSE_OK)
     (fst (run_session last_byte_digest 5 2 8 chunks (example_st true example_world))) /\
   exists i q,
     session_target (example_st true example_world) = Some i /\
     w_boot (world (snd (run_session last_byte_digest 5 2 8 chunks
                           (example_st true example_world)))) = Some i /\
     w_table (world (snd (run_session last_byte_digest 5 2 8 chunks
                            (example_st true example_world)))) !! i = Some q /\
     read_cells 0 8 (p_data q) = concat chunks) /\
  (Forall (fun r => r = Some OTA_RESPONSE_OK)
     (fst (run_session last_byte_digest 5 2 8 chunks (example_st false example_world))) /\
   exists i q,
     session_target (example_st false example_world) = Some i /\
     w_boot (world (snd (run_session last_byte_digest 5 2 8 chunks
                           (example_st false example_world)))) = Some i /\
     w_table (world (snd (run_session last_byte_digest 5 2 8 chunks
                            (example_st false example_world)))) !! i = Some q /\
     read_cells 0 8 (p_data q) = concat chunks).
Proof.
  intros chunks.
  assert (Hb : storage_ready 8 (example_st true example_world)).
  { split; [reflexivity|]. unfold example_st.
    cbn [be use_psram_ set_use_psram make_ota_backend world w_psram_free
         example_world].
    split; [lia|]. split; [vm_compute; discriminate|].
    exists 2%nat, (example_partition 0 16 "ota_0" 16).
    split; [reflexivity|]. split; [reflexivity|]. vm_compute. discriminate. }
  assert (Hd : storage_ready 8 (example_st false example_world)).
  { split; [reflexivity|]. unfold example_st.
    cbn [be use_psram_ set_use_psram make_ota_backend fresh_backend world].
    exists 3%nat, (example_partition 0 17 "ota_1" 16).
    split; [reflexivity|]. split; [reflexivity|]. vm_compute. discriminate. }
  split; [split; [lia|split; assumption]|]. split.
  - apply (session_roundtrip last_byte_digest 5 2 8 chunks
             (example_st true example_world));
      [lia|reflexivity|reflexivity|exact Hb|vm_compute; discriminate].
  - apply (session_roundtrip last_byte_digest 5 2 8 chunks
             (example_st false example_world));
      [lia|reflexivity|reflexivity|exact Hd|vm_compute; discriminate].
Defined.

(** The partitions of the two runs: PSRAM mode flashes ota_0, direct mode
    ota_1. *)
Example example_sessions_run :
  let chunks := [[x01; x02; x03]; [x04; x05; x06; x07; x08]] in
  fst (run_session last_byte_digest 5 2 8 chunks (example_st true example_world))
  = [Some OTA_RESPONSE_OK; Some OTA_RESPONSE_OK; Some OTA_RESPONSE_OK;
     Some OTA_RESPONSE_OK] /\
  w_boot (world (snd (run_session last_byte_digest 5 2 8 chunks
                        (example_st true example_world)))) = Some 2%nat /\
  w_boot (world (snd (run_session last_byte_digest 5 2 8 chunks
                        (example_st false example_world)))) = Some 3%nat.
Proof. vm_compute. repeat split. Qed.

(** C3 as stated fails: in direct mode, an [end] whose transaction close is
    rejected returns the update-end code without ever calling [abort]. *)
Lemma end_direct_failure_without_abort :
  ~ (forall fuel st st' r,
       open_buffered st \/ open_direct st ->
       end_ last_byte_digest fuel st = Return r st' ->
       r <> OTA_RESPONSE_OK ->
       exists evs, log st' = log st ++ evs /\ In EvBackendAbort evs).
Proof.
  intros H.
  destruct (H 0%nat (with_script [ESP_ERR_OTA_VALIDATE_FAILED] example_direct_open)
              {| be := set_update_handle 0 (be example_direct_open);
                 world := set_ota ∅ (world example_direct_open);
                 log := log example_direct_open
                          ++ [EvOtaEnd 1 ESP_ERR_OTA_VALIDATE_FAILED] |}
              OTA_RESPONSE_ERROR_UPDATE_END)
    as (evs & Hlog & Hin).
  - right. apply example_direct_open_is_open.
  - vm_compute. reflexivity.
  - discriminate.
  - cbn [log with_script] in Hlog. apply app_inv_head in Hlog. subst evs.
    destruct Hin as [Hin|[]]. discriminate.
Qed.

(** C3 at that session: the failing exit leaves the object closed and the
    transaction released, with no call of [abort] in the log. *)
Lemma end_failure_releases_witness :
  let st := with_script [ESP_ERR_OTA_VALIDATE_FAILED] example_direct_open in
  let st' := final_st (end_ last_byte_digest 0 st) st in
  (open_buffered st \/ open_direct st) /\
  end_ last_byte_digest 0 st = Return OTA_RESPONSE_ERROR_UPDATE_END st' /\
  closed (be st') /\
  w_ota (world st') !! update_handle_ (be st) = None /\
  ~ In EvBackendAbort (log st').
Proof.
  intros st st'.
  assert (Hopen : open_buffered st \/ open_direct st)
    by (right; apply example_direct_open_is_open).
  assert (Hend : end_ last_byte_digest 0 st
                 = Return OTA_RESPONSE_ERROR_UPDATE_END st')
    by (vm_compute; reflexivity).
  destruct (end_failure_releases last_byte_digest 0 st st'
              OTA_RESPONSE_ERROR_UPDATE_END Hopen Hend ltac:(discriminate))
    as (Hc & _ & [Hh|Hh] & _).
  - vm_compute in Hh. discriminate.
  - split; [exact Hopen|]. split; [exact Hend|]. split; [exact Hc|].
    split; [exact Hh|]. vm_compute. intuition discriminate.
Defined.

(** C4 as stated fails: on a device running from ota_0, direct mode would
    update ota_1 (the next inactive slot), but [end] in PSRAM mode with no
    label set erases and flashes ota_0 and selects it for boot. *)
Lemma end_buffered_default_is_not_next_slot :
  ~ (forall fuel st st',
       use_psram_ (be st) = true ->
       target_partition_label_ (be st) = EmptyString ->
       digest_passes last_byte_digest (be st) = true ->
       end_ last_byte_digest fuel st = Return OTA_RESPONSE_OK st' ->
       partition_ (be st') = esp_ota_get_next_update_partition (world st)).
Proof.
  intros H.
  specialize (H 2%nat example_buffered_open
                (final_st (end_ last_byte_digest 2 example_buffered_open)
                   example_buffered_open)).
  assert (Hne : Some 2%nat <> Some 3%nat) by discriminate.
  apply Hne. apply H; vm_compute; reflexivity.
Qed.

(** C4 at that session: the lookup yields ota_0 (index 2), and every flash
    call of [end] is on it. *)
Lemma end_buffered_target_witness :
  let st := example_buffered_open in
  let st' := final_st (end_ last_byte_digest 2 st) st in
  (use_psram_ (be st) = true /\ digest_passes last_byte_digest (be st) = true) /\
  resolve_target (be st) (world st) = Some 2%nat /\
  esp_ota_get_next_update_partition (world st) = Some 3%nat /\
  end_ last_byte_digest 2 st = Return OTA_RESPONSE_OK st' /\
  partition_ (be st') = Some 2%nat /\
  w_boot (world st') = Some 2%nat /\
  exists evs, log st' = log st ++ evs /\ flash_events_on 2 evs.
Proof.
  intros st st'.
  assert (Hend : end_ last_byte_digest 2 st = Return OTA_RESPONSE_OK st')
    by (vm_compute; reflexivity).
  destruct (end_buffered_target last_byte_digest 2 st)
    as (_ & _ & _ & _ & Hsome); [reflexivity|reflexivity|].
  destruct (Hsome 2%nat OTA_RESPONSE_OK st' ltac:(reflexivity) Hend) as (Hp & Hev).
  split; [split; reflexivity|]. split; [reflexivity|]. split; [reflexivity|].
  split; [exact Hend|]. split; [exact Hp|]. split; [reflexivity|exact Hev].
Defined.

(** C5 as stated fails: with no free PSRAM at all, [begin] in PSRAM mode
    answers with the no-update-partition code, not the not-enough-space
    code. *)
Lemma begin_buffered_zero_free_not_insufficient :
  ~ (forall size st,
       use_psram_ (be st) = true ->
       w_psram_free (world st) < size ->
       response (begin 5 size st)
       = Some OTA_RESPONSE_ERROR_ESP32_NOT_ENOUGH_SPACE).
Proof.
  intros H.
  specialize (H 8 (example_st true (set_psram_free 0 example_world))
                ltac:(reflexivity) ltac:(reflexivity)).
  vm_compute in H. discriminate.
Qed.

(** C5 at pools with 0, 4 and 64 free bytes, for an image of 8 bytes. *)
Lemma begin_buffered_witness :
  use_psram_ (be (example_st true example_world)) = true /\
  response (begin 5 8 (example_st true (set_psram_free 0 example_world)))
  = Some OTA_RESPONSE_ERROR_NO_UPDATE_PARTITION /\
  response (begin 5 8 (example_st true (set_psram_free 4 example_world)))
  = Some OTA_RESPONSE_ERROR_ESP32_NOT_ENOUGH_SPACE /\
  response (begin 5 8 (example_st true (set_script [ESP_ERR_NO_MEM] example_world)))
  = Some OTA_RESPONSE_ERROR_ESP32_NOT_ENOUGH_SPACE /\
  response (begin 5 8 (example_st true example_world)) = Some OTA_RESPONSE_OK /\
  w_table (world (final_st (begin 5 8 (example_st true example_world))
                    (example_st true example_world)))
  = w_table example_world.
Proof.
  split; [reflexivity|].
  destruct (begin_buffered 5 8 (example_st true (set_psram_free 0 example_world))
              ltac:(reflexivity)) as (H0 & _).
  destruct (begin_buffered 5 8 (example_st true (set_psram_free 4 example_world))
              ltac:(reflexivity)) as (_ & H4 & _).
  destruct (begin_buffered 5 8
              (example_st true (set_script [ESP_ERR_NO_MEM] example_world))
              ltac:(reflexivity)) as (_ & _ & Hnull & _).
  destruct (begin_buffered 5 8 (example_st true example_world) ltac:(reflexivity))
    as (_ & _ & _ & Hok & Ht & _).
  rewrite (H0 ltac:(reflexivity)).
  rewrite H4 by (vm_compute; try discriminate; reflexivity).
  rewrite Hnull by (vm_compute; try discriminate; reflexivity).
  rewrite Hok by (vm_compute; discriminate).
  repeat match goal with |- _ /\ _ => split end; try reflexivity.
Defined.

(** C6 at the open PSRAM-mode session (3 of 8 bytes received): a chunk of
    6 bytes is refused and changes nothing, a chunk of 5 bytes fills the
    buffer. *)
Lemma write_buffered_guard_witness :
  let st := example_buffered_open in
  let big := [x04; x05; x06; x07; x08; x09] in
  let fit := [x04; x05; x06; x07; x08] in
  (open_buffered st /\ fits_with_buffer st big /\ fits_with_buffer st fit) /\
  write big st = Return OTA_RESPONSE_ERROR_UNKNOWN st /\
  response (write fit st) = Some OTA_RESPONSE_OK /\
  bytes_received_ (be (final_st (write fit st) st)) = 8 /\
  w_heap (world (final_st (write fit st) st)) !! 1000
  = Some [x01; x02; x03; x04; x05; x06; x07; x08] /\
  bytes_received_ (be (write_all [fit; big; fit] st)) <= buffer_size_ (be st).
Proof.
  intros st big fit.
  assert (Hopen : open_buffered st) by apply example_buffered_open_is_open.
  assert (Hbig : fits_with_buffer st big) by (vm_compute; reflexivity).
  assert (Hfit : fits_with_buffer st fit) by (vm_compute; reflexivity).
  destruct (write_buffered_guard big st Hopen Hbig) as (Hov & _ & Hall).
  destruct (write_buffered_guard fit st Hopen Hfit) as (_ & Hok & _).
  destruct (Hall [fit; big; fit]) as (_ & _ & _ & Hle);
    [repeat constructor; vm_compute; reflexivity|].
  destruct Hok as (blk & Hblk & _ & Hw); [vm_compute; discriminate|].
  split; [auto|]. split; [apply Hov; vm_compute; reflexivity|].
  rewrite Hw. cbn [response final_st be world].
  split; [reflexivity|]. split; [reflexivity|]. split; [|exact Hle].
  vm_compute in Hblk. inversion Hblk; subst blk. vm_compute. reflexivity.
Defined.

(** C7 as stated fails: when the boot selection fails with a code that is
    neither a validation failure nor a flash-operation failure (here
    ESP_ERR_NOT_FOUND), [end] in direct mode returns the unknown-error
    code, not the update-end code. *)
Lemma end_direct_set_boot_failure_is_unknown :
  ~ (forall fuel st,
       use_psram_ (be st) = false ->
       digest_passes last_byte_digest (be st) = true ->
       let r1 := esp_ota_end (update_handle_ (be st)) (world st) in
       let r2 := esp_ota_set_boot_partition (partition_ (be st)) (snd r1) in
       fst r1 = ESP_OK ->
       fst r2 <> ESP_OK ->
       fst r2 <> ESP_ERR_FLASH_OP_TIMEOUT ->
       fst r2 <> ESP_ERR_FLASH_OP_FAIL ->
       response (end_ last_byte_digest fuel st)
       = Some OTA_RESPONSE_ERROR_UPDATE_END).
Proof.
  intros H.
  specialize (H 0%nat (with_script [ESP_OK; ESP_ERR_NOT_FOUND] example_direct_open)).
  cbv zeta in H.
  assert (Hr : response (end_ last_byte_digest 0
                 (with_script [ESP_OK; ESP_ERR_NOT_FOUND] example_direct_open))
               = Some OTA_RESPONSE_ERROR_UNKNOWN) by (vm_compute; reflexivity).
  assert (Hc : response (end_ last_byte_digest 0
                 (with_script [ESP_OK; ESP_ERR_NOT_FOUND] example_direct_open))
               = Some OTA_RESPONSE_ERROR_UPDATE_END)
    by (apply H; vm_compute; solve [reflexivity | discriminate]).
  rewrite Hr in Hc. discriminate.
Qed.

(** C7 at that session, and at one whose transaction close fails
    validation. *)
Lemma end_direct_error_mapping_witness :
  let st := with_script [ESP_OK; ESP_ERR_NOT_FOUND] example_direct_open in
  (use_psram_ (be st) = false /\ digest_passes last_byte_digest (be st) = true) /\
  response (end_ last_byte_digest 0 st) = Some OTA_RESPONSE_ERROR_UNKNOWN /\
  response (end_ last_byte_digest 0
              (with_script [ESP_ERR_OTA_VALIDATE_FAILED] example_direct_open))
  = Some OTA_RESPONSE_ERROR_UPDATE_END /\
  response (end_ last_byte_digest 0
              (with_script [ESP_OK; ESP_ERR_FLASH_OP_FAIL] example_direct_open))
  = Some OTA_RESPONSE_ERROR_WRITING_FLASH /\
  response (end_ last_byte_digest 0 example_direct_open) = Some OTA_RESPONSE_OK.
Proof.
  intros st.
  destruct (end_direct_error_mapping last_byte_digest 0 st)
    as (resp & Hr & _ & _ & _ & _ & Hu); [reflexivity|reflexivity|].
  destruct (end_direct_error_mapping last_byte_digest 0
              (with_script [ESP_ERR_OTA_VALIDATE_FAILED] example_direct_open))
    as (resp1 & Hr1 & _ & _ & Hv & _); [reflexivity|reflexivity|].
  destruct (end_direct_error_mapping last_byte_digest 0
              (with_script [ESP_OK; ESP_ERR_FLASH_OP_FAIL] example_direct_open))
    as (resp2 & Hr2 & _ & _ & _ & Hf & _); [reflexivity|reflexivity|].
  destruct (end_direct_error_mapping last_byte_digest 0 example_direct_open)
    as (resp3 & Hr3 & Hok & _); [reflexivity|reflexivity|].
  split; [split; reflexivity|].
  rewrite Hr, Hr1, Hr2, Hr3.
  rewrite Hu by (vm_compute; discriminate).
  rewrite Hv by (vm_compute; reflexivity).
  rewrite Hf by (right; vm_compute; reflexivity).
  rewrite (proj2 Hok) by (split; vm_compute; reflexivity).
  repeat split.
Defined.

(** C9 as stated fails: [begin 0] in direct mode, on a device with an
    update partition, returns Ok. *)
Lemma begin_zero_not_rejected :
  ~ (forall st,
       exists r, response (begin 5 0 st) = Some r /\ r <> OTA_RESPONSE_OK).
Proof.
  intros H. destruct (H (example_st false example_world)) as (r & Hr & Hne).
  vm_compute in Hr. inversion Hr; subst. apply Hne. reflexivity.
Qed.

(** C9 at the example device, in both modes, and at a device without any
    OTA slot. *)
Lemma begin_zero_size_witness :
  (use_psram_ (be (example_st false example_world)) = false /\
   use_psram_ (be (example_st true example_world)) = true) /\
  response (begin 5 0 (example_st false example_world)) = Some OTA_RESPONSE_OK /\
  response (begin 5 0 (example_st true example_world)) = Some OTA_RESPONSE_OK /\
  response (begin 5 0 (example_st true (set_script [ESP_ERR_NO_MEM] example_world)))
  <> Some OTA_RESPONSE_OK.
Proof.
  destruct (begin_zero_size 5 (example_st false example_world)) as (Hd & _).
  destruct (begin_zero_size 5 (example_st true example_world)) as (_ & Hb).
  destruct (begin_zero_size 5
              (example_st true (set_script [ESP_ERR_NO_MEM] example_world)))
    as (_ & Hn).
  split; [split; reflexivity|]. split; [|split].
  - apply (Hd ltac:(reflexivity)). exists 3%nat. split; vm_compute; reflexivity.
  - apply (Hb ltac:(reflexivity)).
    repeat split; vm_compute; discriminate.
  - intros E. apply (Hn ltac:(reflexivity)) in E.
    destruct E as (_ & _ & E). apply E. vm_compute. reflexivity.
Defined.

(** C10 at the open direct-mode session, when the platform fails the flash
    write: the digest accumulator has the chunk, the flash has not; and at
    the open PSRAM-mode session, where a refused chunk leaves the
    accumulator alone. *)
Lemma write_digest_on_failure_witness :
  let st := with_script [ESP_ERR_FLASH_OP_FAIL] example_direct_open in
  let data := [x05; x06] in
  use_psram_ (be st) = false /\
  fst (esp_ota_write (update_handle_ (be st)) data (world st)) <> ESP_OK /\
  response (write data st) = Some OTA_RESPONSE_ERROR_WRITING_FLASH /\
  md5_ctx (md5_ (be (final_st (write data st) st)))
  = [x01; x02; x03; x04; x05; x06] /\
  w_table (world (final_st (write data st) st)) = w_table (world st) /\
  md5_ (be (final_st (write [x04; x05; x06; x07; x08; x09] example_buffered_open)
              example_buffered_open))
  = md5_ (be example_buffered_open).
Proof.
  intros st data.
  destruct (write_digest_on_failure data st) as (Hd & _).
  destruct (Hd ltac:(reflexivity)) as (Hmd & Hw & Hfail).
  destruct (write_digest_on_failure [x04; x05; x06; x07; x08; x09]
              example_buffered_open) as (_ & Hb).
  destruct (Hb ltac:(reflexivity)) as (Hsame & _).
  assert (Hne : fst (esp_ota_write (update_handle_ (be st)) data (world st)) <> ESP_OK)
    by (vm_compute; discriminate).
  destruct (Hfail Hne) as (_ & Ht & _).
  split; [reflexivity|]. split; [exact Hne|]. split; [vm_compute; reflexivity|].
  split; [rewrite Hmd; reflexivity|]. split; [rewrite Hw; exact Ht|].
  rewrite Hsame by (vm_compute; discriminate). reflexivity.
Defined.

(** ** Concrete runs of the further properties *)

(** X1 at a first [begin] in direct mode: ota_1 is the next update
    partition and the call succeeds. *)
Lemma begin_direct_outcomes_witness :
  use_psram_ (be (example_st false example_world)) = false /\
  esp_ota_get_next_update_partition (world (example_st false example_world))
  = Some 3%nat /\
  exists st',
    begin 5 8 (example_st false example_world) = Return OTA_RESPONSE_OK st' /\
    partition_ (be st') = Some 3%nat /\
    w_wdt_timeout_ms (world st') = 5000.
Proof.
  split; [reflexivity|]. split; [vm_compute; reflexivity|].
  destruct (begin_direct_outcomes 5 8 (example_st false example_world) eq_refl)
    as [_ H].
  destruct (H 3%nat ltac:(vm_compute; reflexivity))
    as (resp & st' & Hb & Hok & _ & _ & _ & _ & Hp & Hw).
  assert (resp = OTA_RESPONSE_OK) as -> by (apply Hok; vm_compute; reflexivity).
  exists st'. split; [exact Hb|]. split; [exact Hp|]. exact Hw.
Defined.

(** X2 at a further chunk of the open direct-mode session. *)
Lemma write_direct_outcomes_witness :
  use_psram_ (be example_direct_open) = false /\
  exists st',
    write [x05; x06] example_direct_open = Return OTA_RESPONSE_OK st' /\
    md5_ctx (md5_ (be st')) = [x01; x02; x03; x04; x05; x06].
Proof.
  split; [reflexivity|].
  destruct (write_direct_outcomes [x05; x06] example_direct_open eq_refl)
    as (resp & st' & Hw & Hok & _ & _ & _ & Hbe & _).
  assert (resp = OTA_RESPONSE_OK) as -> by (apply Hok; vm_compute; reflexivity).
  exists st'. split; [exact Hw|]. rewrite Hbe. reflexivity.
Defined.

(** X4 at the [end] of the open PSRAM-mode session: the boot target moves
    from ota_0's neighbour to the partition the lookup found. *)
Lemma boot_target_moves_only_on_ok_witness :
  let st' := final_st (end_ last_byte_digest 2 example_buffered_open)
               example_buffered_open in
  end_ last_byte_digest 2 example_buffered_open = Return OTA_RESPONSE_OK st' /\
  w_boot (world st') = resolve_target (be example_buffered_open)
                         (world example_buffered_open).
Proof.
  intros st'.
  assert (He : end_ last_byte_digest 2 example_buffered_open
               = Return OTA_RESPONSE_OK st') by (vm_compute; reflexivity).
  split; [exact He|].
  destruct (boot_target_moves_only_on_ok last_byte_digest 5 2 0 []
              example_buffered_open) as (_ & _ & _ & H).
  destruct (H OTA_RESPONSE_OK st' He) as [_ Hok].
  destruct (Hok eq_refl) as [Hb _]. exact Hb.
Defined.

(** X5 at the same [end]: ota_0 reads back as the buffer. *)
Lemma end_buffered_ok_is_verified_witness :
  let st' := final_st (end_ last_byte_digest 2 example_buffered_open)
               example_buffered_open in
  open_buffered example_buffered_open /\
  buffer_size_ (be example_buffered_open) + CHUNK_SIZE <= SIZE_MAX_P1 /\
  end_ last_byte_digest 2 example_buffered_open = Return OTA_RESPONSE_OK st' /\
  exists q, w_table (world st') !! 2%nat = Some q /\
            read_cells 0 8 (p_data q) = [x01; x02; x03] ++ replicate 5 x00.
Proof.
  intros st'.
  assert (Hmax : buffer_size_ (be example_buffered_open) + CHUNK_SIZE <= SIZE_MAX_P1)
    by (vm_compute; discriminate).
  assert (He : end_ last_byte_digest 2 example_buffered_open
               = Return OTA_RESPONSE_OK st') by (vm_compute; reflexivity).
  split; [apply example_buffered_open_is_open|].
  split; [exact Hmax|]. split; [exact He|].
  destruct (end_buffered_ok_is_verified last_byte_digest 2 example_buffered_open st'
              example_buffered_open_is_open Hmax He)
    as (i & q & blk & Hres & Hblk & Hq & _ & Hrd).
  assert (i = 2%nat) by (vm_compute in Hres; congruence). subst i.
  assert (Eb : blk = [x01; x02; x03] ++ replicate 5 x00)
    by (vm_compute in Hblk; inversion Hblk; reflexivity).
  rewrite Eb in Hrd. exists q. split; [exact Hq|exact Hrd].
Defined.

(** X6 at the label of ota_1. *)
Lemma set_target_partition_effect_witness :
  exists b',
    set_target_partition (Some "ota_1"%string) (example_st true example_world)
    = Next tt {| be := b'; world := example_world; log := [] |} /\
    target_partition_label_ b' = "ota_1"%string /\
    resolve_target b' example_world = Some 3%nat.
Proof.
  destruct (set_target_partition_effect (Some "ota_1"%string)
              (example_st true example_world)) as (b' & Hs & _ & H).
  destruct (H "ota_1"%string eq_refl ltac:(discriminate))
    as (_ & _ & _ & Hl & Hr).
  exists b'. split; [exact Hs|].
  split; [apply Hl; vm_compute; lia|].
  etransitivity; [exact Hr|vm_compute; reflexivity].
Defined.

(** X7 at a first [begin] in PSRAM mode. *)
Lemma begin_ok_opens_session_witness :
  let st := example_st true example_world in
  let st' := final_st (begin 5 8 st) st in
  closed (be st) /\ 0 <= 8 < SIZE_MAX_P1 /\
  begin 5 8 st = Return OTA_RESPONSE_OK st' /\
  open_buffered st' /\ buffer_size_ (be st') = 8 /\ bytes_received_ (be st') = 0.
Proof.
  intros st st'.
  assert (Hc : closed (be st)) by (vm_compute; auto).
  assert (Hs : 0 <= 8 < SIZE_MAX_P1) by (unfold SIZE_MAX_P1; lia).
  assert (Hb : begin 5 8 st = Return OTA_RESPONSE_OK st') by (vm_compute; reflexivity).
  split; [exact Hc|]. split; [exact Hs|]. split; [exact Hb|].
  exact (proj2 (begin_ok_opens_session 5 8 st st' Hc Hs Hb)).
Defined.

(** X8 at a [begin] that asks for more than the pool holds. *)
Lemma begin_failure_keeps_closed_witness :
  let st := example_st true example_world in
  closed (be st) /\
  begin 5 100 st = Return OTA_RESPONSE_ERROR_ESP32_NOT_ENOUGH_SPACE st /\
  OTA_RESPONSE_ERROR_ESP32_NOT_ENOUGH_SPACE <> OTA_RESPONSE_OK /\
  closed (be st) /\ w_heap (world st) = w_heap (world st).
Proof.
  intros st.
  assert (Hc : closed (be st)) by (vm_compute; auto).
  assert (Hb : begin 5 100 st = Return OTA_RESPONSE_ERROR_ESP32_NOT_ENOUGH_SPACE st)
    by (vm_compute; reflexivity).
  assert (Hr : OTA_RESPONSE_ERROR_ESP32_NOT_ENOUGH_SPACE <> OTA_RESPONSE_OK)
    by discriminate.
  split; [exact Hc|]. split; [exact Hb|]. split; [exact Hr|].
  destruct (begin_failure_keeps_closed 5 100 st st _ Hc Hb Hr) as (H1 & H2 & _).
  split; [exact H1|exact H2].
Defined.

(** X10 at two chunks in direct mode. *)
Lemma direct_digest_covers_every_write_witness :
  let st := example_st false example_world in
  let st1 := final_st (begin 5 8 st) st in
  use_psram_ (be st) = false /\
  begin 5 8 st = Return OTA_RESPONSE_OK st1 /\
  md5_ctx (md5_ (be (write_all [[x01; x02]; [x03]] st1))) = [x01; x02; x03].
Proof.
  intros st st1.
  assert (Hb : begin 5 8 st = Return OTA_RESPONSE_OK st1) by (vm_compute; reflexivity).
  split; [reflexivity|]. split; [exact Hb|].
  exact (proj1 (direct_digest_covers_every_write last_byte_digest 5 0 8
                  [[x01; x02]; [x03]] st st1 eq_refl Hb)).
Defined.

(** X11 at a chunk that fits and one that does not. *)
Lemma buffered_digest_covers_received_witness :
  let st := example_st true example_world in
  let st1 := final_st (begin 5 8 st) st in
  let chunks := [[x01; x02; x03]; replicate 9 x07] in
  use_psram_ (be st) = true /\ closed (be st) /\ 0 <= 8 < SIZE_MAX_P1 /\
  Forall (fun c => 8 + Z.of_nat (length c) < SIZE_MAX_P1) chunks /\
  begin 5 8 st = Return OTA_RESPONSE_OK st1 /\
  exists blk,
    w_heap (world (write_all chunks st1)) !! psram_buffer_ (be (write_all chunks st1))
    = Some blk /\
    md5_ctx (md5_ (be (write_all chunks st1)))
    = take (Z.to_nat (bytes_received_ (be (write_all chunks st1)))) blk.
Proof.
  intros st st1 chunks.
  assert (Hc : closed (be st)) by (vm_compute; auto).
  assert (Hs : 0 <= 8 < SIZE_MAX_P1) by (unfold SIZE_MAX_P1; lia).
  assert (Hf : Forall (fun c => 8 + Z.of_nat (length c) < SIZE_MAX_P1) chunks)
    by (repeat constructor).
  assert (Hb : begin 5 8 st = Return OTA_RESPONSE_OK st1) by (vm_compute; reflexivity).
  split; [reflexivity|]. split; [exact Hc|]. split; [exact Hs|].
  split; [exact Hf|]. split; [exact Hb|].
  destruct (buffered_digest_covers_received last_byte_digest 5 0 8 chunks st st1
              eq_refl Hc Hs Hf Hb) as (blk & Hblk & _ & _ & Hctx & _).
  exists blk. split; [exact Hblk|exact Hctx].
Defined.

(** X12 at a session of one chunk that is given up. *)
Lemma buffered_abort_returns_pool_witness :
  let st := example_st true example_world in
  let st1 := final_st (begin 5 8 st) st in
  let st3 := final_st (abort (write_all [[x01; x02; x03]] st1))
               (write_all [[x01; x02; x03]] st1) in
  use_psram_ (be st) = true /\ closed (be st) /\ 0 <= 8 < SIZE_MAX_P1 /\
  Forall (fun c => 8 + Z.of_nat (length c) < SIZE_MAX_P1) [[x01; x02; x03]] /\
  w_heap (world st) !! Z.pos (w_heap_next (world st)) = None /\
  begin 5 8 st = Return OTA_RESPONSE_OK st1 /\
  closed (be st3) /\ w_heap (world st3) = w_heap (world st) /\
  w_psram_free (world st3) = 64.
Proof.
  intros st st1 st3.
  assert (Hc : closed (be st)) by (vm_compute; auto).
  assert (Hs : 0 <= 8 < SIZE_MAX_P1) by (unfold SIZE_MAX_P1; lia).
  assert (Hf : Forall (fun c => 8 + Z.of_nat (length c) < SIZE_MAX_P1)
                 [[x01; x02; x03]]) by (repeat constructor).
  assert (Hn : w_heap (world st) !! Z.pos (w_heap_next (world st)) = None)
    by (vm_compute; reflexivity).
  assert (Hb : begin 5 8 st = Return OTA_RESPONSE_OK st1) by (vm_compute; reflexivity).
  split; [reflexivity|]. split; [exact Hc|]. split; [exact Hs|].
  split; [exact Hf|]. split; [exact Hn|]. split; [exact Hb|].
  destruct (buffered_abort_returns_pool 5 8 [[x01; x02; x03]] st st1
              eq_refl Hc Hs Hf Hn Hb) as (H1 & H2 & H3 & _).
  split; [exact H1|]. split; [exact H2|exact H3].
Defined.

(** X13 at an object in PSRAM mode on which [begin] was never called:
    ota_0, the running partition, is erased and selected. *)
Lemma end_before_begin_commits_blank_witness :
  let st := example_st true example_world in
  let q := example_partition 0 16 "ota_0" 16 in
  (use_psram_ (be st) = true /\ closed (be st) /\
   digest_passes last_byte_digest (be st) = true /\
   w_script (world st) = [] /\
   resolve_target (be st) (world st) = Some 2%nat /\
   w_table (world st) !! 2%nat = Some q) /\
  exists st',
    end_ last_byte_digest 1 st = Return OTA_RESPONSE_OK st' /\
    w_boot (world st') = Some 2%nat /\
    w_table (world st') !! 2%nat = Some (with_data (replicate 16 xff) q).
Proof.
  intros st q.
  assert (Hc : closed (be st)) by (vm_compute; auto).
  assert (Hd : digest_passes last_byte_digest (be st) = true) by reflexivity.
  assert (Hr : resolve_target (be st) (world st) = Some 2%nat)
    by (vm_compute; reflexivity).
  assert (Hq : w_table (world st) !! 2%nat = Some q) by reflexivity.
  split; [auto 10|].
  destruct (end_before_begin_commits_blank last_byte_digest 0 st 2 q
              eq_refl Hc Hd eq_refl Hr Hq) as (st' & He & _ & Hb & Ht & _).
  exists st'. split; [exact He|]. split; [exact Hb|exact Ht].
Defined.

(** X14 at the label of ota_1, and at a label no partition carries. *)
Lemma play_restarts_exactly_when_switched_witness :
  restarts (fst (play true "ota_1" example_world)) = true /\
  w_boot (snd (play true "ota_1" example_world)) = Some 3%nat /\
  restarts (fst (play true "ota_9" example_world)) = false /\
  w_boot (snd (play true "ota_9" example_world)) = w_boot example_world.
Proof.
  assert (Hr : restarts (fst (play true "ota_1" example_world)) = true)
    by (vm_compute; reflexivity).
  assert (Hn : restarts (fst (play true "ota_9" example_world)) = false)
    by (vm_compute; reflexivity).
  split; [exact Hr|].
  destruct (play_restarts_exactly_when_switched true "ota_1" example_world)
    as (_ & _ & H & _).
  destruct (H Hr) as (i & q & pre & Hb & Hq & _ & Hl & _).
  split.
  - rewrite Hb. f_equal.
    destruct i as [|[|[|[|i]]]]; vm_compute in Hq; inversion Hq; subst q;
      vm_compute in Hl; try discriminate. reflexivity.
  - split; [exact Hn|].
    exact (proj2 (proj2 (proj2 (play_restarts_exactly_when_switched true "ota_9"
                                  example_world))) Hn).
Defined.

(** X16 at a PSRAM-mode session that targets ota_1 by label. *)
Lemma play_boots_flashed_image_witness :
  let st := with_target_label "ota_1" example_buffered_open in
  let st' := final_st (end_ last_byte_digest 2 st) st in
  (open_buffered st /\
   buffer_size_ (be st) + CHUNK_SIZE <= SIZE_MAX_P1 /\
   target_partition_label_ (be st) = c_str "ota_1" /\
   c_str "ota_1" <> EmptyString /\
   end_ last_byte_digest 2 st = Return OTA_RESPONSE_OK st' /\
   fst (next_result (world st')) = ESP_OK) /\
  exists q,
    restarts (fst (play true "ota_1" (world st'))) = true /\
    w_boot (snd (play true "ota_1" (world st'))) = Some 3%nat /\
    w_table (snd (play true "ota_1" (world st'))) !! 3%nat = Some q /\
    read_cells 0 8 (p_data q) = [x01; x02; x03] ++ replicate 5 x00.
Proof.
  intros st st'.
  assert (Ho : open_buffered st).
  { unfold open_buffered.
    repeat match goal with |- _ /\ _ => split end; try reflexivity.
    - discriminate.
    - eexists. split; vm_compute; reflexivity.
    - vm_compute. discriminate.
    - vm_compute. discriminate. }
  assert (Hm : buffer_size_ (be st) + CHUNK_SIZE <= SIZE_MAX_P1)
    by (vm_compute; discriminate).
  assert (Hl : target_partition_label_ (be st) = c_str "ota_1") by reflexivity.
  assert (Hc : c_str "ota_1" <> EmptyString) by (vm_compute; discriminate).
  assert (He : end_ last_byte_digest 2 st = Return OTA_RESPONSE_OK st')
    by (vm_compute; reflexivity).
  assert (Hp : fst (next_result (world st')) = ESP_OK) by (vm_compute; reflexivity).
  split; [auto 10|].
  destruct (play_boots_flashed_image last_byte_digest 2 "ota_1" st st'
              Ho Hm Hl Hc He Hp) as (i & q & blk & Hres & Hr & Hb & Hq & Hblk & Hrd).
  assert (i = 3%nat) by (vm_compute in Hres; congruence). subst i.
  assert (Eb : blk = [x01; x02; x03] ++ replicate 5 x00)
    by (vm_compute in Hblk; inversion Hblk; reflexivity).
  rewrite Eb in Hrd. exists q. auto.
Defined.

(** X17 at a second [begin] on the open PSRAM-mode session. *)
Lemma begin_on_open_session_leaks_buffer_witness :
  let st := example_buffered_open in
  let st1 := final_st (begin 5 4 st) st in
  let st2 := final_st (abort st1) st1 in
  (open_buffered st /\ 0 <= 4 < SIZE_MAX_P1 /\
   w_heap (world st) !! Z.pos (w_heap_next (world st)) = None /\
   begin 5 4 st = Return OTA_RESPONSE_OK st1) /\
  closed (be st2) /\
  w_heap (world st2) !! 1000 = Some ([x01; x02; x03] ++ replicate 5 x00) /\
  w_psram_free (world st2) = 56.
Proof.
  intros st st1 st2.
  assert (Hs : 0 <= 4 < SIZE_MAX_P1) by (unfold SIZE_MAX_P1; lia).
  assert (Hn : w_heap (world st) !! Z.pos (w_heap_next (world st)) = None)
    by (vm_compute; reflexivity).
  assert (Hb : begin 5 4 st = Return OTA_RESPONSE_OK st1) by (vm_compute; reflexivity).
  split; [split; [apply example_buffered_open_is_open|auto]|].
  destruct (begin_on_open_session_leaks_buffer 5 4 st st1
              example_buffered_open_is_open Hs Hn Hb)
    as (blk & Hblk & _ & _ & _ & Hc & Hl & _ & Hf).
  assert (Eb : blk = [x01; x02; x03] ++ replicate 5 x00)
    by (vm_compute in Hblk; inversion Hblk; reflexivity).
  rewrite Eb in Hl. split; [exact Hc|]. split; [exact Hl|exact Hf].
Defined.

(** X18 at a fresh object in direct mode. *)
Lemma end_direct_before_begin_is_refused_witness :
  let st := example_st false example_world in
  (use_psram_ (be st) = false /\ closed (be st) /\
   digest_passes last_byte_digest (be st) = true /\
   w_ota (world st) !! 0 = None) /\
  exists st',
    end_ last_byte_digest 0 st = Return OTA_RESPONSE_ERROR_UNKNOWN st' /\
    w_table (world st') = w_table (world st) /\
    w_boot (world st') = w_boot (world st).
Proof.
  intros st.
  assert (Hc : closed (be st)) by (vm_compute; auto).
  assert (Hd : digest_passes last_byte_digest (be st) = true) by reflexivity.
  assert (Ho : w_ota (world st) !! 0 = None) by (vm_compute; reflexivity).
  split; [auto|].
  destruct (end_direct_before_begin_is_refused last_byte_digest 0 st
              eq_refl Hc Hd Ho) as (st' & He & _ & Ht & Hb & _).
  exists st'. auto.
Defined.

(** X19 at the open PSRAM-mode session, which received three bytes of
    eight. *)
Lemma end_commits_whole_buffer_witness :
  let st := example_buffered_open in
  let q := example_partition 0 16 "ota_0" 16 in
  let blk := [x01; x02; x03] ++ replicate 5 x00 in
  (open_buffered st /\
   digest_passes last_byte_digest (be st) = true /\
   w_script (world st) = [] /\
   resolve_target (be st) (world st) = Some 2%nat /\
   w_table (world st) !! 2%nat = Some q /\
   w_heap (world st) !! psram_buffer_ (be st) = Some blk /\
   buffer_size_ (be st) <= p_size q /\
   buffer_size_ (be st) + CHUNK_SIZE <= SIZE_MAX_P1 /\
   buffer_size_ (be st) + CHUNK_SIZE <= Z.of_nat 2 * CHUNK_SIZE) /\
  bytes_received_ (be st) < buffer_size_ (be st) /\
  exists st' q',
    end_ last_byte_digest 2 st = Return OTA_RESPONSE_OK st' /\
    w_boot (world st') = Some 2%nat /\
    w_table (world st') !! 2%nat = Some q' /\
    p_data q' = blk ++ replicate 8 xff.
Proof.
  intros st q blk.
  assert (Hd : digest_passes last_byte_digest (be st) = true) by reflexivity.
  assert (Hr : resolve_target (be st) (world st) = Some 2%nat)
    by (vm_compute; reflexivity).
  assert (Hq : w_table (world st) !! 2%nat = Some q) by reflexivity.
  assert (Hh : w_heap (world st) !! psram_buffer_ (be st) = Some blk)
    by (vm_compute; reflexivity).
  assert (H1 : buffer_size_ (be st) <= p_size q) by (vm_compute; discriminate).
  assert (H2 : buffer_size_ (be st) + CHUNK_SIZE <= SIZE_MAX_P1)
    by (vm_compute; discriminate).
  assert (H3 : buffer_size_ (be st) + CHUNK_SIZE <= Z.of_nat 2 * CHUNK_SIZE)
    by (vm_compute; discriminate).
  split; [split; [apply example_buffered_open_is_open|auto 10]|].
  split; [vm_compute; reflexivity|].
  destruct (end_commits_whole_buffer last_byte_digest 2 st 2 q blk
              example_buffered_open_is_open Hd eq_refl Hr Hq Hh H1 H2 H3)
    as (st' & q' & He & _ & Hb & Ht & Hdata & _).
  exists st', q'. auto.
Defined.
